(** * The ownCloud WebDAV backend of csync (modules/csync_owncloud.c)

    A shallow embedding of the remote virtual-I/O module: the error
    mapper, the PROPFIND listing engine with its three one-entry caches,
    stat/readdir, the sendfile transfer paths, close, mkdir, unlink and
    utimes.

    Conventions of the embedding.
    - The file-scope variables of the module (dav_session, _connected,
      propfind_cache, _stat_cache, _id_cache, _progresscb, errno) are
      the fields of one record [globals], threaded through every
      function.
    - A [char *] that the code tests against NULL is an [option string].
    - [struct listdir_context] objects are shared between the caller's
      handle and [propfind_cache]; they live in a store indexed by
      addresses, together with their reference counts.
    - libneon is outside the repository.  What the module sends to it is
      appended to the [wire] log; what it answers (return codes, status,
      headers, PROPFIND results, the session error text) is an explicit
      argument of the function that makes the call.
    - [c_malloc] zero-fills and is taken not to fail.
    - errno is written by the module's own assignments and by the libc
      calls of the module that are specified to write it: [strtoll]
      (ERANGE) and a failing [fstat]. libneon, the host's callback and
      the other libc calls are taken to leave errno as they find it. *)

From Stdlib Require Import ZArith String Ascii List Bool Lia.
From stdpp Require Import base option list gmap strings pretty.
Import ListNotations.

Local Open Scope string_scope.
Local Open Scope Z_scope.

(** ** C integers and C strings *)

Module C.

(** Two's-complement reduction to a signed [w]-bit integer. *)
Definition wrap (w : Z) (z : Z) : Z :=
  (z + 2 ^ (w - 1)) mod 2 ^ w - 2 ^ (w - 1).

(** [int] is 32 bits, [long], [time_t] and [off_t] are 64 bits. *)
Definition int (z : Z) : Z := wrap 32 z.
Definition long (z : Z) : Z := wrap 64 z.

Definition in_long (z : Z) : Prop := - 2 ^ 63 <= z < 2 ^ 63.

(** The double quote character. *)
Definition dquote : ascii := "034"%char.

(** [strlen] as a C [int]-compatible integer. *)
Definition strlen (s : string) : Z := Z.of_nat (String.length s).

(** [s[i]], the terminating NUL included: [None] stands for NUL. *)
Definition char_at (s : string) (i : nat) : option ascii := String.get i s.

(** [strcmp(a, b) == 0]. *)
Definition strcmp_eq (a b : string) : bool := bool_decide (a = b).

(** [strncmp(a, b, n) == 0]: the first [n] bytes agree, or both
    strings end, at the same place, before [n] bytes were compared. *)
Fixpoint strncmp_eq (a b : string) (n : nat) : bool :=
  match n with
  | O => true
  | S n' =>
      match a, b with
      | EmptyString, EmptyString => true
      | String x a', String y b' =>
          if bool_decide (x = y) then strncmp_eq a' b' n' else false
      | _, _ => false
      end
  end.

(** [strncpy(dst, src + from, len); dst[len] = 0] on a source that is
    long enough. *)
Definition copy_range (from len : nat) (src : string) : string :=
  String.substring from len src.

End C.

(** ** Constants of <errno.h> (Linux values) and of libneon *)

Definition EPERM  : Z := 1.
Definition ENOENT : Z := 2.
Definition EIO    : Z := 5.
Definition EBADF  : Z := 9.
Definition EAGAIN : Z := 11.
Definition ENOMEM : Z := 12.
Definition EACCES : Z := 13.
Definition EEXIST : Z := 17.
Definition EINVAL : Z := 22.
Definition EFBIG  : Z := 27.
Definition ENOSPC : Z := 28.
Definition ERANGE : Z := 34.

(** ne_basic.h / ne_session.h *)
Definition NE_OK        : Z := 0.
Definition NE_ERROR     : Z := 1.
Definition NE_LOOKUP    : Z := 2.
Definition NE_AUTH      : Z := 3.
Definition NE_PROXYAUTH : Z := 4.
Definition NE_CONNECT   : Z := 5.
Definition NE_TIMEOUT   : Z := 6.
Definition NE_FAILED    : Z := 7.
Definition NE_RETRY     : Z := 8.
Definition NE_REDIRECT  : Z := 9.
Definition NE_DEPTH_ONE : Z := 1.

Definition OC_TIMEDELTA_FAIL : Z := NE_REDIRECT + 1.
Definition OC_PROPFIND_FAIL  : Z := NE_REDIRECT + 2.

(** ** Data model *)

Inductive resource_type :=
  | resr_normal
  | resr_collection
  | resr_reference
  | resr_error.

(** [struct resource]; the [next] pointer is the tail of the list that
    holds the resource. *)
Record resource := {
  res_uri     : string;
  res_name    : option string;
  res_type    : resource_type;
  res_size    : Z;
  res_modtime : Z;
  res_md5     : option string
}.

(** [struct listdir_context]; [lc_currResource] points into [lc_list] and
    is kept as the suffix that starts at the pointed-to resource. *)
Record listdir_context := {
  lc_list         : list resource;
  lc_currResource : list resource;
  lc_target       : option string;
  lc_result_count : Z;
  lc_ref          : Z
}.

(** [enum csync_vio_file_type_e]: the two values the module assigns and
    the zero value of a fresh [csync_vio_file_stat_t]. *)
Inductive csync_vio_file_type :=
  | CSYNC_VIO_FILE_TYPE_UNKNOWN
  | CSYNC_VIO_FILE_TYPE_REGULAR
  | CSYNC_VIO_FILE_TYPE_DIRECTORY.

(** [csync_vio_file_stat_t], restricted to the members the module uses. *)
Record csync_vio_file_stat_t := {
  fs_name   : option string;
  fs_fields : Z;
  fs_type   : csync_vio_file_type;
  fs_mtime  : Z;
  fs_size   : Z;
  fs_mode   : Z;
  fs_md5    : option string
}.

Record ne_status := {
  klass         : Z;
  code          : Z;
  reason_phrase : option string
}.

(** An [ne_request *] handle: what it was created for. *)
Record ne_request := {
  req_method : string;
  req_path   : option string
}.

(** [struct transfer_context]. [tc_decompress] records whether a
    decompressor is attached; [tc_method] is the string literal that
    [owncloud_open] stores in every handle it returns. *)
Record transfer_context := {
  tc_req        : option ne_request;
  tc_fd         : Z;
  tc_method     : string;
  tc_decompress : bool;
  tc_clean_uri  : option string
}.

(** [struct dav_session_s], without the opaque neon and host handles;
    [ctx] records whether a neon session has been created. *)
Record dav_session_s := {
  ctx            : bool;
  user           : option string;
  pwd            : option string;
  proxy_type     : option string;
  proxy_host     : option string;
  proxy_port     : Z;
  error_string   : option string;
  read_timeout   : Z;
  prev_delta     : Z;
  time_delta     : Z;
  time_delta_sum : Z;
  time_delta_cnt : Z
}.

Inductive csync_notify_type :=
  | CSYNC_NOTIFY_PROGRESS
  | CSYNC_NOTIFY_START_UPLOAD
  | CSYNC_NOTIFY_FINISHED_UPLOAD
  | CSYNC_NOTIFY_START_DOWNLOAD
  | CSYNC_NOTIFY_FINISHED_DOWNLOAD
  | CSYNC_NOTIFY_ERROR.

(** libneon's [ne_session_status], and the [sr] member of
    [ne_session_status_info] that goes with a status of sending or
    receiving. *)
Inductive ne_session_status :=
  | ne_status_lookup
  | ne_status_connecting
  | ne_status_connected
  | ne_status_sending
  | ne_status_recving
  | ne_status_disconnected.

Record ne_session_status_info := {
  sr_progress : Z;
  sr_total    : Z
}.

(** What the module hands to libneon and to the host's progress
    callback, in the order of the calls. [Progress] is a call of the
    callback whose fourth argument is a string or 0, [Progress_bytes]
    the call for CSYNC_NOTIFY_PROGRESS, where the third and fourth
    arguments are byte counts. *)
Inductive event :=
  | Ne_session_create (protocol host : string) (port : Z)
  | Ne_set_read_timeout (seconds : Z)
  | Ne_ssl_set_verify
  | Ne_session_proxy (host : string) (port : Z)
  | Ne_set_proxy_auth
  | Ne_propfind_named (path : option string) (depth : Z)
  | Ne_set_request_body_fd (req : ne_request) (fd size : Z)
  | Ne_add_request_header (req : option ne_request) (name value : string)
  | Ne_request_dispatch (req : option ne_request)
  | Ne_request_destroy (req : option ne_request)
  | Ne_simple_request (req : ne_request)
  | Ne_delete (path : option string)
  | Ne_proppatch (path : option string) (nspace name value : string)
  | Ne_set_notifier (registered : bool)
  | Progress (uri : option string) (kind : csync_notify_type) (arg1 : Z)
             (arg2 : option string)
  | Progress_bytes (uri : option string) (progress total : Z).

Definition addr := positive.

Record id_cache_t := {
  idc_uri : option string;
  idc_id  : option string
}.

(** The module's file-scope state. *)
Record globals := {
  dav_session    : dav_session_s;
  _connected     : bool;
  _progresscb    : bool;
  propfind_cache : option addr;
  _stat_cache    : csync_vio_file_stat_t;
  _id_cache      : id_cache_t;
  errno          : Z;
  store          : gmap addr listdir_context;
  next_addr      : addr;
  wire           : list event
}.

Definition set_dav_session (v : dav_session_s) (g : globals) : globals :=
  {| dav_session := v; _connected := _connected g; _progresscb := _progresscb g;
     propfind_cache := propfind_cache g; _stat_cache := _stat_cache g;
     _id_cache := _id_cache g; errno := errno g; store := store g;
     next_addr := next_addr g; wire := wire g |}.

Definition set_connected (v : bool) (g : globals) : globals :=
  {| dav_session := dav_session g; _connected := v; _progresscb := _progresscb g;
     propfind_cache := propfind_cache g; _stat_cache := _stat_cache g;
     _id_cache := _id_cache g; errno := errno g; store := store g;
     next_addr := next_addr g; wire := wire g |}.

Definition set_propfind_cache (v : option addr) (g : globals) : globals :=
  {| dav_session := dav_session g; _connected := _connected g;
     _progresscb := _progresscb g;
     propfind_cache := v; _stat_cache := _stat_cache g;
     _id_cache := _id_cache g; errno := errno g; store := store g;
     next_addr := next_addr g; wire := wire g |}.

Definition set_stat_cache (v : csync_vio_file_stat_t) (g : globals) : globals :=
  {| dav_session := dav_session g; _connected := _connected g;
     _progresscb := _progresscb g;
     propfind_cache := propfind_cache g; _stat_cache := v;
     _id_cache := _id_cache g; errno := errno g; store := store g;
     next_addr := next_addr g; wire := wire g |}.

Definition set_id_cache (v : id_cache_t) (g : globals) : globals :=
  {| dav_session := dav_session g; _connected := _connected g;
     _progresscb := _progresscb g;
     propfind_cache := propfind_cache g; _stat_cache := _stat_cache g;
     _id_cache := v; errno := errno g; store := store g;
     next_addr := next_addr g; wire := wire g |}.

Definition set_errno (v : Z) (g : globals) : globals :=
  {| dav_session := dav_session g; _connected := _connected g;
     _progresscb := _progresscb g;
     propfind_cache := propfind_cache g; _stat_cache := _stat_cache g;
     _id_cache := _id_cache g; errno := v; store := store g;
     next_addr := next_addr g; wire := wire g |}.

Definition set_store (v : gmap addr listdir_context) (g : globals) : globals :=
  {| dav_session := dav_session g; _connected := _connected g;
     _progresscb := _progresscb g;
     propfind_cache := propfind_cache g; _stat_cache := _stat_cache g;
     _id_cache := _id_cache g; errno := errno g; store := v;
     next_addr := next_addr g; wire := wire g |}.

Definition set_next_addr (v : addr) (g : globals) : globals :=
  {| dav_session := dav_session g; _connected := _connected g;
     _progresscb := _progresscb g;
     propfind_cache := propfind_cache g; _stat_cache := _stat_cache g;
     _id_cache := _id_cache g; errno := errno g; store := store g;
     next_addr := v; wire := wire g |}.

(** Append one call to the log. *)
Definition emit (e : event) (g : globals) : globals :=
  {| dav_session := dav_session g; _connected := _connected g;
     _progresscb := _progresscb g;
     propfind_cache := propfind_cache g; _stat_cache := _stat_cache g;
     _id_cache := _id_cache g; errno := errno g; store := store g;
     next_addr := next_addr g; wire := wire g ++ [e] |}.

(** The three caches of a state, as one value: the cached listing
    pointer, every listing context with its reference count, the stat
    cache and the ETag cache. *)
Definition caches (g : globals)
  : option addr * gmap addr listdir_context * csync_vio_file_stat_t * id_cache_t :=
  (propfind_cache g, store g, _stat_cache g, _id_cache g).

Definition set_error_string (v : option string) (d : dav_session_s) : dav_session_s :=
  {| ctx := ctx d; user := user d; pwd := pwd d; proxy_type := proxy_type d;
     proxy_host := proxy_host d; proxy_port := proxy_port d; error_string := v;
     read_timeout := read_timeout d; prev_delta := prev_delta d;
     time_delta := time_delta d; time_delta_sum := time_delta_sum d;
     time_delta_cnt := time_delta_cnt d |}.

(** The four clock-skew members at once. *)
Definition set_deltas (prev cur sum cnt : Z) (d : dav_session_s) : dav_session_s :=
  {| ctx := ctx d; user := user d; pwd := pwd d; proxy_type := proxy_type d;
     proxy_host := proxy_host d; proxy_port := proxy_port d;
     error_string := error_string d;
     read_timeout := read_timeout d; prev_delta := prev;
     time_delta := cur; time_delta_sum := sum;
     time_delta_cnt := cnt |}.

(** The members [dav_connect] assigns when it builds the session. *)
Definition set_login (c : bool) (u p : option string) (timeout : Z)
    (d : dav_session_s) : dav_session_s :=
  {| ctx := c; user := u; pwd := p; proxy_type := proxy_type d;
     proxy_host := proxy_host d; proxy_port := proxy_port d;
     error_string := error_string d;
     read_timeout := timeout; prev_delta := prev_delta d;
     time_delta := time_delta d; time_delta_sum := time_delta_sum d;
     time_delta_cnt := time_delta_cnt d |}.

(** ** What the module takes from outside this file *)

(** The out-parameters of [c_parse_uri]. *)
Record parsed_uri := {
  pu_scheme : string;
  pu_user   : option string;
  pu_pwd    : option string;
  pu_host   : string;
  pu_port   : Z;
  pu_path   : string
}.

(** What [sscanf] stores for the RFC 1123 format (the week day is
    scanned and dropped). *)
Record scanned_date := {
  sd_mday : Z;
  sd_mon  : string;
  sd_year : Z;
  sd_hour : Z;
  sd_min  : Z;
  sd_sec  : Z
}.

Record tm := {
  tm_sec   : Z;
  tm_min   : Z;
  tm_hour  : Z;
  tm_mday  : Z;
  tm_mon   : Z;
  tm_year  : Z;
  tm_isdst : Z
}.

(** Constants of headers that are not part of the module (the ERRNO_
    codes of csync, the field flags of vio/csync_vio_file_stat.h) and
    the library functions it calls on strings: the csync std library,
    libneon's path functions, libc's [strtol], [sscanf] and [timegm]. *)
Class Platform := {
  ERRNO_GENERAL_ERROR          : Z;
  ERRNO_LOOKUP_ERROR           : Z;
  ERRNO_USER_UNKNOWN_ON_SERVER : Z;
  ERRNO_PROXY_AUTH             : Z;
  ERRNO_CONNECT                : Z;
  ERRNO_TIMEOUT                : Z;
  ERRNO_PRECONDITION           : Z;
  ERRNO_RETRY                  : Z;
  ERRNO_REDIRECT               : Z;
  ERRNO_WRONG_CONTENT          : Z;
  ERRNO_ERROR_STRING           : Z;
  ERRNO_SERVICE_UNAVAILABLE    : Z;
  CSYNC_VIO_FILE_STAT_FIELDS_NONE        : Z;
  CSYNC_VIO_FILE_STAT_FIELDS_TYPE        : Z;
  CSYNC_VIO_FILE_STAT_FIELDS_PERMISSIONS : Z;
  CSYNC_VIO_FILE_STAT_FIELDS_SIZE        : Z;
  CSYNC_VIO_FILE_STAT_FIELDS_MTIME       : Z;
  CSYNC_VIO_FILE_STAT_FIELDS_MD5         : Z;
  (** [None] when [c_parse_uri] returns a negative value. *)
  c_parse_uri : string -> option parsed_uri;
  c_basename  : string -> option string;
  c_streq     : option string -> option string -> bool;
  (** On two strings [c_streq] is string equality; nothing is assumed of
      it on a NULL argument. *)
  c_streq_strings : forall a b : string,
    c_streq (Some a) (Some b) = bool_decide (a = b);
  ne_path_escape   : string -> string;
  ne_path_unescape : string -> string;
  ne_path_compare  : string -> string -> Z;
  (** [strtol(p, &q, 10)]: the value and [q - p]. *)
  strtol : string -> Z * nat;
  (** Whether that call stores ERANGE in errno: the number read does
      not fit a [long]. *)
  strtol_ERANGE : string -> bool;
  sscanf_rfc1123 : string -> scanned_date;
  timegm : tm -> Z
}.

(** <sys/stat.h> *)
Definition S_IFDIR : Z := 16384.
Definition S_IFREG : Z := 32768.
Definition S_IRUSR : Z := 256.
Definition S_IWUSR : Z := 128.
Definition S_IXUSR : Z := 64.
Definition S_IRGRP : Z := 32.
Definition S_IXGRP : Z := 8.
Definition S_IROTH : Z := 4.
Definition S_IXOTH : Z := 1.

(** ** The module *)

Section Owncloud.

Context `{Platform}.

(** *** The error mapper *)

Definition set_error_message (msg : option string) (g : globals) : globals :=
  set_dav_session (set_error_string msg (dav_session g)) g.

Definition set_errno_from_http_errcode (err : Z) (g : globals) : globals :=
  let new_errno :=
    match err with
    | 200 | 201 | 202 | 203 | 204 | 205 | 207 | 304 => 0
    | 401 | 402 | 407 | 405 => EPERM
    | 301 | 303 | 404 | 410 => ENOENT
    | 408 | 504 => EAGAIN
    | 423 => EACCES
    | 400 | 403 | 409 | 411 | 412 | 414 | 415 | 424 | 501 => EINVAL
    | 507 => ENOSPC
    | 206 | 300 | 302 | 305 | 306 | 307 | 406 | 416 | 417 | 422
    | 500 | 502 | 505 => EIO
    | 503 => ERRNO_SERVICE_UNAVAILABLE
    | 413 => EFBIG
    | _ => EIO
    end in
  set_errno new_errno g.

(** [errmsg] is what [ne_get_error] returns for the session. *)
Definition http_result_code_from_session (errmsg : string) (g : globals)
  : globals * Z :=
  let g := set_error_message (Some errmsg) g in
  let '(v, consumed) := strtol errmsg in
  let err := C.int v in
  (g, if bool_decide (consumed = O) then ERRNO_ERROR_STRING else err).

Definition set_errno_from_session (errmsg : string) (g : globals) : globals :=
  let '(g, err) := http_result_code_from_session errmsg g in
  if (err =? EIO) || (err =? ERRNO_ERROR_STRING)
  then set_errno err g
  else set_errno_from_http_errcode err g.

Definition set_errno_from_neon_errcode (neon_code : Z) (errmsg : string)
    (g : globals) : globals :=
  match neon_code with
  | 0 | 1 => set_errno_from_session errmsg g
  | 2 => set_errno ERRNO_LOOKUP_ERROR g
  | 3 => set_errno ERRNO_USER_UNKNOWN_ON_SERVER g
  | 4 => set_errno ERRNO_PROXY_AUTH g
  | 5 => set_errno ERRNO_CONNECT g
  | 6 => set_errno ERRNO_TIMEOUT g
  | 7 => set_errno ERRNO_PRECONDITION g
  | 8 => set_errno ERRNO_RETRY g
  | 9 => set_errno ERRNO_REDIRECT g
  | _ => set_errno ERRNO_GENERAL_ERROR g
  end.

(** [s] is one of the listed status codes. *)
Definition among (s : Z) (l : list Z) : bool := existsb (Z.eqb s) l.

(** The table of the design document, read literally: every status
    from 200 to 207 is a success. *)
Definition errno_table_as_specified (s : Z) : Z :=
  if (200 <=? s) && (s <=? 207) || (s =? 304) then 0
  else if among s [401; 402; 405; 407] then EPERM
  else if among s [301; 303; 404; 410] then ENOENT
  else if among s [408; 504] then EAGAIN
  else if s =? 423 then EACCES
  else if among s [400; 403; 409; 411; 412; 414; 415; 424; 501] then EINVAL
  else if s =? 413 then EFBIG
  else if s =? 507 then ENOSPC
  else if s =? 503 then ERRNO_SERVICE_UNAVAILABLE
  else EIO.

(** The same table with 206 (Partial Content) taken out of the
    successes. *)
Definition errno_table (s : Z) : Z :=
  if (200 <=? s) && (s <=? 205) || (s =? 207) || (s =? 304) then 0
  else if among s [401; 402; 405; 407] then EPERM
  else if among s [301; 303; 404; 410] then ENOENT
  else if among s [408; 504] then EAGAIN
  else if s =? 423 then EACCES
  else if among s [400; 403; 409; 411; 412; 414; 415; 424; 501] then EINVAL
  else if s =? 413 then EFBIG
  else if s =? 507 then ENOSPC
  else if s =? 503 then ERRNO_SERVICE_UNAVAILABLE
  else EIO.


(** *** Paths and the session *)

(** [_cleanPath]: the escaped path of a URI, NULL when it does not
    parse. *)
Definition _cleanPath (uri : string) : option string :=
  match c_parse_uri uri with
  | None => None
  | Some p => Some (ne_path_escape (pu_path p))
  end.

(** What the transport answers while [dav_connect] builds a session. *)
Record connect_io := {
  co_sock_init       : Z;      (* ne_sock_init() *)
  co_session_created : bool;   (* ne_session_create() != NULL *)
  co_has_ssl         : bool    (* ne_has_support(NE_FEATURE_SSL) *)
}.

(** [ne_uri_defaultport]. *)
Definition ne_uri_defaultport (protocol : string) : Z :=
  if bool_decide (protocol = "http") then 80
  else if bool_decide (protocol = "https") then 443
  else 0.

(** [configureProxy], for a session that exists. *)
Definition configureProxy (g : globals) : globals * Z :=
  let d := dav_session g in
  match proxy_type d with
  | None => (g, 0)
  | Some _ =>
      let port := if 0 <? proxy_port d then proxy_port d else 8080 in
      if c_streq (proxy_type d) (Some "NoProxy") then (g, 0)
      else if c_streq (proxy_type d) (Some "DefaultProxy")
              || c_streq (proxy_type d) (Some "HttpProxy")
              || c_streq (proxy_type d) (Some "HttpCachingProxy")
      then match proxy_host d with
           | Some h => (emit (Ne_session_proxy h port) g, 2)
           | None => (g, -1)
           end
      else (g, -1)
  end.

(** [dav_connect]. A failing [c_parse_uri] returns -1. *)
Definition dav_connect (base_url : string) (io : connect_io) (g : globals)
  : globals * Z :=
  if _connected g then (g, 0)
  else
    let d := dav_session g in
    let g := set_dav_session (set_deltas 0 (time_delta d) 0 0 d) g in
    match c_parse_uri base_url with
    | None => (g, -1)
    | Some u =>
        let g := set_dav_session
                   (set_login (ctx (dav_session g)) (pu_user u) (pu_pwd u)
                              (read_timeout (dav_session g)) (dav_session g)) g in
        let scheme :=
          if C.strcmp_eq (pu_scheme u) "owncloud" then Some ("http", false)
          else if C.strcmp_eq (pu_scheme u) "ownclouds" then Some ("https", true)
          else None in
        match scheme with
        | None => (g, -1)
        | Some (protocol, useSSL) =>
            let port := if pu_port u =? 0 then ne_uri_defaultport protocol
                        else pu_port u in
            if co_sock_init io <? 0 then (g, -1)
            else
              let g := emit (Ne_session_create protocol (pu_host u) port) g in
              let d := dav_session g in
              let g := set_dav_session
                         (set_login (co_session_created io) (user d) (pwd d)
                                    (read_timeout d) d) g in
              if negb (co_session_created io) then (g, -1)
              else
                let d := dav_session g in
                let timeout := if read_timeout d =? 0 then 30 else read_timeout d in
                let g := set_dav_session
                           (set_login (ctx d) (user d) (pwd d) timeout d) g in
                let g := emit (Ne_set_read_timeout timeout) g in
                if useSSL && negb (co_has_ssl io) then (g, -1)
                else
                  let g := if useSSL then emit Ne_ssl_set_verify g else g in
                  let '(g, proxystate) := configureProxy g in
                  let g := if 0 <? proxystate then emit Ne_set_proxy_auth g else g in
                  (set_connected true g, 0)
        end
    end.

(** *** The date codec *)

Definition short_months : list string :=
  ["Jan"; "Feb"; "Mar"; "Apr"; "May"; "Jun";
   "Jul"; "Aug"; "Sep"; "Oct"; "Nov"; "Dec"].

(** The loop over [short_months]: the index of the first match, counted
    from [n]; the length of the table past its end. *)
Fixpoint month_index (mon : string) (table : list string) (n : Z) : Z :=
  match table with
  | [] => n
  | m :: table' =>
      if C.strcmp_eq mon m then n else month_index mon table' (n + 1)
  end.

Definition oc_httpdate_parse (date : string) : Z :=
  let sc := sscanf_rfc1123 date in
  timegm {| tm_sec := sd_sec sc; tm_min := sd_min sc; tm_hour := sd_hour sc;
            tm_mday := sd_mday sc;
            tm_mon := month_index (sd_mon sc) short_months 0;
            tm_year := C.int (sd_year sc - 1900);
            tm_isdst := -1 |}.

(** *** The listing engine *)

(** One response element of a PROPFIND multistatus: the request path of
    the resource and the four properties of [ls_props]. *)
Record prop_result := {
  pr_path         : string;
  pr_modtime      : option string;   (* DAV:getlastmodified *)
  pr_clength      : option string;   (* DAV:getcontentlength *)
  pr_resourcetype : option string;   (* DAV:resourcetype *)
  pr_etag         : option string    (* DAV:getetag *)
}.

(** The content id kept for a wire ETag: the bytes between the first
    and the last one, when there are any. *)
Definition md5_of_etag (md5sum : string) : option string :=
  let len := C.int (C.strlen md5sum - 2) in
  if 0 <? len then Some (C.copy_range 1 (Z.to_nat len) md5sum) else None.

(** [results], the PROPFIND callback, on the listing context under
    construction; what it does to errno is [results_errno] below.
    [DAV_STRTOL] is [strtoll], which is [strtol] where [long] has 64
    bits. *)
Definition results (fetchCtx : listdir_context) (r : prop_result)
  : listdir_context :=
  let path := ne_path_unescape (pr_path r) in
  match lc_target fetchCtx with
  | None => fetchCtx
  | Some _ =>
      let newres :=
        {| res_uri := path;
           res_name := c_basename path;
           res_type :=
             match pr_clength r, pr_resourcetype r with
             | None, Some rt =>
                 if C.strncmp_eq rt "<DAV:collection>" 16
                 then resr_collection else resr_normal
             | _, _ => resr_normal
             end;
           res_size :=
             match pr_clength r with
             | Some clength =>
                 let '(v, consumed) := strtol clength in
                 if bool_decide (C.char_at clength consumed = None) then v else 0
             | None => 0
             end;
           res_modtime :=
             match pr_modtime r with
             | Some modtime => oc_httpdate_parse modtime
             | None => 0
             end;
           res_md5 :=
             match pr_etag r with
             | Some md5sum => md5_of_etag md5sum
             | None => None
             end |} in
      {| lc_list := newres :: lc_list fetchCtx;
         lc_currResource := lc_currResource fetchCtx;
         lc_target := lc_target fetchCtx;
         lc_result_count := (lc_result_count fetchCtx + 1) mod 2 ^ 32;
         lc_ref := lc_ref fetchCtx |}
  end.

(** [results] on errno, for a context with the given target: the
    callback assigns nothing to errno itself, but its [strtoll] of the
    content length stores ERANGE when the number does not fit, and
    nothing resets it. *)
Definition results_errno (target : option string) (e : Z) (r : prop_result)
  : Z :=
  match target, pr_clength r with
  | Some _, Some clength => if strtol_ERANGE clength then ERANGE else e
  | _, _ => e
  end.

Definition set_ref (r : Z) (c : listdir_context) : listdir_context :=
  {| lc_list := lc_list c; lc_currResource := lc_currResource c;
     lc_target := lc_target c; lc_result_count := lc_result_count c;
     lc_ref := r |}.

Definition set_currResource (l : list resource) (c : listdir_context)
  : listdir_context :=
  {| lc_list := lc_list c; lc_currResource := l;
     lc_target := lc_target c; lc_result_count := lc_result_count c;
     lc_ref := lc_ref c |}.

(** [free_fetchCtx]: drop one reference; release the context with the
    last one. *)
Definition free_fetchCtx (ctx : option addr) (g : globals) : globals :=
  match ctx with
  | None => g
  | Some a =>
      match store g !! a with
      | None => g
      | Some c =>
          let r := C.int (lc_ref c - 1) in
          if 0 <? r then set_store (<[a := set_ref r c]> (store g)) g
          else set_store (delete a (store g)) g
      end
  end.

Definition clean_caches (g : globals) : globals :=
  let g := free_fetchCtx (propfind_cache g) g in
  let g := set_propfind_cache None g in
  let sc := _stat_cache g in
  let g := set_stat_cache
             {| fs_name := None; fs_fields := fs_fields sc; fs_type := fs_type sc;
                fs_mtime := fs_mtime sc; fs_size := fs_size sc;
                fs_mode := fs_mode sc; fs_md5 := None |} g in
  set_id_cache {| idc_uri := None; idc_id := None |} g.

(** What the server and the clock answer to one PROPFIND. The [Date]
    header is handed to [sscanf] unchecked, so a reply carries one. *)
Record propfind_reply := {
  pf_ret          : Z;                 (* ne_propfind_named() *)
  pf_status       : ne_status;         (* ne_get_status() *)
  pf_results      : list prop_result;  (* one call of [results] each *)
  pf_content_type : option string;
  pf_date         : string;
  pf_now          : Z;                 (* time(NULL) *)
  pf_error        : string             (* ne_get_error() *)
}.

(** The clock-skew bookkeeping of a successful PROPFIND. *)
Definition update_time_delta (server_time now : Z) (g : globals) : globals :=
  if server_time =? 0 then g
  else
    let d := dav_session g in
    let time_diff := C.long (server_time - now) in
    set_dav_session
      (set_deltas (time_delta d) time_diff
                  (C.long (time_delta_sum d + time_diff))
                  (C.long (time_delta_cnt d + 1)) d) g.

(** [fetch_resource_list]. The fresh context gets the next free
    address; it enters the store when the function keeps it.
    [ne_propfind_create] always returns a handler. The callback runs
    once for each result while [ne_propfind_named] is at work: the
    context and errno are then as the calls of [results] leave them. *)
Definition fetch_resource_list (uri : string) (depth : Z) (r : propfind_reply)
    (g : globals) : globals * option addr :=
  let curi := _cleanPath uri in
  let hit :=
    match propfind_cache g with
    | Some a =>
        match store g !! a with
        | Some c => if c_streq curi (lc_target c) then Some (a, c) else None
        | None => None
        end
    | None => None
    end in
  match hit with
  | Some (a, c) =>
      (set_store (<[a := set_ref (C.int (lc_ref c + 1)) c]> (store g)) g, Some a)
  | None =>
      let a := next_addr g in
      let g := set_next_addr (Pos.succ a) g in
      let fetchCtx :=
        {| lc_list := []; lc_currResource := []; lc_target := curi;
           lc_result_count := 0; lc_ref := 1 |} in
      let g := emit (Ne_propfind_named curi depth) g in
      let g := set_errno
                 (fold_left (results_errno curi) (pf_results r) (errno g)) g in
      let fetchCtx := fold_left results (pf_results r) fetchCtx in
      let ret := pf_ret r in
      let req_status := pf_status r in
      let '(g, fetchCtx, ret) :=
        if ret =? NE_OK then
          let fetchCtx := set_currResource (lc_list fetchCtx) fetchCtx in
          if negb (klass req_status =? 2) then
            let g := set_errno_from_http_errcode (code req_status) g in
            let g := set_error_message (reason_phrase req_status) g in
            let g := if _progresscb g
                     then emit (Progress (Some uri) CSYNC_NOTIFY_ERROR
                                         (code req_status)
                                         (reason_phrase req_status)) g
                     else g in
            (g, fetchCtx, NE_CONNECT)
          else (g, fetchCtx, ret)
        else if (ret =? NE_ERROR) && (code req_status =? 404)
             then (set_errno ENOENT g, fetchCtx, ret)
             else (set_errno_from_neon_errcode ret (pf_error r) g, fetchCtx, ret) in
      let '(g, ret) :=
        if ret =? NE_OK then
          if c_streq (pf_content_type r) (Some "application/xml; charset=utf-8")
             && bool_decide (pf_content_type r <> None)
          then (g, ret)
          else
            let g := set_errno ERRNO_WRONG_CONTENT g in
            let g := set_error_message
                       (Some "Server error: PROPFIND reply is not XML formatted!") g in
            (g, NE_CONNECT)
        else (g, ret) in
      let g :=
        if ret =? NE_OK
        then update_time_delta (oc_httpdate_parse (pf_date r)) (pf_now r) g
        else g in
      if negb (ret =? NE_OK) then (g, None)
      else
        let g := free_fetchCtx (propfind_cache g) g in
        let g := set_propfind_cache (Some a) g in
        let g := set_store
                   (<[a := set_ref (C.int (lc_ref fetchCtx + 1)) fetchCtx]> (store g)) g in
        (g, Some a)
  end.

(** *** stat and the stat cache *)

(** A zero-filled [csync_vio_file_stat_t]. *)
Definition zero_file_stat : csync_vio_file_stat_t :=
  {| fs_name := None; fs_fields := 0; fs_type := CSYNC_VIO_FILE_TYPE_UNKNOWN;
     fs_mtime := 0; fs_size := 0; fs_mode := 0; fs_md5 := None |}.

(** [resourceToFileStat]; it reads [dav_session.time_delta]. *)
Definition resourceToFileStat (res : option resource) (g : globals)
  : option csync_vio_file_stat_t :=
  match res with
  | None => None
  | Some res =>
      let fields := CSYNC_VIO_FILE_STAT_FIELDS_NONE in
      let '(fields, type) :=
        match res_type res with
        | resr_normal =>
            (Z.lor fields CSYNC_VIO_FILE_STAT_FIELDS_TYPE,
             CSYNC_VIO_FILE_TYPE_REGULAR)
        | resr_collection =>
            (Z.lor fields CSYNC_VIO_FILE_STAT_FIELDS_TYPE,
             CSYNC_VIO_FILE_TYPE_DIRECTORY)
        | _ => (fields, fs_type zero_file_stat)
        end in
      let mtime := C.long (res_modtime res - time_delta (dav_session g)) in
      let fields := Z.lor fields CSYNC_VIO_FILE_STAT_FIELDS_MTIME in
      let fields := Z.lor fields CSYNC_VIO_FILE_STAT_FIELDS_SIZE in
      let fields := Z.lor fields CSYNC_VIO_FILE_STAT_FIELDS_MD5 in
      Some {| fs_name := res_name res; fs_fields := fields; fs_type := type;
              fs_mtime := mtime; fs_size := res_size res;
              fs_mode := fs_mode zero_file_stat; fs_md5 := res_md5 res |}
  end.

Definition _stat_perms (type : csync_vio_file_type) : Z :=
  match type with
  | CSYNC_VIO_FILE_TYPE_DIRECTORY =>
      Z.lor S_IFDIR (Z.lor S_IRUSR (Z.lor S_IWUSR (Z.lor S_IXUSR
        (Z.lor S_IRGRP (Z.lor S_IXGRP (Z.lor S_IROTH S_IXOTH))))))
  | _ =>
      Z.lor S_IFREG (Z.lor S_IRUSR (Z.lor S_IWUSR (Z.lor S_IRGRP S_IROTH)))
  end.

Definition fill_stat_cache (lfs : option csync_vio_file_stat_t) (g : globals)
  : globals :=
  let sc := _stat_cache g in
  match lfs with
  | None =>
      set_stat_cache
        {| fs_name := None; fs_fields := fs_fields sc; fs_type := fs_type sc;
           fs_mtime := fs_mtime sc; fs_size := fs_size sc;
           fs_mode := fs_mode sc; fs_md5 := None |} g
  | Some lfs =>
      set_stat_cache
        {| fs_name := fs_name lfs; fs_fields := fs_fields lfs;
           fs_type := fs_type lfs; fs_mtime := fs_mtime lfs;
           fs_size := fs_size lfs; fs_mode := fs_mode sc;
           fs_md5 := fs_md5 lfs |} g
  end.

(** The loop that drops trailing slashes: [len] counts down while
    [uri[len-1]] is a slash. *)
Fixpoint without_trailing_slashes (uri : string) (len : nat) : nat :=
  match len with
  | O => O
  | S l =>
      if bool_decide (C.char_at uri l = Some "/"%char)
      then without_trailing_slashes uri l
      else len
  end.

(** The test of the search loop of [owncloud_stat] for one resource. *)
Definition is_target (decodedUri : string) (res : resource) : bool :=
  let len := without_trailing_slashes (res_uri res) (String.length (res_uri res)) in
  C.strncmp_eq (res_uri res) decodedUri len
  && bool_decide (C.char_at decodedUri len = None).

(** The search loop: the first resource of the list that is the target.
    A context without target has an empty list ([results] adds nothing
    to it). *)
Fixpoint find_target (target : option string) (l : list resource)
  : option resource :=
  match l with
  | [] => None
  | res :: next =>
      match target with
      | None => None
      | Some t =>
          if is_target (ne_path_unescape t) res then Some res
          else find_target target next
      end
  end.

(** The test that guards the cached answer of [owncloud_stat]:
    [_stat_cache.name && strcmp(buf->name, _stat_cache.name) == 0]. *)
Definition stat_cache_hit (name : string) (g : globals) : bool :=
  match fs_name (_stat_cache g) with
  | Some n => C.strcmp_eq name n
  | None => false
  end.

(** [owncloud_stat]; [buf] is the caller's buffer, returned as the call
    leaves it. The reply is read only if a PROPFIND is sent. *)
Definition owncloud_stat (uri : string) (buf : csync_vio_file_stat_t)
    (r : propfind_reply) (g : globals)
  : globals * csync_vio_file_stat_t * Z :=
  let g := set_errno 0 g in
  let buf := {| fs_name := c_basename uri; fs_fields := fs_fields buf;
                fs_type := fs_type buf; fs_mtime := fs_mtime buf;
                fs_size := fs_size buf; fs_mode := fs_mode buf;
                fs_md5 := fs_md5 buf |} in
  match fs_name buf with
  | None => (set_errno ENOMEM g, buf, -1)
  | Some name =>
      let sc := _stat_cache g in
      if stat_cache_hit name g then
        let fields := fs_fields sc in
        let fields := match fs_md5 sc with
                      | Some _ => Z.lor fields CSYNC_VIO_FILE_STAT_FIELDS_MD5
                      | None => fields
                      end in
        (g,
         {| fs_name := fs_name buf; fs_fields := fields; fs_type := fs_type sc;
            fs_mtime := fs_mtime sc; fs_size := fs_size sc;
            fs_mode := _stat_perms (fs_type sc); fs_md5 := fs_md5 sc |},
         0)
      else
        let '(g, fetchCtx) := fetch_resource_list uri NE_DEPTH_ONE r g in
        match fetchCtx with
        | None => (g, buf, -1)
        | Some a =>
            let res :=
              match store g !! a with
              | Some c => find_target (lc_target c) (lc_list c)
              | None => None
              end in
            let buf :=
              match resourceToFileStat res g with
              | Some lfs =>
                  {| fs_name := fs_name buf; fs_fields := fs_fields lfs;
                     fs_type := fs_type lfs; fs_mtime := fs_mtime lfs;
                     fs_size := fs_size lfs;
                     fs_mode := _stat_perms (fs_type lfs);
                     fs_md5 := fs_md5 lfs |}
              | None => buf
              end in
            (free_fetchCtx (Some a) g, buf, 0)
        end
  end.

(** *** Directory handles *)

Definition owncloud_opendir (uri : string) (cio : connect_io)
    (r : propfind_reply) (g : globals) : globals * option addr :=
  let '(g, _) := dav_connect uri cio g in
  let '(g, fetchCtx) := fetch_resource_list uri NE_DEPTH_ONE r g in
  match fetchCtx with
  | None => (g, None)
  | Some a =>
      (set_store (alter (fun c => set_currResource (lc_list c) c) a (store g)) g,
       Some a)
  end.

Definition owncloud_closedir (dhandle : option addr) (g : globals)
  : globals * Z :=
  (free_fetchCtx dhandle g, 0).

(** The loop of [owncloud_readdir] over the resources from the cursor
    on: the resource to return, if any, and the new cursor. The entry of
    the target itself is skipped. *)
Fixpoint readdir_next (target : option string) (curr : list resource)
  : option resource * list resource :=
  match curr with
  | [] => (None, [])
  | currResource :: next =>
      let escaped_path := ne_path_escape (res_uri currResource) in
      let differs :=
        match target with
        | Some t => negb (ne_path_compare t escaped_path =? 0)
        | None => true
        end in
      if differs then (Some currResource, next)
      else readdir_next target next
  end.

Definition owncloud_readdir (dhandle : addr) (g : globals)
  : globals * option csync_vio_file_stat_t :=
  match store g !! dhandle with
  | None => (g, None)
  | Some fetchCtx =>
      match readdir_next (lc_target fetchCtx) (lc_currResource fetchCtx) with
      | (None, curr) =>
          (set_store (<[dhandle := set_currResource curr fetchCtx]> (store g)) g,
           None)
      | (Some currResource, curr) =>
          let g := set_store
                     (<[dhandle := set_currResource curr fetchCtx]> (store g)) g in
          let lfs := resourceToFileStat (Some currResource) g in
          (fill_stat_cache lfs g, lfs)
      end
  end.

(** *** The transfer engine *)

(** The response headers the module looks at. *)
Record response_headers := {
  h_content_encoding : option string;
  h_etag             : option string
}.

Definition set_decompress (b : bool) (t : transfer_context) : transfer_context :=
  {| tc_req := tc_req t; tc_fd := tc_fd t; tc_method := tc_method t;
     tc_decompress := b; tc_clean_uri := tc_clean_uri t |}.

Definition set_fd (fd : Z) (t : transfer_context) : transfer_context :=
  {| tc_req := tc_req t; tc_fd := fd; tc_method := tc_method t;
     tc_decompress := tc_decompress t; tc_clean_uri := tc_clean_uri t |}.

(** [install_content_reader], the post-header hook of a GET: it picks
    the body reader and records the ETag header as it came. *)
Definition install_content_reader (writeCtx : option transfer_context)
    (hdrs : response_headers) (g : globals)
  : globals * option transfer_context :=
  match writeCtx with
  | None => (g, None)
  | Some t =>
      let gzip :=
        match h_content_encoding hdrs with
        | Some enc => c_streq (Some enc) (Some "gzip")
        | None => false
        end in
      let t := set_decompress gzip t in
      match h_etag hdrs with
      | Some enc =>
          if bool_decide (enc <> "")
          then (set_id_cache {| idc_uri := tc_clean_uri t; idc_id := Some enc |} g,
                Some t)
          else (g, Some t)
      | None => (g, Some t)
      end
  end.

(** What the system and one dispatched request return to
    [owncloud_sendfile]. [sf_headers] is [None] when the request ends
    before a response header block arrives, so that the post-header
    hook does not run. [sf_notify] lists the status reports that
    libneon makes during the dispatch to a registered notifier. *)
Record sendfile_io := {
  sf_fstat       : option Z;   (* st_size, when fstat() returns 0 *)
  sf_fstat_errno : Z;          (* errno of an fstat() that fails *)
  sf_neon_stat   : Z;          (* ne_request_dispatch() *)
  sf_status      : ne_status;  (* ne_get_status() *)
  sf_headers     : option response_headers;
  sf_notify      : list (ne_session_status * ne_session_status_info);
  sf_error       : string      (* ne_get_error() *)
}.

(** [ne_notify_status_cb], the notifier that [owncloud_sendfile]
    registers for the time of a dispatch. *)
Definition ne_notify_status_cb (tc : transfer_context)
    (status : ne_session_status) (info : ne_session_status_info)
    (g : globals) : globals :=
  if _progresscb g
     && match status with
        | ne_status_sending | ne_status_recving => true
        | _ => false
        end
  then
    if 0 <? sr_total info
    then emit (Progress_bytes (tc_clean_uri tc) (sr_progress info)
                 (sr_total info)) g
    else g
  else g.

(** The status reports of one dispatch, handed to the notifier. *)
Definition notify (tc : transfer_context)
    (reports : list (ne_session_status * ne_session_status_info))
    (g : globals) : globals :=
  fold_left (fun g report => ne_notify_status_cb tc report.1 report.2 g)
            reports g.

(** The verdict on a status whose class is not 2. *)
Definition soft_error (status : ne_status) : Z :=
  if klass status =? 4 then 1
  else if klass status =? 5 then 1
  else 1.

(** [owncloud_sendfile]; [src] is the [fd] of the source handle. The
    notifier is registered only around the dispatch, and only with a
    progress callback set; the status reports and the post-header hook
    of a GET act on different parts of the state, so their order
    during the dispatch does not show. *)
Definition owncloud_sendfile (src : option Z) (hdl : option transfer_context)
    (io : sendfile_io) (g : globals)
  : globals * option transfer_context * Z :=
  match hdl with
  | None => (set_errno EINVAL g, hdl, -1)
  | Some write_ctx =>
      match src with
      | None => (set_errno EINVAL g, hdl, -1)
      | Some fd =>
          if c_streq (Some (tc_method write_ctx)) (Some "PUT") then
            match tc_req write_ctx with
            | Some request =>
                match sf_fstat io with
                | Some st_size =>
                    let g := emit (Ne_set_request_body_fd request fd st_size) g in
                    let g := if _progresscb g
                             then emit (Progress (tc_clean_uri write_ctx)
                                          CSYNC_NOTIFY_START_UPLOAD 0 None)
                                    (emit (Ne_set_notifier true) g)
                             else g in
                    let g := emit (Ne_request_dispatch (tc_req write_ctx)) g in
                    let g := if _progresscb g
                             then notify write_ctx (sf_notify io) g
                             else g in
                    let g := set_errno_from_neon_errcode
                               (sf_neon_stat io) (sf_error io) g in
                    let status := sf_status io in
                    let '(g, rc, error_code, error_string) :=
                      if negb (klass status =? 2)
                      then (set_errno_from_http_errcode (code status) g,
                            soft_error status, code status, reason_phrase status)
                      else (g, 0, 0, None) in
                    let g := if _progresscb g
                             then emit (Progress (tc_clean_uri write_ctx)
                                          (if negb (rc =? NE_OK)
                                           then CSYNC_NOTIFY_ERROR
                                           else CSYNC_NOTIFY_FINISHED_UPLOAD)
                                          error_code error_string)
                                    (emit (Ne_set_notifier false) g)
                             else g in
                    (g, hdl, rc)
                | None => (set_errno (sf_fstat_errno io) g, hdl, 1)
                end
            | None => (g, hdl, 1)
            end
          else if c_streq (Some (tc_method write_ctx)) (Some "GET") then
            let write_ctx := set_fd fd write_ctx in
            let g := if _progresscb g
                     then emit (Progress (tc_clean_uri write_ctx)
                                  CSYNC_NOTIFY_START_DOWNLOAD 0 None)
                            (emit (Ne_set_notifier true) g)
                     else g in
            let g := emit (Ne_add_request_header (tc_req write_ctx)
                             "Accept-Encoding" "gzip") g in
            let g := emit (Ne_request_dispatch (tc_req write_ctx)) g in
            let g := if _progresscb g
                     then notify write_ctx (sf_notify io) g
                     else g in
            let '(g, write_ctx) :=
              match sf_headers io with
              | Some hdrs =>
                  match install_content_reader (Some write_ctx) hdrs g with
                  | (g, Some t) => (g, t)
                  | (g, None) => (g, write_ctx)
                  end
              | None => (g, write_ctx)
              end in
            let status := sf_status io in
            let '(g, rc, error_code, error_string) :=
              if negb (sf_neon_stat io =? NE_OK)
              then (set_errno_from_neon_errcode (sf_neon_stat io) (sf_error io) g,
                    -1, 0, None)
              else if negb (klass status =? 2)
                   then (set_errno_from_http_errcode (code status) g,
                         soft_error status, code status, reason_phrase status)
                   else (g, 0, 0, None) in
            let g := if _progresscb g
                     then emit (Progress (tc_clean_uri write_ctx)
                                  (if negb (rc =? NE_OK)
                                   then CSYNC_NOTIFY_ERROR
                                   else CSYNC_NOTIFY_FINISHED_DOWNLOAD)
                                  error_code error_string)
                            (emit (Ne_set_notifier false) g)
                     else g in
            (g, Some write_ctx, rc)
          else (g, hdl, -1)
      end
  end.

Definition owncloud_close (fhandle : option transfer_context) (g : globals)
  : globals * Z :=
  match fhandle with
  | None => (set_errno EBADF g, -1)
  | Some writeCtx =>
      let ret := 0 in
      let g := emit (Ne_request_destroy (tc_req writeCtx)) g in
      let g := if negb (ret =? -1) && C.strcmp_eq (tc_method writeCtx) "PUT"
               then clean_caches g
               else g in
      (g, ret)
  end.

(** *** Namespace operations *)

(** What a request that has no body to read returns. *)
Record simple_io := {
  si_rc     : Z;          (* the neon return code *)
  si_status : ne_status;  (* ne_get_status() *)
  si_error  : string      (* ne_get_error() *)
}.

(** [path[len-1]], for the [len] of [strlen]; reading before the start
    of an empty string is undefined. *)
Definition last_char (path : string) : option ascii :=
  match String.length path with
  | O => None
  | S l => C.char_at path l
  end.

(** [owncloud_mkdir]. [None] is undefined behaviour: the path is NULL
    or empty where the code takes its length and reads its last byte. *)
Definition owncloud_mkdir (uri : string) (cio : connect_io) (io : simple_io)
    (g : globals) : option (globals * Z) :=
  let path := _cleanPath uri in
  let g := match path with
           | None => set_errno EINVAL g
           | Some _ => g
           end in
  let '(g, rc) := dav_connect uri cio g in
  let g := if rc <? 0 then set_errno EINVAL g else g in
  let finish (g : globals) (rc : Z) : globals * Z :=
    (g, if (rc <? 0) || negb (rc =? NE_OK) then -1 else 0) in
  if 0 <=? rc then
    match path with
    | None => None
    | Some path =>
        match last_char path with
        | None => None
        | Some c =>
            let path := if bool_decide (c <> "/"%char) then path ++ "/" else path in
            let req := {| req_method := "MKCOL"; req_path := Some path |} in
            let g := emit (Ne_simple_request req) g in
            let rc := si_rc io in
            let g := if code (si_status io) =? 405
                     then set_errno EEXIST g
                     else set_errno_from_neon_errcode rc (si_error io) g in
            Some (finish g rc)
        end
    end
  else Some (finish g rc).

Definition owncloud_unlink (uri : string) (cio : connect_io) (io : simple_io)
    (g : globals) : globals * Z :=
  let path := _cleanPath uri in
  let '(g, rc) :=
    match path with
    | None => (set_errno EINVAL g, NE_ERROR)
    | Some _ => (g, NE_OK)
    end in
  let '(g, rc) :=
    if rc =? NE_OK then
      let '(g, rc) := dav_connect uri cio g in
      (if rc <? 0 then set_errno EINVAL g else g, rc)
    else (g, rc) in
  let '(g, rc) :=
    if rc =? NE_OK then
      let g := emit (Ne_delete path) g in
      (set_errno_from_neon_errcode (si_rc io) (si_error io) g, si_rc io)
    else (g, rc) in
  (g, 0).

Record timeval := {
  tv_sec  : Z;
  tv_usec : Z
}.

(** [owncloud_utimes]; [times] is the array of two [struct timeval],
    access time first. The value of the property is printed with %ld. *)
Definition owncloud_utimes (uri : option string) (times : option (timeval * timeval))
    (io : simple_io) (g : globals) : globals * Z :=
  match uri with
  | None => (set_errno ENOENT g, -1)
  | Some uri =>
      let curi := _cleanPath uri in
      match times with
      | None => (set_errno EACCES g, -1)
      | Some (_, modtime) =>
          let newmodtime := tv_sec modtime in
          let newmodtime := C.long (newmodtime + time_delta (dav_session g)) in
          let val := pretty newmodtime in
          let g := emit (Ne_proppatch curi "DAV:" "lastmodified" val) g in
          let rc := si_rc io in
          if negb (rc =? NE_OK)
          then (set_errno_from_neon_errcode rc (si_error io) g, -1)
          else (clean_caches g, 0)
      end
  end.

(** The module's state when [vio_module_init] returns in a fresh
    process: a zeroed session, empty caches, no progress callback. *)
Definition vio_module_init : globals :=
  {| dav_session :=
       {| ctx := false; user := None; pwd := None; proxy_type := None;
          proxy_host := None; proxy_port := 0; error_string := None;
          read_timeout := 0; prev_delta := 0; time_delta := 0;
          time_delta_sum := 0; time_delta_cnt := 0 |};
     _connected := false;
     _progresscb := false;
     propfind_cache := None;
     _stat_cache := zero_file_stat;
     _id_cache := {| idc_uri := None; idc_id := None |};
     errno := 0;
     store := ∅;
     next_addr := 1%positive;
     wire := [] |}.

(** *** Readings of the design document used in the statements *)

(** All three caches are empty: no cached listing, no stat-cache name or
    content id, no ETag entry. *)
Definition caches_cleared (g : globals) : Prop :=
  propfind_cache g = None
  /\ fs_name (_stat_cache g) = None
  /\ fs_md5 (_stat_cache g) = None
  /\ _id_cache g = {| idc_uri := None; idc_id := None |}.

(** A wire ETag: the value between double quotes. *)
Definition quoted (s : string) : string :=
  String C.dquote (s ++ String C.dquote "").

(** A value with its surrounding double quotes stripped, if it has
    them. *)
Definition strip_quotes (s : string) : string :=
  match s with
  | String c s' =>
      if bool_decide (c = C.dquote)
         && bool_decide (C.char_at s (String.length s - 1) = Some C.dquote)
         && bool_decide (2 <= String.length s)%nat
      then C.copy_range 1 (String.length s - 2) s
      else s
  | EmptyString => s
  end.

(** [g'] differs from [g] at most in [errno] and in the session's error
    string. *)
Definition only_error_changed (g g' : globals) : Prop :=
  caches g' = caches g
  /\ wire g' = wire g
  /\ _connected g' = _connected g
  /\ _progresscb g' = _progresscb g
  /\ next_addr g' = next_addr g
  /\ time_delta (dav_session g') = time_delta (dav_session g).

(** The check that is run on 200..507: the switch against the table,
    but for 503, whose entry is a constant of the platform. *)
Definition agrees_at (s : Z) : bool :=
  match s with
  | 503 => true
  | _ => errno (set_errno_from_http_errcode s vio_module_init) =? errno_table s
  end.

(** The escaped path with a trailing slash ensured. *)
Definition with_trailing_slash (path : string) : string :=
  if bool_decide (last_char path = Some "/"%char) then path else path ++ "/".

End Owncloud.

(** ** A concrete platform for the examples

    One admissible choice of the constants and library functions of
    [Platform], enough for plain ASCII URIs of the form
    scheme://host/path: distinct csync error codes above the system
    ones, one bit per stat field, and escaping that leaves the
    unreserved characters of the examples alone. *)

Module Sample.

Definition is_digit (c : ascii) : bool :=
  (48 <=? Z.of_nat (nat_of_ascii c)) && (Z.of_nat (nat_of_ascii c) <=? 57).

(** Decimal digits at the head of a string: their value and count. *)
Fixpoint digits (s : string) (acc : Z) (n : nat) : Z * nat :=
  match s with
  | String c s' =>
      if is_digit c
      then digits s' (acc * 10 + (Z.of_nat (nat_of_ascii c) - 48)) (S n)
      else (acc, n)
  | EmptyString => (acc, n)
  end.

(** [isspace] in the C locale. *)
Definition is_space (c : ascii) : bool :=
  let n := Z.of_nat (nat_of_ascii c) in
  (n =? 32) || ((9 <=? n) && (n <=? 13)).

Fixpoint skip_spaces (s : string) (n : nat) : string * nat :=
  match s with
  | String c s' => if is_space c then skip_spaces s' (S n) else (s, n)
  | EmptyString => (s, n)
  end.

(** The number that the string starts with, after white space and a
    sign, and the bytes read; no byte is read when there is no digit. *)
Definition number (s : string) : Z * nat :=
  let '(s, n) := skip_spaces s O in
  let '(negative, s, n) :=
    match s with
    | String "-" s' => (true, s', S n)
    | String "+" s' => (false, s', S n)
    | _ => (false, s, n)
    end in
  let '(v, k) := digits s 0 O in
  match k with
  | O => (0, O)
  | _ => (if negative then - v else v, (n + k)%nat)
  end.

(** [strtol] in base 10, for a [long] of 64 bits: a number that does
    not fit is replaced by the nearest limit and reported by ERANGE. *)
Definition strtol (s : string) : Z * nat :=
  let '(v, n) := number s in
  (Z.max (- 2 ^ 63) (Z.min (2 ^ 63 - 1) v), n).

Definition strtol_ERANGE (s : string) : bool :=
  let v := fst (number s) in
  (v <? - 2 ^ 63) || (2 ^ 63 - 1 <? v).

(** The text before the first slash, and the text from it on. *)
Fixpoint split_host (s : string) : string * string :=
  match s with
  | String c s' =>
      if bool_decide (c = "/"%char) then ("", s)
      else let '(h, p) := split_host s' in (String c h, p)
  | EmptyString => ("", "")
  end.

Definition c_parse_uri (uri : string) : option parsed_uri :=
  match String.index 0 "://" uri with
  | None => None
  | Some i =>
      let rest := String.substring (i + 3) (String.length uri - (i + 3)) uri in
      let '(host, path) := split_host rest in
      if bool_decide (host = "") || bool_decide (path = "") then None
      else Some {| pu_scheme := String.substring 0 i uri; pu_user := None;
                   pu_pwd := None; pu_host := host; pu_port := 0;
                   pu_path := path |}
  end.

(** The last non-empty component of a slash-separated path; [cur] is
    the component being read and [last] the last complete one. *)
Fixpoint last_component (s cur last : string) : string :=
  match s with
  | String c s' =>
      if bool_decide (c = "/"%char)
      then last_component s' "" (if bool_decide (cur = "") then last else cur)
      else last_component s' (cur ++ String c "") last
  | EmptyString => if bool_decide (cur = "") then last else cur
  end.

Definition c_basename (path : string) : option string :=
  Some (last_component path "" ".").

Definition c_streq (a b : option string) : bool :=
  match a, b with
  | Some a, Some b => bool_decide (a = b)
  | _, _ => false
  end.

(** Paths are compared up to one trailing slash. *)
Definition drop_slash (s : string) : string :=
  match last_char s with
  | Some c => if bool_decide (c = "/"%char)
              then String.substring 0 (String.length s - 1) s else s
  | None => s
  end.

Definition ne_path_compare (a b : string) : Z :=
  if bool_decide (drop_slash a = drop_slash b) then 0 else 1.

Definition number_at (from len : nat) (s : string) : Z :=
  fst (strtol (String.substring from len s)).

(** The fields of a date laid out as Sun, 06 Nov 1994 08:49:37 GMT. *)
Definition sscanf_rfc1123 (date : string) : scanned_date :=
  {| sd_mday := number_at 5 2 date; sd_mon := String.substring 8 3 date;
     sd_year := number_at 12 4 date; sd_hour := number_at 17 2 date;
     sd_min := number_at 20 2 date; sd_sec := number_at 23 2 date |}.

(** Days from 1970-01-01 to a day of the proleptic Gregorian calendar. *)
Definition days_from_civil (y m d : Z) : Z :=
  let y := if m <=? 2 then y - 1 else y in
  let era := y / 400 in
  let yoe := y - era * 400 in
  let doy := (153 * (if 2 <? m then m - 3 else m + 9) + 2) / 5 + d - 1 in
  let doe := yoe * 365 + yoe / 4 - yoe / 100 + doy in
  era * 146097 + doe - 719468.

Definition timegm (t : tm) : Z :=
  ((days_from_civil (tm_year t + 1900) (tm_mon t + 1) (tm_mday t) * 24
    + tm_hour t) * 60 + tm_min t) * 60 + tm_sec t.

Definition platform : Platform :=
  Build_Platform
    10002 10003 10004 10005 10006 10007 10008 10009 10010 10011 10013 10014
    0 1 2 64 1024 131072
    c_parse_uri c_basename c_streq (fun a b => eq_refl)
    (fun path => path) (fun path => path) ne_path_compare
    strtol strtol_ERANGE sscanf_rfc1123 timegm.

(** *** Inputs of the examples *)

Definition connect_ok : connect_io :=
  {| co_sock_init := 0; co_session_created := true; co_has_ssl := true |}.

Definition status (c : Z) (reason : string) : ne_status :=
  {| klass := c / 100; code := c; reason_phrase := Some reason |}.

Definition xml : option string := Some "application/xml; charset=utf-8".

Definition collection_type : option string :=
  Some "<DAV:collection></DAV:collection>".

(** A collection entry and a file entry of 1024 bytes with ETag "abc",
    quoted on the wire. *)
Definition dir_entry (path : string) : prop_result :=
  {| pr_path := path; pr_modtime := Some "Sun, 06 Nov 1994 08:00:00 GMT";
     pr_clength := None; pr_resourcetype := collection_type;
     pr_etag := None |}.

Definition file_entry (path : string) : prop_result :=
  {| pr_path := path; pr_modtime := Some "Sun, 06 Nov 1994 08:49:07 GMT";
     pr_clength := Some "1024"; pr_resourcetype := None;
     pr_etag := Some (quoted "abc") |}.

(** A 207 reply whose Date header is 60 seconds ahead of the local
    clock. *)
Definition multistatus (entries : list prop_result) : propfind_reply :=
  {| pf_ret := NE_OK; pf_status := status 207 "Multi-Status";
     pf_results := entries; pf_content_type := xml;
     pf_date := "Sun, 06 Nov 1994 08:49:37 GMT";
     pf_now := 784111777 - 60; pf_error := "" |}.

Definition a_txt : string := "owncloud://host/sync/a.txt".
Definition sync_dir : string := "owncloud://host/sync/".

Definition put_handle : transfer_context :=
  {| tc_req := Some {| req_method := "PUT"; req_path := Some "/sync/a.txt" |};
     tc_fd := 0; tc_method := "PUT"; tc_decompress := false;
     tc_clean_uri := Some a_txt |}.

Definition get_handle : transfer_context :=
  {| tc_req := Some {| req_method := "GET"; req_path := Some "/sync/a.txt" |};
     tc_fd := -1; tc_method := "GET"; tc_decompress := false;
     tc_clean_uri := Some a_txt |}.

(** The server has no room left for the upload. *)
Definition insufficient_storage : sendfile_io :=
  {| sf_fstat := Some 1024; sf_fstat_errno := 0; sf_neon_stat := NE_OK;
     sf_status := status 507 "Insufficient Storage";
     sf_headers := Some {| h_content_encoding := None; h_etag := None |};
     sf_notify := [(ne_status_connecting, {| sr_progress := 0; sr_total := 0 |});
                   (ne_status_sending, {| sr_progress := 0; sr_total := -1 |});
                   (ne_status_sending, {| sr_progress := 512; sr_total := 1024 |});
                   (ne_status_sending, {| sr_progress := 1024; sr_total := 1024 |})];
     sf_error := "507 Insufficient Storage" |}.

(** The server rejects the credentials: the dispatch ends with NE_AUTH
    on a 401 response. *)
Definition unauthorized : sendfile_io :=
  {| sf_fstat := None; sf_fstat_errno := EBADF; sf_neon_stat := NE_AUTH;
     sf_status := status 401 "Unauthorized";
     sf_headers := Some {| h_content_encoding := None; h_etag := None |};
     sf_notify := [];
     sf_error := "Could not authenticate to server" |}.

(** A successful, gzip-encoded download with a quoted ETag. *)
Definition download_ok : sendfile_io :=
  {| sf_fstat := None; sf_fstat_errno := EBADF; sf_neon_stat := NE_OK;
     sf_status := status 200 "OK";
     sf_headers := Some {| h_content_encoding := Some "gzip";
                           h_etag := Some (quoted "abc") |};
     sf_notify := [(ne_status_recving, {| sr_progress := 1024; sr_total := 1024 |})];
     sf_error := "" |}.

(** The state after listing owncloud://host/a/ and reading its first
    entry, the file /a/x.txt. *)
Definition after_readdir : globals :=
  match @owncloud_opendir platform "owncloud://host/a/" connect_ok
          (multistatus [dir_entry "/a/"; file_entry "/a/x.txt"])
          vio_module_init with
  | (g, Some dhandle) => fst (@owncloud_readdir platform dhandle g)
  | (g, None) => g
  end.

(** The resource that a listing of the file /sync/a.txt holds. *)
Definition listed_a_txt : resource :=
  {| res_uri := "/sync/a.txt"; res_name := Some "a.txt";
     res_type := resr_normal; res_size := 1024; res_modtime := 784111747;
     res_md5 := Some "abc" |}.

Definition method_not_allowed : simple_io :=
  {| si_rc := NE_ERROR; si_status := status 405 "Method Not Allowed";
     si_error := "405 Method Not Allowed" |}.

Definition created : simple_io :=
  {| si_rc := NE_OK; si_status := status 201 "Created";
     si_error := "" |}.

End Sample.

(** ** Further functions of the module and of csync_config.c *)

(** <fcntl.h> (Linux values) *)
Definition O_WRONLY : Z := 1.
Definition O_RDWR   : Z := 2.
Definition O_CREAT  : Z := 64.
Definition O_TRUNC  : Z := 512.

(** The flags ask [owncloud_open] for writing. *)
Definition writes (flags : Z) : bool :=
  negb (Z.land flags O_WRONLY =? 0)
  || negb (Z.land flags O_RDWR =? 0)
  || negb (Z.land flags O_CREAT =? 0).

(** Every byte of the string passes the test. *)
Fixpoint all_chars (P : ascii -> bool) (s : string) : bool :=
  match s with
  | EmptyString => true
  | String c s' => P c && all_chars P s'
  end.

(** *** The cookie capture hook *)

(** The walk of [sc_end] over the bytes that do not stop it: the bytes
    passed, and the rest of the string from the stopping byte on (empty
    at the terminator). *)
Fixpoint scan (stop : ascii -> bool) (s : string) : string * string :=
  match s with
  | EmptyString => (EmptyString, EmptyString)
  | String c s' =>
      if stop c then (EmptyString, s)
      else let '(passed, rest) := scan stop s' in (String c passed, rest)
  end.

Definition is_semicolon (c : ascii) : bool := bool_decide (c = ";"%char).
Definition is_comma (c : ascii) : bool := bool_decide (c = ","%char).

(** The [while(sc)] loop of [post_request_hook] on the rest [sc] of the
    Set-Cookie header, with the key found so far. Each round ends the
    loop or restarts it on a proper suffix, so [fuel] above the length
    of [sc] is never used up. The outer [None] is undefined behaviour:
    after a key, [sc = sc_end + 2] is taken without a look at the byte
    behind the comma, and points past the terminator when the comma is
    the last byte. *)
Fixpoint cookie_loop (fuel : nat) (sc : string) (key : option string)
  : option (option string) :=
  match fuel with
  | O => Some key
  | S fuel' =>
      let '(sc_val, at_end) := scan (fun c => is_semicolon c || is_comma c) sc in
      match at_end with
      | EmptyString => Some key
      | String c after =>
          if is_semicolon c then
            let key := Some sc_val in
            let '(_, at_comma) := scan is_comma at_end in
            match at_comma with
            | EmptyString => Some key
            | String _ EmptyString => None
            | String _ (String _ next) => cookie_loop fuel' next key
            end
          else
            match after with
            | String " " next => cookie_loop fuel' next key
            | _ => Some key
            end
      end
  end.

(** [post_request_hook] for a request that exists: the session key
    after the hook, from the key before it. *)
Definition post_request_hook (status : option ne_status)
    (set_cookie_header : option string) (session_key : option string)
  : option (option string) :=
  match status with
  | None => Some session_key
  | Some status =>
      if (klass status =? 2) || (code status =? 401) then
        match set_cookie_header with
        | Some header =>
            match cookie_loop (S (String.length header)) header None with
            | Some (Some key) => Some (Some key)
            | Some None => Some session_key
            | None => None
            end
        | None => Some session_key
        end
      else Some session_key
  end.

(** *** The timegm of the Windows build *)

Module Win32.

(** [is_leap(unsigned y)]. *)
Definition is_leap (y : Z) : bool :=
  let y := (y + 1900) mod 2 ^ 32 in
  (y mod 4 =? 0) && (negb (y mod 100 =? 0) || (y mod 400 =? 0)).

Definition ndays : list (list Z) :=
  [[31; 28; 31; 30; 31; 30; 31; 31; 30; 31; 30; 31];
   [31; 29; 31; 30; 31; 30; 31; 31; 30; 31; 30; 31]].

(** [for (i = 70; i < tm->tm_year; ++i)], [count] rounds from [i]. *)
Fixpoint years (count : nat) (i : Z) (res : Z) : Z :=
  match count with
  | O => res
  | S count' =>
      years count' (i + 1) (C.long (res + (if is_leap i then 366 else 365)))
  end.

(** [for (i = 0; i < tm->tm_mon; ++i)], [count] rounds from [i]; a read
    behind the twelve entries of the row is undefined. *)
Fixpoint months (count : nat) (row : list Z) (i : nat) (res : Z) : option Z :=
  match count with
  | O => Some res
  | S count' =>
      match row !! i with
      | Some d => months count' row (S i) (C.long (res + d))
      | None => None
      end
  end.

Definition timegm (t : tm) : option Z :=
  let res := years (Z.to_nat (tm_year t - 70)) 70 0 in
  let row := if is_leap (tm_year t) then nth 1 ndays [] else nth 0 ndays [] in
  match months (Z.to_nat (tm_mon t)) row O res with
  | None => None
  | Some res =>
      let res := C.long (res + (tm_mday t - 1)) in
      let res := C.long (res * 24) in
      let res := C.long (res + tm_hour t) in
      let res := C.long (res * 60) in
      let res := C.long (res + tm_min t) in
      let res := C.long (res * 60) in
      let res := C.long (res + tm_sec t) in
      Some res
  end.

(** The day count after the month loop, started from [res] days, against
    the calendar's count for the first of that month. *)
Definition month_agrees (y m res : Z) : bool :=
  match months (Z.to_nat m)
          (if is_leap y then nth 1 ndays [] else nth 0 ndays []) O res with
  | Some d => (d =? Sample.days_from_civil (y + 1900) (m + 1) 1)
              && (0 <=? d) && (d <=? 200000)
  | None => false
  end.

(** The check of [count] years from [y] on, [res] being the days before
    the year [y]. *)
Fixpoint years_agree (count : nat) (y res : Z) : bool :=
  match count with
  | O => true
  | S count' =>
      forallb (fun m => month_agrees y (Z.of_nat m) res) (seq 0 12)
      && years_agree count' (y + 1)
           (C.long (res + (if is_leap y then 366 else 365)))
  end.

End Win32.

(** *** csync.h: the version number *)

(** [CSYNC_VERSION_INT(a, b, c)]. *)
Definition CSYNC_VERSION_INT (a b c : Z) : Z :=
  Z.lor (Z.lor (Z.shiftl a 16) (Z.shiftl b 8)) c.

Definition LIBCSYNC_VERSION_MAJOR : Z := 0.
Definition LIBCSYNC_VERSION_MINOR : Z := 49.
Definition LIBCSYNC_VERSION_MICRO : Z := 9.

Definition LIBCSYNC_VERSION_INT : Z :=
  CSYNC_VERSION_INT LIBCSYNC_VERSION_MAJOR LIBCSYNC_VERSION_MINOR
                    LIBCSYNC_VERSION_MICRO.

(** *** csync_config.c *)

Module Config.

(** The options of the context that the configuration file sets. *)
Record options := {
  max_depth           : Z;
  max_time_difference : Z;
  sync_symbolic_links : Z
}.

(** [tolower] in the C locale. *)
Definition tolower (c : ascii) : ascii :=
  let n := nat_of_ascii c in
  if (65 <=? n)%nat && (n <=? 90)%nat then ascii_of_nat (n + 32) else c.

(** A string in lower case. *)
Fixpoint lower (s : string) : string :=
  match s with
  | EmptyString => EmptyString
  | String c s' => String (tolower c) (lower s')
  end.

(** [strcasecmp(a, b) == 0]. *)
Fixpoint strcasecmp_eq (a b : string) : bool :=
  match a, b with
  | EmptyString, EmptyString => true
  | String x a', String y b' =>
      if bool_decide (tolower x = tolower y) then strcasecmp_eq a' b' else false
  | _, _ => false
  end.

(** The MATCH macro of [handler]. *)
Definition MATCH (section name s n : string) : bool :=
  strcasecmp_eq section s && strcasecmp_eq name n.

End Config.

Section OwncloudMore.

Context `{Platform}.

(** [atoi] is [(int) strtol(value, NULL, 10)]. *)
Definition atoi (value : string) : Z := C.int (fst (strtol value)).

(** [handler] of csync_config.c, on the options of the context. *)
Definition handler (user : option Config.options) (section name value : string)
  : option Config.options * Z :=
  match user with
  | None => (None, 0)
  | Some ctx =>
      if Config.MATCH section name "global" "max_depth" then
        (Some {| Config.max_depth := atoi value;
                 Config.max_time_difference := Config.max_time_difference ctx;
                 Config.sync_symbolic_links := Config.sync_symbolic_links ctx |},
         1)
      else if Config.MATCH section name "global" "max_time_difference" then
        (Some {| Config.max_depth := Config.max_depth ctx;
                 Config.max_time_difference := atoi value;
                 Config.sync_symbolic_links := Config.sync_symbolic_links ctx |},
         1)
      else if Config.MATCH section name "global" "sync_symbolic_links" then
        (Some {| Config.max_depth := Config.max_depth ctx;
                 Config.max_time_difference := Config.max_time_difference ctx;
                 Config.sync_symbolic_links := atoi value |},
         1)
      else (Some ctx, 0)
  end.

(** *** rmdir *)

Definition owncloud_rmdir (uri : string) (cio : connect_io) (io : simple_io)
    (g : globals) : globals * Z :=
  let curi := _cleanPath uri in
  let '(g, rc) := dav_connect uri cio g in
  let g := if rc <? 0 then set_errno EINVAL g else g in
  let '(g, rc) :=
    if 0 <=? rc then
      let g := emit (Ne_delete curi) g in
      (set_errno_from_neon_errcode (si_rc io) (si_error io) g, si_rc io)
    else (g, rc) in
  (g, if (rc <? 0) || negb (rc =? NE_OK) then -1 else 0).

(** *** The file id *)

(** [owncloud_file_id]; the HEAD request is switched off in the source.
    [None] is undefined behaviour: a header that is one double quote
    gives the length -1 to [strncpy]. *)
Definition owncloud_file_id (path : string) (r : propfind_reply) (g : globals)
  : option (globals * option string) :=
  let header :=
    match idc_uri (_id_cache g) with
    | Some u => if c_streq (Some path) (Some u) then idc_id (_id_cache g) else None
    | None => None
    end in
  let '(g, header) :=
    match header with
    | Some h => (g, Some h)
    | None =>
        let '(g, fs, rc) := owncloud_stat path zero_file_stat r g in
        (g, if rc =? 0 then fs_md5 fs else None)
    end in
  match header with
  | None => Some (g, None)
  | Some header =>
      if bool_decide (C.char_at header 0 = Some C.dquote)
         && bool_decide (last_char header = Some C.dquote)
      then
        let len := C.int (C.strlen header - 2) in
        if len <? 0 then None
        else Some (g, Some (C.copy_range 1 (Z.to_nat len) header))
      else Some (g, Some header)
  end.

(** *** open and creat *)

Section Open.

(** [c_dirname] of the csync std library. *)
Variable c_dirname : string -> option string.

(** [owncloud_open]; [_lastDir], the file-scope memo of the last parent
    directory found, is passed in and returned. The handle is built
    zero-filled and is only returned with its method set. *)
Definition owncloud_open (durl : string) (flags : Z) (cio : connect_io)
    (r : propfind_reply) (_lastDir : option string) (g : globals)
  : globals * option string * option transfer_context :=
  let uri := _cleanPath durl in
  let '(g, rc) :=
    match uri with
    | None => (set_errno EACCES g, NE_ERROR)
    | Some _ => (g, NE_OK)
    end in
  let g := if rc =? NE_OK then fst (dav_connect durl cio g) else g in
  let put := negb (Z.land flags O_WRONLY =? 0)
             || negb (Z.land flags O_RDWR =? 0)
             || negb (Z.land flags O_CREAT =? 0) in
  let finish (g : globals) (_lastDir : option string) :=
    if rc =? NE_OK then
      (g, _lastDir,
       Some (if put
             then {| tc_req := Some {| req_method := "PUT"; req_path := uri |};
                     tc_fd := 0; tc_method := "PUT"; tc_decompress := false;
                     tc_clean_uri := Some durl |}
             else {| tc_req := Some {| req_method := "GET"; req_path := uri |};
                     tc_fd := -1; tc_method := "GET"; tc_decompress := false;
                     tc_clean_uri := Some durl |}))
    else (g, _lastDir, None) in
  if (rc =? NE_OK) && put then
    match c_dirname durl with
    | None => (set_errno ENOMEM g, _lastDir, None)
    | Some dir =>
        if c_streq (Some dir) _lastDir then finish g _lastDir
        else
          let '(g, _, rc_stat) := owncloud_stat dir zero_file_stat r g in
          if rc_stat =? 0 then finish g (Some dir)
          else (set_errno ENOENT g, _lastDir, None)
    end
  else finish g _lastDir.

(** [owncloud_creat]; the write of zero bytes that follows does
    nothing. *)
Definition owncloud_creat (durl : string) (cio : connect_io)
    (r : propfind_reply) (_lastDir : option string) (g : globals)
  : globals * option string * option transfer_context :=
  owncloud_open durl (Z.lor O_CREAT (Z.lor O_WRONLY O_TRUNC)) cio r _lastDir g.

End Open.

(** *** Readings used in the statements *)

(** A caller's loop over a directory handle: [readdir] until it returns
    NULL, at most [fuel] times. *)
Fixpoint readdir_all (fuel : nat) (dhandle : addr) (g : globals)
  : globals * list csync_vio_file_stat_t :=
  match fuel with
  | O => (g, [])
  | S fuel' =>
      match owncloud_readdir dhandle g with
      | (g, None) => (g, [])
      | (g, Some lfs) =>
          let '(g, entries) := readdir_all fuel' dhandle g in
          (g, lfs :: entries)
      end
  end.

(** The test at the head of [fetch_resource_list]: the cached listing
    and its address when the cache answers for the URI. *)
Definition cached_listing (uri : string) (g : globals)
  : option (addr * listdir_context) :=
  match propfind_cache g with
  | Some a =>
      match store g !! a with
      | Some c => if c_streq (_cleanPath uri) (lc_target c) then Some (a, c) else None
      | None => None
      end
  | None => None
  end.

(** The listing context as the PROPFIND callback leaves it. *)
Definition listed (uri : string) (r : propfind_reply) : listdir_context :=
  fold_left results (pf_results r)
    {| lc_list := []; lc_currResource := []; lc_target := _cleanPath uri;
       lc_result_count := 0; lc_ref := 1 |}.

(** The reply is one that [fetch_resource_list] accepts: NE_OK, a status
    of class 2 and the XML content type. *)
Definition accepted (r : propfind_reply) : bool :=
  (pf_ret r =? NE_OK) && (klass (pf_status r) =? 2)
  && (c_streq (pf_content_type r) (Some "application/xml; charset=utf-8")
      && bool_decide (pf_content_type r <> None)).

(** The entries of a listing that are not the listed directory
    itself. *)
Definition is_entry (target : option string) (res : resource) : bool :=
  match target with
  | Some t => negb (ne_path_compare t (ne_path_escape (res_uri res)) =? 0)
  | None => true
  end.

(** The calls of the host callback that the status reports of one
    dispatch amount to: one CSYNC_NOTIFY_PROGRESS call for each report
    of sending or receiving with a positive total, in their order. *)
Definition progress_reports (uri : option string)
    (reports : list (ne_session_status * ne_session_status_info))
  : list event :=
  flat_map
    (fun report =>
       match report.1 with
       | ne_status_sending | ne_status_recving =>
           if 0 <? sr_total report.2
           then [Progress_bytes uri (sr_progress report.2) (sr_total report.2)]
           else []
       | _ => []
       end)
    reports.

(** The part of a resource path that the slash loop of [owncloud_stat]
    leaves for the comparison: its first [len] bytes. *)
Definition strip_trailing_slashes (uri : string) : string :=
  String.substring 0 (without_trailing_slashes uri (String.length uri)) uri.

(** [n] slashes. *)
Fixpoint slashes (n : nat) : string :=
  match n with
  | O => EmptyString
  | S n' => String "/" (slashes n')
  end.



(** The resource that [results] builds from one PROPFIND result. *)
Definition resource_of (r : prop_result) : resource :=
  match lc_list (results {| lc_list := []; lc_currResource := [];
                            lc_target := Some ""; lc_result_count := 0;
                            lc_ref := 1 |} r) with
  | res :: _ => res
  | [] => {| res_uri := ""; res_name := None; res_type := resr_error;
             res_size := 0; res_modtime := 0; res_md5 := None |}
  end.

End OwncloudMore.

(** ** Inputs of the further examples *)

Module Scenario.

Import Sample.

#[local] Existing Instance platform.

(** The text before the last slash of a path. *)
Fixpoint up_to_last_slash (s : string) : option string :=
  match s with
  | EmptyString => None
  | String c s' =>
      match up_to_last_slash s' with
      | Some d => Some (String c d)
      | None => if bool_decide (c = "/"%char) then Some "" else None
      end
  end.

Definition c_dirname (path : string) : option string :=
  match up_to_last_slash path with
  | Some "" => Some "/"
  | Some d => Some d
  | None => Some "."
  end.

(** The session after a connect for owncloud://host/sync/a.txt. *)
Definition connected : globals :=
  fst (dav_connect a_txt connect_ok vio_module_init).

(** The server does not know the resource. *)
Definition not_found : propfind_reply :=
  {| pf_ret := NE_ERROR; pf_status := status 404 "Not Found";
     pf_results := []; pf_content_type := None; pf_date := "";
     pf_now := 0; pf_error := "404 Not Found" |}.

(** The server rejects the credentials of a PROPFIND. *)
Definition login_rejected : propfind_reply :=
  {| pf_ret := NE_AUTH; pf_status := status 401 "Unauthorized";
     pf_results := []; pf_content_type := None; pf_date := "";
     pf_now := 0; pf_error := "Could not authenticate to server" |}.

(** The listing of /sync/: the directory itself and two files. *)
Definition sync_listing : propfind_reply :=
  multistatus [dir_entry "/sync/"; file_entry "/sync/a.txt";
               file_entry "/sync/b.txt"].



(** A listing with a content length beyond the range of [long long]. *)
Definition huge_listing : propfind_reply :=
  multistatus
    [{| pr_path := "/sync/a.txt";
        pr_modtime := Some "Sun, 06 Nov 1994 08:49:07 GMT";
        pr_clength := Some "99999999999999999999";
        pr_resourcetype := None; pr_etag := Some (quoted "abc") |}].

(** The connected session after the listing of /sync/ was fetched. *)
Definition fetched : globals :=
  fst (fetch_resource_list sync_dir NE_DEPTH_ONE sync_listing connected).

(** The state after opendir of /sync/ on a fresh module. *)
Definition opened : globals :=
  fst (owncloud_opendir sync_dir connect_ok sync_listing vio_module_init).

(** A fresh module with a progress callback registered. *)
Definition with_progress : globals :=
  {| dav_session := dav_session vio_module_init;
     _connected := false; _progresscb := true;
     propfind_cache := None; _stat_cache := zero_file_stat;
     _id_cache := {| idc_uri := None; idc_id := None |};
     errno := 0; store := ∅; next_addr := 1%positive; wire := [] |}.

(** A 404 response to a GET that carries the ETag of its error page. *)
Definition error_page : sendfile_io :=
  {| sf_fstat := None; sf_fstat_errno := EBADF; sf_neon_stat := NE_OK;
     sf_status := status 404 "Not Found";
     sf_headers := Some {| h_content_encoding := None;
                           h_etag := Some (quoted "e404") |};
     sf_notify := [];
     sf_error := "404 Not Found" |}.

(** 1994-11-06 08:49:37, and the same with a month index of 12. *)
Definition nov_6_1994 : tm :=
  {| tm_sec := 37; tm_min := 49; tm_hour := 8; tm_mday := 6; tm_mon := 10;
     tm_year := 94; tm_isdst := 0 |}.

Definition month_12_1994 : tm :=
  {| tm_sec := 37; tm_min := 49; tm_hour := 8; tm_mday := 6; tm_mon := 12;
     tm_year := 94; tm_isdst := 0 |}.

End Scenario.

(** * Properties *)

(** ** C integers *)

Lemma long_id z : C.in_long z -> C.long z = z.
Proof.
  unfold C.in_long, C.long, C.wrap. intros Hz.
  change (2 ^ (64 - 1)) with 9223372036854775808 in *.
  change (2 ^ 63) with 9223372036854775808 in *.
  change (2 ^ 64) with 18446744073709551616.
  rewrite Z.mod_small; lia.
Qed.

Lemma long_range z : C.in_long (C.long z).
Proof.
  unfold C.in_long, C.long, C.wrap.
  change (2 ^ (64 - 1)) with 9223372036854775808.
  change (2 ^ 63) with 9223372036854775808.
  change (2 ^ 64) with 18446744073709551616.
  pose proof (Z.mod_pos_bound (z + 9223372036854775808) 18446744073709551616).
  lia.
Qed.

(** A reduced operand of a sum may be replaced by the unreduced one. *)
Lemma long_add_long_l a b : C.long (C.long a + b) = C.long (a + b).
Proof.
  unfold C.long, C.wrap.
  change (2 ^ (64 - 1)) with 9223372036854775808.
  change (2 ^ 64) with 18446744073709551616.
  f_equal.
  replace ((a + 9223372036854775808) mod 18446744073709551616
           - 9223372036854775808 + b + 9223372036854775808)
    with ((a + 9223372036854775808) mod 18446744073709551616 + b) by lia.
  rewrite Zplus_mod_idemp_l. f_equal. lia.
Qed.

Lemma int_small z : - 2 ^ 31 <= z < 2 ^ 31 -> C.int z = z.
Proof.
  unfold C.int, C.wrap. intros Hz.
  change (2 ^ (32 - 1)) with 2147483648 in *.
  change (2 ^ 31) with 2147483648 in *.
  change (2 ^ 32) with 4294967296.
  rewrite Z.mod_small; lia.
Qed.

Section Properties.

Context `{Platform}.

(** ** What a function leaves alone *)

Lemma only_error_changed_refl g : only_error_changed g g.
Proof. repeat split. Qed.

Lemma only_error_changed_trans g1 g2 g3 :
  only_error_changed g1 g2 -> only_error_changed g2 g3 ->
  only_error_changed g1 g3.
Proof.
  unfold only_error_changed.
  intros (?&?&?&?&?&?) (?&?&?&?&?&?). repeat split; congruence.
Qed.

Lemma set_errno_only_error e g : only_error_changed g (set_errno e g).
Proof. repeat split. Qed.

Lemma set_error_message_only_error m g :
  only_error_changed g (set_error_message m g).
Proof. repeat split. Qed.

Lemma http_errcode_only_error err g :
  only_error_changed g (set_errno_from_http_errcode err g).
Proof. unfold set_errno_from_http_errcode. apply set_errno_only_error. Qed.

Lemma session_only_error msg g :
  only_error_changed g (set_errno_from_session msg g).
Proof.
  unfold set_errno_from_session, http_result_code_from_session.
  destruct (strtol msg) as [v consumed].
  eapply only_error_changed_trans; [apply (set_error_message_only_error (Some msg))|].
  match goal with |- context [if ?b then _ else _] => destruct b end.
  - apply set_errno_only_error.
  - apply http_errcode_only_error.
Qed.

Lemma neon_errcode_only_error rc msg g :
  only_error_changed g (set_errno_from_neon_errcode rc msg g).
Proof.
  unfold set_errno_from_neon_errcode.
  destruct rc as [|p|p]; try apply set_errno_only_error;
    try apply session_only_error.
  do 4 (try destruct p as [p|p|]);
    try apply set_errno_only_error; apply session_only_error.
Qed.

(** ** The error table *)

(** Outside 200..507 the switch takes its default branch. *)
Lemma http_errcode_default err g :
  err < 200 \/ 507 < err ->
  errno (set_errno_from_http_errcode err g) = EIO.
Proof.
  intros Hout. unfold set_errno_from_http_errcode. cbn [errno set_errno].
  destruct err as [|p|p]; [reflexivity| |reflexivity].
  do 10 (try (destruct p as [p|p|])); try reflexivity; exfalso; lia.
Qed.

Lemma errno_table_default s :
  s < 200 \/ 507 < s -> errno_table s = EIO.
Proof.
  intros Hout. unfold errno_table, among, existsb.
  repeat match goal with
         | |- context [?a =? ?b] =>
             destruct (Z.eqb_spec a b); [exfalso; lia|]
         end.
  destruct (Z.leb_spec 200 s), (Z.leb_spec s 205); cbn; try reflexivity; lia.
Qed.

Lemma agrees_at_other s :
  s <> 503 ->
  agrees_at s
  = (errno (set_errno_from_http_errcode s vio_module_init) =? errno_table s).
Proof.
  intros Hne. unfold agrees_at.
  destruct s as [|p|p]; try reflexivity.
  do 10 (try (destruct p as [p|p|])); try reflexivity.
  exfalso. apply Hne. reflexivity.
Qed.

Lemma agrees_in_range :
  forallb agrees_at (map (fun n => 200 + Z.of_nat n) (seq 0 308)) = true.
Proof. vm_compute. reflexivity. Qed.

Lemma http_errcode_range s g :
  200 <= s <= 507 ->
  errno (set_errno_from_http_errcode s g) = errno_table s.
Proof.
  intros Hs.
  destruct (Z.eq_dec s 503) as [->|Hne]; [reflexivity|].
  pose proof agrees_in_range as Hall.
  rewrite forallb_forall in Hall.
  specialize (Hall s).
  rewrite agrees_at_other in Hall by exact Hne.
  apply Z.eqb_eq, Hall, in_map_iff.
  exists (Z.to_nat (s - 200)). split; [lia|]. apply in_seq. lia.
Qed.

(** C1 (amended): for every status code the error mapper sets errno to
    the entry of the table in which 206 is not a success: 0 for 200-205,
    207 and 304; EPERM for 401, 402, 405, 407; ENOENT for 301, 303, 404,
    410; EAGAIN for 408, 504; EACCES for 423; EINVAL for 400, 403, 409,
    411, 412, 414, 415, 424, 501; EFBIG for 413; ENOSPC for 507; the
    service-unavailable code for 503; EIO for every other status, 206
    included.  Nothing but errno changes. *)
Theorem C1_errno_table (s : Z) (g : globals) :
  set_errno_from_http_errcode s g = set_errno (errno_table s) g.
Proof.
  assert (errno (set_errno_from_http_errcode s g) = errno_table s) as He.
  { destruct (Z_lt_le_dec s 200) as [Hlo|Hlo];
      [rewrite http_errcode_default, errno_table_default by lia; reflexivity|].
    destruct (Z_lt_le_dec 507 s) as [Hhi|Hhi];
      [rewrite http_errcode_default, errno_table_default by lia; reflexivity|].
    apply http_errcode_range. lia. }
  unfold set_errno_from_http_errcode in *. cbn [errno set_errno] in He.
  rewrite He. reflexivity.
Qed.

(** ** Clearing the caches *)

Lemma free_fetchCtx_frame ctx g :
  let g' := free_fetchCtx ctx g in
  propfind_cache g' = propfind_cache g
  /\ _stat_cache g' = _stat_cache g
  /\ _id_cache g' = _id_cache g
  /\ wire g' = wire g
  /\ errno g' = errno g
  /\ dav_session g' = dav_session g.
Proof.
  unfold free_fetchCtx. destruct ctx as [a|]; [|repeat split].
  destruct (store g !! a) as [c|]; [|repeat split].
  destruct (0 <? C.int (lc_ref c - 1)); repeat split.
Qed.

Lemma clean_caches_cleared g : caches_cleared (clean_caches g).
Proof. unfold caches_cleared, clean_caches. cbn. repeat split. Qed.

Lemma clean_caches_frame g :
  wire (clean_caches g) = wire g
  /\ errno (clean_caches g) = errno g
  /\ dav_session (clean_caches g) = dav_session g.
Proof.
  unfold clean_caches. cbn.
  destruct (free_fetchCtx_frame (propfind_cache g) g) as (_&_&_&Hw&He&Hd).
  cbn in *. auto.
Qed.

(** The listing that was cached loses the cache's reference. *)
Lemma clean_caches_store g :
  store (clean_caches g) = store (free_fetchCtx (propfind_cache g) g).
Proof. reflexivity. Qed.

(** ** unlink *)

(** C3: unlink returns 0 for every URI, whatever the connection attempt
    and the DELETE request return, and also when the URI does not
    parse. *)
Theorem C3_unlink_returns_success
    (uri : string) (cio : connect_io) (io : simple_io) (g : globals) :
  snd (owncloud_unlink uri cio io g) = 0.
Proof.
  unfold owncloud_unlink.
  destruct (_cleanPath uri) as [path|].
  - change (NE_OK =? NE_OK) with true. cbv iota.
    destruct (dav_connect uri cio g) as [g1 rc].
    destruct (rc =? NE_OK); reflexivity.
  - reflexivity.
Qed.

(** When the URI does not parse, no request is sent at all and errno is
    EINVAL. *)
Lemma unlink_unparsable uri cio io g :
  c_parse_uri uri = None ->
  owncloud_unlink uri cio io g = (set_errno EINVAL g, 0).
Proof.
  intros Hp. unfold owncloud_unlink, _cleanPath. rewrite Hp. reflexivity.
Qed.

(** The DELETE is sent, and its result only reaches errno. *)
Lemma unlink_connected uri cio io g path :
  _cleanPath uri = Some path -> _connected g = true ->
  owncloud_unlink uri cio io g
  = (set_errno_from_neon_errcode (si_rc io) (si_error io)
       (emit (Ne_delete (Some path)) g), 0).
Proof.
  intros Hp Hc. unfold owncloud_unlink, dav_connect. rewrite Hp, Hc.
  reflexivity.
Qed.

(** ** utimes *)

(** C6: utimes sends one PROPPATCH that sets DAV:lastmodified to
    mtime.tv_sec + time_delta; when it returns NE_OK all three caches
    are cleared and the result is 0; otherwise the result is -1 and the
    caches are as before. *)
Theorem C6_utimes (uri : string) (atime mtime : timeval) (io : simple_io)
    (g : globals) :
  let '(g', rc) := owncloud_utimes (Some uri) (Some (atime, mtime)) io g in
  wire g' = (wire g ++
             [Ne_proppatch (_cleanPath uri) "DAV:" "lastmodified"
                (pretty (C.long (tv_sec mtime + time_delta (dav_session g))))])%list
  /\ if si_rc io =? NE_OK
     then rc = 0 /\ caches_cleared g'
     else rc = -1 /\ caches g' = caches g.
Proof.
  unfold owncloud_utimes.
  destruct (si_rc io =? NE_OK) eqn:Hrc; cbn [negb].
  - split; [|split; [reflexivity|apply clean_caches_cleared]].
    destruct (clean_caches_frame
                (emit (Ne_proppatch (_cleanPath uri) "DAV:" "lastmodified"
                         (pretty (C.long (tv_sec mtime + time_delta (dav_session g)))))
                      g)) as (Hw&_&_).
    rewrite Hw. reflexivity.
  - destruct (neon_errcode_only_error (si_rc io) (si_error io)
                (emit (Ne_proppatch (_cleanPath uri) "DAV:" "lastmodified"
                         (pretty (C.long (tv_sec mtime + time_delta (dav_session g)))))
                      g)) as (Hc&Hw&_).
    split; [rewrite Hw; reflexivity|].
    split; [reflexivity|]. rewrite Hc. reflexivity.
Qed.

(** NULL arguments are refused before anything is sent. *)
Lemma utimes_null_arguments uri times io g :
  owncloud_utimes None times io g = (set_errno ENOENT g, -1)
  /\ owncloud_utimes (Some uri) None io g = (set_errno EACCES g, -1).
Proof. split; reflexivity. Qed.

(** ** close *)

(** C7: close of a handle destroys its request and returns 0; it clears
    the listing, stat and ETag caches exactly when the handle's method
    is PUT, and leaves all three as they were for any other handle (a
    GET handle). *)
Theorem C7_close (writeCtx : transfer_context) (g : globals) :
  let '(g', rc) := owncloud_close (Some writeCtx) g in
  rc = 0
  /\ wire g' = (wire g ++ [Ne_request_destroy (tc_req writeCtx)])%list
  /\ if bool_decide (tc_method writeCtx = "PUT")
     then caches_cleared g'
     else caches g' = caches g.
Proof.
  unfold owncloud_close, C.strcmp_eq. cbn [Z.eqb negb andb].
  split; [reflexivity|].
  destruct (bool_decide (tc_method writeCtx = "PUT")).
  - split; [|apply clean_caches_cleared].
    destruct (clean_caches_frame
                (emit (Ne_request_destroy (tc_req writeCtx)) g)) as (Hw&_&_).
    rewrite Hw. reflexivity.
  - split; reflexivity.
Qed.

Lemma close_null g : owncloud_close None g = (set_errno EBADF g, -1).
Proof. reflexivity. Qed.

(** ** sendfile *)

Lemma soft_error_1 status : soft_error status = 1.
Proof.
  unfold soft_error. destruct (klass status =? 4); [reflexivity|].
  destruct (klass status =? 5); reflexivity.
Qed.

(** C2 (amended): with a response whose status class is not 2, the PUT
    path of sendfile returns the soft-failure value 1; the GET path
    returns 1 when ne_request_dispatch itself returned NE_OK, and -1,
    whatever the status, when the dispatch returned another code. *)
Theorem C2_sendfile_soft_failure
    (fd : Z) (write_ctx : transfer_context) (io : sendfile_io) (g : globals) :
  klass (sf_status io) <> 2 ->
  let rc := snd (owncloud_sendfile (Some fd) (Some write_ctx) io g) in
  (tc_method write_ctx = "PUT" -> rc = 1)
  /\ (tc_method write_ctx = "GET" -> sf_neon_stat io = NE_OK -> rc = 1)
  /\ (tc_method write_ctx = "GET" -> sf_neon_stat io <> NE_OK -> rc = -1).
Proof.
  intros Hk. apply Z.eqb_neq in Hk.
  unfold owncloud_sendfile. rewrite !c_streq_strings.
  split; [|split].
  - intros ->. rewrite bool_decide_eq_true_2 by reflexivity.
    destruct (tc_req write_ctx) as [request|]; [|reflexivity].
    destruct (sf_fstat io) as [st_size|]; [|reflexivity].
    rewrite Hk. cbn [negb]. rewrite soft_error_1.
    repeat match goal with
           | |- context [if _progresscb ?x then _ else _] =>
               destruct (_progresscb x)
           end; reflexivity.
  - intros -> Hn. rewrite bool_decide_eq_false_2 by discriminate.
    rewrite bool_decide_eq_true_2 by reflexivity.
    rewrite Hn, Hk. change (NE_OK =? NE_OK) with true. cbn [negb].
    rewrite soft_error_1.
    destruct (sf_headers io) as [hdrs|].
    + match goal with
      | |- context [install_content_reader ?t ?h ?x] =>
          destruct (install_content_reader t h x) as [g1 [t1|]]
      end;
      repeat match goal with
             | |- context [if _progresscb ?x then _ else _] =>
                 destruct (_progresscb x)
             end; reflexivity.
    + repeat match goal with
             | |- context [if _progresscb ?x then _ else _] =>
                 destruct (_progresscb x)
             end; reflexivity.
  - intros -> Hn. apply Z.eqb_neq in Hn.
    rewrite bool_decide_eq_false_2 by discriminate.
    rewrite bool_decide_eq_true_2 by reflexivity.
    rewrite Hn. cbn [negb].
    destruct (sf_headers io) as [hdrs|].
    + match goal with
      | |- context [install_content_reader ?t ?h ?x] =>
          destruct (install_content_reader t h x) as [g1 [t1|]]
      end;
      repeat match goal with
             | |- context [if _progresscb ?x then _ else _] =>
                 destruct (_progresscb x)
             end; reflexivity.
    + repeat match goal with
             | |- context [if _progresscb ?x then _ else _] =>
                 destruct (_progresscb x)
             end; reflexivity.
Qed.

(** ** ETags in the caches *)

Lemma length_append (a b : string) :
  String.length (a ++ b) = (String.length a + String.length b)%nat.
Proof.
  induction a as [|c a IH]; [reflexivity|].
  change (String c a ++ b) with (String c (a ++ b)).
  cbn [String.length Nat.add]. f_equal. exact IH.
Qed.

Lemma substring_whole_prefix (s t : string) :
  String.substring 0 (String.length s) (s ++ t) = s.
Proof.
  induction s as [|c s IH]; [destruct t; reflexivity|].
  change (String c s ++ t) with (String c (s ++ t)).
  cbn [String.length String.substring]. f_equal. exact IH.
Qed.

(** What [results] keeps of a quoted ETag is the value between the
    quotes. *)
Lemma md5_of_quoted s :
  s <> "" -> Z.of_nat (String.length s) < 2 ^ 31 ->
  md5_of_etag (quoted s) = Some s.
Proof.
  intros Hne Hlen. unfold md5_of_etag, quoted, C.strlen, C.copy_range.
  change (String.length (String C.dquote (s ++ String C.dquote "")))
    with (S (String.length (s ++ String C.dquote ""))).
  rewrite length_append.
  change (String.length (String C.dquote "")) with 1%nat.
  assert (0 < String.length s)%nat as Hpos by (destruct s; [congruence|cbn; lia]).
  replace (Z.of_nat (S (String.length s + 1)) - 2)
    with (Z.of_nat (String.length s)) by lia.
  rewrite int_small by lia.
  destruct (Z.ltb_spec 0 (Z.of_nat (String.length s))); [|lia].
  rewrite Nat2Z.id. cbn [String.substring].
  rewrite substring_whole_prefix. reflexivity.
Qed.

(** [results] prepends one resource whose content id is [md5_of_etag]
    of the getetag property. *)
Lemma results_prepends fetchCtx r :
  lc_target fetchCtx <> None ->
  exists res,
    lc_list (results fetchCtx r) = res :: lc_list fetchCtx
    /\ res_uri res = ne_path_unescape (pr_path r)
    /\ res_md5 res = match pr_etag r with
                     | Some md5sum => md5_of_etag md5sum
                     | None => None
                     end
    /\ res_modtime res = match pr_modtime r with
                         | Some modtime => oc_httpdate_parse modtime
                         | None => 0
                         end.
Proof.
  intros Ht. unfold results. destruct (lc_target fetchCtx); [|congruence].
  eexists. cbn. repeat split.
Qed.

(** What [readdir] returns is the translation of a resource under the
    cursor, and the stat cache is filled from it. *)
Lemma readdir_next_elem target curr res rest :
  readdir_next target curr = (Some res, rest) -> res ∈ curr.
Proof.
  induction curr as [|x curr IH]; cbn; [discriminate|].
  destruct (match target with
            | Some t => negb (ne_path_compare t (ne_path_escape (res_uri x)) =? 0)
            | None => true
            end).
  - intros [= -> ->]. left.
  - intros Hn. right. auto.
Qed.

Lemma readdir_fills_stat_cache dhandle g g' lfs :
  owncloud_readdir dhandle g = (g', Some lfs) ->
  exists fetchCtx res,
    store g !! dhandle = Some fetchCtx
    /\ res ∈ lc_currResource fetchCtx
    /\ fs_md5 lfs = res_md5 res
    /\ fs_name (_stat_cache g') = res_name res
    /\ fs_md5 (_stat_cache g') = res_md5 res.
Proof.
  unfold owncloud_readdir.
  destruct (store g !! dhandle) as [fetchCtx|] eqn:Hs; [|discriminate].
  destruct (readdir_next (lc_target fetchCtx) (lc_currResource fetchCtx))
    as [[res|] rest] eqn:Hn; [|discriminate].
  intros [= Hg Hl]. subst g'. exists fetchCtx, res.
  split; [reflexivity|]. split; [eapply readdir_next_elem; eauto|].
  rewrite Hl. cbn [fill_stat_cache _stat_cache set_stat_cache fs_md5 fs_name].
  unfold resourceToFileStat in Hl.
  destruct (res_type res); injection Hl as <-; repeat split.
Qed.

(** C4 (amended): for a wire ETag "s" (a non-empty s between double
    quotes), the content id that the PROPFIND callback stores in the
    resource, and that readdir's fill of the stat cache copies, is s
    without the quotes; the entry the GET path stores in the ETag cache
    is the header as received, quotes included. *)
Theorem C4_cached_etags (s : string) :
  s <> "" -> Z.of_nat (String.length s) < 2 ^ 31 ->
  (forall fetchCtx r,
      lc_target fetchCtx <> None -> pr_etag r = Some (quoted s) ->
      exists res,
        lc_list (results fetchCtx r) = res :: lc_list fetchCtx
        /\ res_md5 res = Some s
        /\ forall g,
            fs_md5 (_stat_cache
                      (fill_stat_cache (resourceToFileStat (Some res) g) g))
            = Some s)
  /\ (forall t hdrs g,
         h_etag hdrs = Some (quoted s) ->
         _id_cache (fst (install_content_reader (Some t) hdrs g))
         = {| idc_uri := tc_clean_uri t; idc_id := Some (quoted s) |}).
Proof.
  intros Hne Hlen. split.
  - intros fetchCtx r Ht He.
    destruct (results_prepends fetchCtx r Ht) as (res & Hl & _ & Hm & _).
    rewrite He, md5_of_quoted in Hm by assumption.
    exists res. split; [exact Hl|]. split; [exact Hm|].
    intros g. unfold resourceToFileStat.
    destruct (res_type res); cbn; exact Hm.
  - intros t hdrs g He. unfold install_content_reader. rewrite He.
    rewrite bool_decide_eq_true_2 by (unfold quoted; discriminate).
    reflexivity.
Qed.

(** ** stat *)

Lemma owncloud_stat_fresh uri buf r g name g1 a :
  c_basename uri = Some name ->
  stat_cache_hit name g = false ->
  fetch_resource_list uri NE_DEPTH_ONE r (set_errno 0 g) = (g1, Some a) ->
  owncloud_stat uri buf r g
  = (free_fetchCtx (Some a) g1,
     match resourceToFileStat
             match store g1 !! a with
             | Some c => find_target (lc_target c) (lc_list c)
             | None => None
             end g1 with
     | Some lfs =>
         {| fs_name := Some name; fs_fields := fs_fields lfs;
            fs_type := fs_type lfs; fs_mtime := fs_mtime lfs;
            fs_size := fs_size lfs; fs_mode := _stat_perms (fs_type lfs);
            fs_md5 := fs_md5 lfs |}
     | None =>
         {| fs_name := Some name; fs_fields := fs_fields buf;
            fs_type := fs_type buf; fs_mtime := fs_mtime buf;
            fs_size := fs_size buf; fs_mode := fs_mode buf;
            fs_md5 := fs_md5 buf |}
     end,
     0).
Proof.
  intros Hn Hmiss Hf. unfold owncloud_stat. cbn [fs_name]. rewrite Hn.
  change (stat_cache_hit name (set_errno 0 g)) with (stat_cache_hit name g).
  rewrite Hmiss, Hf. reflexivity.
Qed.


Lemma update_time_delta_frame server_time now g :
  let g' := update_time_delta server_time now g in
  errno g' = errno g /\ caches g' = caches g /\ wire g' = wire g
  /\ next_addr g' = next_addr g.
Proof.
  unfold update_time_delta. destruct (server_time =? 0); repeat split.
Qed.

(** The session keeps the latest clock sample as [time_delta] and the
    one before as [prev_delta]. *)
Lemma update_time_delta_latest server_time now g :
  server_time <> 0 ->
  let d := dav_session (update_time_delta server_time now g) in
  time_delta d = C.long (server_time - now)
  /\ prev_delta d = time_delta (dav_session g).
Proof.
  intros Hs. unfold update_time_delta.
  destruct (Z.eqb_spec server_time 0); [contradiction|]. split; reflexivity.
Qed.

(** A listing that comes from the cache leaves errno alone; a fresh one
    leaves errno as the calls of the callback left it. *)
Lemma fetch_resource_list_errno uri depth r g g1 a :
  fetch_resource_list uri depth r g = (g1, Some a) ->
  errno g1
  = match cached_listing uri g with
    | Some _ => errno g
    | None => fold_left (results_errno (_cleanPath uri)) (pf_results r)
                (errno g)
    end.
Proof.
  unfold fetch_resource_list. fold (cached_listing uri g).
  destruct (cached_listing uri g) as [[a0 c0]|].
  - intros [= <- _]. reflexivity.
  - cbv beta iota zeta.
    destruct (pf_ret r =? NE_OK) eqn:Hret.
    + destruct (klass (pf_status r) =? 2); cbn [negb]; cbv beta iota zeta.
      * rewrite ?Hret.
        match goal with
        | |- context [c_streq ?x ?y && ?b] => destruct (c_streq x y && b)
        end; cbv beta iota zeta.
        -- rewrite ?Hret. cbn [negb]. cbv beta iota zeta. intros [= <- _].
           cbn [errno set_store set_propfind_cache].
           match goal with
           | |- errno (free_fetchCtx ?c ?x) = _ =>
               destruct (free_fetchCtx_frame c x) as (_&_&_&_&He&_);
               cbv zeta in He; rewrite He
           end.
           match goal with
           | |- errno (update_time_delta ?s ?n ?x) = _ =>
               destruct (update_time_delta_frame s n x) as (He'&_);
               cbv zeta in He'; rewrite He'
           end.
           reflexivity.
        -- change (NE_CONNECT =? NE_OK) with false. cbn [negb].
           cbv beta iota zeta. discriminate.
      * change (NE_CONNECT =? NE_OK) with false. cbn [negb].
        cbv beta iota zeta. discriminate.
    + destruct ((pf_ret r =? NE_ERROR) && (code (pf_status r) =? 404));
        cbv beta iota zeta; rewrite ?Hret; cbn [negb]; cbv beta iota zeta;
        discriminate.
Qed.

(** C9: when the stat cache holds the basename of the URI, stat returns
    0 with the cached type, size, mtime and content id, sends nothing
    to the server and does not read any reply; only the basename is
    compared, so the URI may name another path than the cached one. *)
Theorem C9_stat_cache_hit uri buf r g name :
  c_basename uri = Some name ->
  fs_name (_stat_cache g) = Some name ->
  let '(g', buf', rc) := owncloud_stat uri buf r g in
  rc = 0
  /\ g' = set_errno 0 g
  /\ wire g' = wire g
  /\ fs_type buf' = fs_type (_stat_cache g)
  /\ fs_size buf' = fs_size (_stat_cache g)
  /\ fs_mtime buf' = fs_mtime (_stat_cache g)
  /\ fs_md5 buf' = fs_md5 (_stat_cache g).
Proof.
  intros Hn Hc. unfold owncloud_stat. cbn [fs_name]. rewrite Hn.
  unfold stat_cache_hit, C.strcmp_eq. cbn [_stat_cache set_errno].
  rewrite Hc. rewrite bool_decide_eq_true_2 by reflexivity.
  repeat split.
Qed.

(** C10: when the listing is fetched but holds no resource that matches
    the target, stat returns 0 and the caller's buffer keeps what it
    held, except for the name: no type, size or mtime is written. *)
Theorem C10_stat_without_match uri buf r g name g1 a c :
  c_basename uri = Some name ->
  stat_cache_hit name g = false ->
  fetch_resource_list uri NE_DEPTH_ONE r (set_errno 0 g) = (g1, Some a) ->
  store g1 !! a = Some c ->
  find_target (lc_target c) (lc_list c) = None ->
  owncloud_stat uri buf r g
  = (free_fetchCtx (Some a) g1,
     {| fs_name := Some name; fs_fields := fs_fields buf;
        fs_type := fs_type buf; fs_mtime := fs_mtime buf;
        fs_size := fs_size buf; fs_mode := fs_mode buf;
        fs_md5 := fs_md5 buf |},
     0).
Proof.
  intros Hn Hmiss Hf Hs Hfind.
  rewrite (owncloud_stat_fresh uri buf r g name g1 a Hn Hmiss Hf).
  rewrite Hs, Hfind. reflexivity.
Qed.

(** ** mkdir *)

Lemma last_char_nonempty path :
  path <> "" -> exists c, last_char path = Some c.
Proof.
  intros Hne. unfold last_char, C.char_at.
  destruct (String.length path) as [|l] eqn:Hl.
  - destruct path; [congruence|discriminate].
  - destruct (String.get l path) eqn:Hg; [eauto|].
    exfalso. revert l Hl Hg. induction path as [|x path IH]; [discriminate|].
    intros [|l] Hl Hg; [discriminate|]. cbn in Hl, Hg.
    destruct path as [|y path]; [discriminate|].
    eapply IH; [discriminate| |exact Hg]. cbn. cbn in Hl. lia.
Qed.

(** C8: for a URI whose path parses and is not empty, and once the
    session is connected, mkdir sends one MKCOL for the escaped path
    with a trailing slash ensured; errno is EEXIST when the status is
    405 and the error mapper's verdict on the return code otherwise;
    the result is 0 for NE_OK and -1 for any other return code. *)
Theorem C8_mkdir uri cio io g path g1 rc :
  _cleanPath uri = Some path ->
  path <> "" ->
  dav_connect uri cio g = (g1, rc) ->
  0 <= rc ->
  let sent := emit (Ne_simple_request
                      {| req_method := "MKCOL";
                         req_path := Some (with_trailing_slash path) |}) g1 in
  owncloud_mkdir uri cio io g
  = Some (if code (si_status io) =? 405
          then set_errno EEXIST sent
          else set_errno_from_neon_errcode (si_rc io) (si_error io) sent,
          if si_rc io =? NE_OK then 0 else -1).
Proof.
  intros Hp Hne Hc Hrc. unfold owncloud_mkdir. rewrite Hp.
  cbv beta iota zeta. rewrite Hc.
  destruct (Z.ltb_spec rc 0); [lia|].
  destruct (Z.leb_spec 0 rc); [|lia].
  destruct (last_char_nonempty path Hne) as [c Hl]. rewrite Hl.
  unfold with_trailing_slash. rewrite Hl.
  assert ((if bool_decide (c <> "/"%char) then path ++ "/" else path)
          = (if bool_decide (Some c = Some "/"%char) then path else path ++ "/"))
    as ->.
  { destruct (decide (c = "/"%char)) as [->|Hd].
    - rewrite bool_decide_eq_false_2 by (intros Hx; apply Hx; reflexivity).
      rewrite bool_decide_eq_true_2 by reflexivity. reflexivity.
    - rewrite bool_decide_eq_true_2 by exact Hd.
      rewrite bool_decide_eq_false_2 by congruence. reflexivity. }
  f_equal. f_equal.
  destruct (Z.ltb_spec (si_rc io) 0), (Z.eqb_spec (si_rc io) NE_OK);
    cbn; try reflexivity.
  unfold NE_OK in *. lia.
Qed.

(** When the connection cannot be made nothing is sent: the result is
    -1 with errno EINVAL. *)
Lemma mkdir_not_connected uri cio io g g1 rc :
  dav_connect uri cio
    (match _cleanPath uri with Some _ => g | None => set_errno EINVAL g end)
  = (g1, rc) ->
  rc < 0 ->
  owncloud_mkdir uri cio io g = Some (set_errno EINVAL g1, -1).
Proof.
  intros Hc Hrc. unfold owncloud_mkdir. rewrite Hc.
  destruct (Z.ltb_spec rc 0); [|lia].
  destruct (Z.leb_spec 0 rc); [lia|]. reflexivity.
Qed.

End Properties.

(** * The statements at work on the sample platform *)

Section Examples.

Import Sample.

Local Existing Instance platform.

(** C1, as the table words it, fails at 206: the table makes every
    status from 200 to 207 a success, the switch files 206 (Partial
    Content) under the I/O errors. *)
Lemma C1_partial_content_is_EIO :
  errno (set_errno_from_http_errcode 206 vio_module_init) = EIO
  /\ errno_table_as_specified 206 = 0
  /\ errno (set_errno_from_http_errcode 206 vio_module_init)
     <> errno_table_as_specified 206.
Proof. split; [reflexivity|]. split; [reflexivity|]. vm_compute. discriminate. Qed.

(** C2, as worded, fails on the GET path: a download that the server
    answers with 401, which the dispatch reports as NE_AUTH, makes
    sendfile return -1, not 1. *)
Lemma C2_get_unauthorized_is_hard :
  klass (sf_status unauthorized) <> 2
  /\ snd (owncloud_sendfile (Some 3) (Some get_handle) unauthorized
            vio_module_init) = -1.
Proof. split; [vm_compute; discriminate|reflexivity]. Qed.

Lemma C2_sendfile_soft_failure_witness :
  klass (sf_status insufficient_storage) <> 2
  /\ snd (owncloud_sendfile (Some 3) (Some put_handle) insufficient_storage
            vio_module_init) = 1
  /\ snd (owncloud_sendfile (Some 3) (Some get_handle) insufficient_storage
            vio_module_init) = 1
  /\ snd (owncloud_sendfile (Some 3) (Some get_handle) unauthorized
            vio_module_init) = -1.
Proof.
  assert (klass (sf_status insufficient_storage) <> 2) as Hk
      by (vm_compute; discriminate).
  assert (klass (sf_status unauthorized) <> 2) as Hk'
      by (vm_compute; discriminate).
  split; [exact Hk|].
  destruct (C2_sendfile_soft_failure 3 put_handle insufficient_storage
              vio_module_init Hk) as [Hput _].
  destruct (C2_sendfile_soft_failure 3 get_handle insufficient_storage
              vio_module_init Hk) as (_ & Hget & _).
  destruct (C2_sendfile_soft_failure 3 get_handle unauthorized
              vio_module_init Hk') as (_ & _ & Hhard).
  split; [apply Hput; reflexivity|].
  split; [apply Hget; reflexivity|].
  apply Hhard; [reflexivity|vm_compute; discriminate].
Defined.

(** C4, as worded, fails for the ETag cache: after a download whose
    response carries the ETag "abc" in quotes, the cache entry still
    has the quotes. *)
Lemma C4_etag_cache_keeps_quotes :
  idc_id (_id_cache (fst (fst (owncloud_sendfile (Some 3) (Some get_handle)
                                 download_ok vio_module_init))))
  = Some (quoted "abc")
  /\ strip_quotes (quoted "abc") = "abc"
  /\ quoted "abc" <> strip_quotes (quoted "abc").
Proof.
  split; [reflexivity|]. split; [reflexivity|].
  intros Hq. vm_compute in Hq. discriminate Hq.
Qed.

Lemma C4_cached_etags_witness :
  "abc" <> ""
  /\ (exists res,
         lc_list (results {| lc_list := []; lc_currResource := [];
                             lc_target := Some "/a/"; lc_result_count := 0;
                             lc_ref := 1 |} (file_entry "/a/x.txt"))
         = [res]
         /\ res_md5 res = Some "abc")
  /\ _id_cache (fst (install_content_reader (Some get_handle)
                       {| h_content_encoding := Some "gzip";
                          h_etag := Some (quoted "abc") |} vio_module_init))
     = {| idc_uri := Some a_txt; idc_id := Some (quoted "abc") |}.
Proof.
  assert ("abc" <> "") as Hne by discriminate.
  assert (Z.of_nat (String.length "abc") < 2 ^ 31) as Hlen by (vm_compute; reflexivity).
  destruct (C4_cached_etags "abc" Hne Hlen) as [Hstat Hid].
  split; [exact Hne|]. split.
  - destruct (Hstat {| lc_list := []; lc_currResource := [];
                       lc_target := Some "/a/"; lc_result_count := 0;
                       lc_ref := 1 |} (file_entry "/a/x.txt"))
      as (res & Hl & Hm & _); [discriminate|reflexivity|].
    exists res. split; assumption.
  - apply (Hid get_handle); reflexivity.
Defined.

(** The stat cache of the sample listing holds the bare value. *)
Example after_readdir_content_id :
  fs_md5 (_stat_cache after_readdir) = Some "abc".
Proof. reflexivity. Qed.

Lemma C8_mkdir_witness :
  _cleanPath "owncloud://host/sync/new" = Some "/sync/new"
  /\ (exists g',
         owncloud_mkdir "owncloud://host/sync/new" connect_ok method_not_allowed
           vio_module_init = Some (g', -1)
         /\ errno g' = EEXIST
         /\ wire g' = [Ne_session_create "http" "host" 80;
                       Ne_set_read_timeout 30;
                       Ne_simple_request
                         {| req_method := "MKCOL";
                            req_path := Some "/sync/new/" |}])
  /\ (exists g',
         owncloud_mkdir "owncloud://host/sync/new/" connect_ok created
           vio_module_init = Some (g', 0)
         /\ wire g' = [Ne_session_create "http" "host" 80;
                       Ne_set_read_timeout 30;
                       Ne_simple_request
                         {| req_method := "MKCOL";
                            req_path := Some "/sync/new/" |}]).
Proof.
  split; [vm_compute; reflexivity|]. split.
  - assert (_cleanPath "owncloud://host/sync/new" = Some "/sync/new") as Hp
        by (vm_compute; reflexivity).
    assert ("/sync/new" <> "") as Hne by discriminate.
    assert (dav_connect "owncloud://host/sync/new" connect_ok vio_module_init
            = (fst (dav_connect "owncloud://host/sync/new" connect_ok
                      vio_module_init), 0)) as Hc
        by (vm_compute; reflexivity).
    assert (0 <= 0) as Hrc by lia.
    pose proof (C8_mkdir "owncloud://host/sync/new" connect_ok
                  method_not_allowed vio_module_init "/sync/new" _ 0
                  Hp Hne Hc Hrc) as W.
    cbv zeta in W. eexists. split; [exact W|].
    split; vm_compute; reflexivity.
  - assert (_cleanPath "owncloud://host/sync/new/" = Some "/sync/new/") as Hp
        by (vm_compute; reflexivity).
    assert ("/sync/new/" <> "") as Hne by discriminate.
    assert (dav_connect "owncloud://host/sync/new/" connect_ok vio_module_init
            = (fst (dav_connect "owncloud://host/sync/new/" connect_ok
                      vio_module_init), 0)) as Hc
        by (vm_compute; reflexivity).
    assert (0 <= 0) as Hrc by lia.
    pose proof (C8_mkdir "owncloud://host/sync/new/" connect_ok
                  created vio_module_init "/sync/new/" _ 0
                  Hp Hne Hc Hrc) as W.
    cbv zeta in W. eexists. split; [exact W|].
    vm_compute; reflexivity.
Defined.

(** The cache was filled from /a/x.txt; the URI asked for is
    /b/x.txt, and the reply offered would say the path does not
    exist. *)
Lemma C9_stat_cache_hit_witness :
  c_basename "owncloud://host/b/x.txt" = Some "x.txt"
  /\ fs_name (_stat_cache after_readdir) = Some "x.txt"
  /\ let '(g', buf', rc) :=
       owncloud_stat "owncloud://host/b/x.txt" zero_file_stat
         {| pf_ret := NE_ERROR; pf_status := status 404 "Not Found";
            pf_results := []; pf_content_type := None; pf_date := "";
            pf_now := 0; pf_error := "404 Not Found" |}
         after_readdir in
     rc = 0
     /\ wire g' = wire after_readdir
     /\ fs_type buf' = CSYNC_VIO_FILE_TYPE_REGULAR
     /\ fs_size buf' = 1024
     /\ fs_mtime buf' = 784111687
     /\ fs_md5 buf' = Some "abc".
Proof.
  split; [reflexivity|]. split; [reflexivity|].
  pose proof (C9_stat_cache_hit "owncloud://host/b/x.txt" zero_file_stat
                {| pf_ret := NE_ERROR; pf_status := status 404 "Not Found";
                   pf_results := []; pf_content_type := None; pf_date := "";
                   pf_now := 0; pf_error := "404 Not Found" |}
                after_readdir "x.txt" eq_refl eq_refl) as W.
  destruct (owncloud_stat "owncloud://host/b/x.txt" zero_file_stat _ after_readdir)
    as [[g' buf'] rc].
  destruct W as (Hrc & _ & Hw & Ht & Hs & Hm & Hd).
  repeat split; assumption.
Defined.

(** stat of the directory URI with its trailing slash: the listing has
    the directory and a file, and neither matches the target. *)
Lemma C10_stat_without_match_witness :
  exists g',
    owncloud_stat sync_dir zero_file_stat
      (multistatus [dir_entry "/sync/"; file_entry "/sync/a.txt"])
      vio_module_init
    = (g', {| fs_name := Some "sync"; fs_fields := 0;
              fs_type := CSYNC_VIO_FILE_TYPE_UNKNOWN; fs_mtime := 0;
              fs_size := 0; fs_mode := 0; fs_md5 := None |}, 0).
Proof.
  eexists.
  eapply (C10_stat_without_match sync_dir zero_file_stat
            (multistatus [dir_entry "/sync/"; file_entry "/sync/a.txt"])
            vio_module_init "sync" _ 1%positive);
    [reflexivity|reflexivity|reflexivity|reflexivity|reflexivity].
Defined.

End Examples.

(** * Further properties of the module *)

Section MoreProperties.

Context `{Platform}.

(** ** The error mapper on transport results *)

Lemma http_errcode_errno s g :
  errno (set_errno_from_http_errcode s g) = errno_table s.
Proof.
  destruct (Z_lt_le_dec s 200) as [Hlo|Hlo];
    [rewrite http_errcode_default, errno_table_default by lia; reflexivity|].
  destruct (Z_lt_le_dec 507 s) as [Hhi|Hhi];
    [rewrite http_errcode_default, errno_table_default by lia; reflexivity|].
  apply http_errcode_range. lia.
Qed.

(** X1: for NE_OK and NE_ERROR the mapper reads the status from the
    text of the session error: the text is kept as the last error
    string; a text without a leading number gives ERRNO_ERROR_STRING,
    and a leading number goes through the table of HTTP statuses
    (unless it is the number of ERRNO_ERROR_STRING itself). *)
Theorem session_error_text_decides_errno (neon_code : Z) (msg : string) (g : globals) :
  neon_code = NE_OK \/ neon_code = NE_ERROR ->
  let g' := set_errno_from_neon_errcode neon_code msg g in
  error_string (dav_session g') = Some msg
  /\ errno g' =
     (let '(v, consumed) := strtol msg in
      if bool_decide (consumed = O) then ERRNO_ERROR_STRING
      else if C.int v =? ERRNO_ERROR_STRING then ERRNO_ERROR_STRING
           else errno_table (C.int v)).
Proof.
  intros Hc.
  assert (set_errno_from_neon_errcode neon_code msg g
          = set_errno_from_session msg g) as ->
      by (destruct Hc as [-> | ->]; reflexivity).
  unfold set_errno_from_session, http_result_code_from_session.
  destruct (strtol msg) as [v consumed].
  destruct (bool_decide (consumed = O)).
  - rewrite Z.eqb_refl, orb_true_r. split; reflexivity.
  - destruct (Z.eqb_spec (C.int v) EIO) as [He|He]; cbn [orb].
    + split; [reflexivity|]. cbn [errno set_errno]. rewrite He.
      destruct (EIO =? ERRNO_ERROR_STRING) eqn:E; [|reflexivity].
      apply Z.eqb_eq in E. exact E.
    + destruct (C.int v =? ERRNO_ERROR_STRING) eqn:E.
      * split; [reflexivity|]. apply Z.eqb_eq in E. exact E.
      * split; [reflexivity|]. rewrite http_errcode_errno. reflexivity.
Qed.

(** ** The session *)

Lemma configureProxy_frame g :
  let '(g', re) := configureProxy g in
  caches g' = caches g /\ errno g' = errno g
  /\ dav_session g' = dav_session g /\ _connected g' = _connected g
  /\ _progresscb g' = _progresscb g /\ next_addr g' = next_addr g.
Proof.
  unfold configureProxy.
  destruct (proxy_type (dav_session g)); [|repeat split].
  destruct (c_streq _ _); [repeat split|].
  destruct (_ || _); [|repeat split].
  destruct (proxy_host (dav_session g)); repeat split.
Qed.

Lemma configureProxy_cases (g : globals) :
  let d := dav_session g in
  let port := if 0 <? proxy_port d then proxy_port d else 8080 in
  let '(g', re) := configureProxy g in
  match proxy_type d, proxy_host d with
  | Some t, Some h =>
      if bool_decide (t = "DefaultProxy" \/ t = "HttpProxy"
                      \/ t = "HttpCachingProxy")
      then re = 2 /\ g' = emit (Ne_session_proxy h port) g
      else g' = g /\ re = (if bool_decide (t = "NoProxy") then 0 else -1)
  | Some t, None =>
      g' = g /\ re = (if bool_decide (t = "NoProxy") then 0 else -1)
  | None, _ => g' = g /\ re = 0
  end.
Proof.
  unfold configureProxy.
  destruct (proxy_type (dav_session g)) as [t|];
    [|destruct (proxy_host (dav_session g)); split; reflexivity].
  rewrite !c_streq_strings.
  destruct (decide (t = "NoProxy")) as [->|Hn].
  - rewrite (bool_decide_eq_true_2 ("NoProxy" = "NoProxy")) by reflexivity.
    destruct (proxy_host (dav_session g)); [|split; reflexivity].
    rewrite bool_decide_eq_false_2; [split; reflexivity|].
    intros [E|[E|E]]; discriminate E.
  - rewrite (bool_decide_eq_false_2 (t = "NoProxy")) by exact Hn.
    destruct (decide (t = "DefaultProxy" \/ t = "HttpProxy"
                      \/ t = "HttpCachingProxy")) as [Hy|Hno].
    + assert (bool_decide (t = "DefaultProxy") || bool_decide (t = "HttpProxy")
              || bool_decide (t = "HttpCachingProxy") = true) as ->.
      { destruct Hy as [-> | [-> | ->] ]; reflexivity. }
      destruct (proxy_host (dav_session g)); [|split; reflexivity].
      rewrite bool_decide_eq_true_2 by exact Hy. split; reflexivity.
    + assert (bool_decide (t = "DefaultProxy") || bool_decide (t = "HttpProxy")
              || bool_decide (t = "HttpCachingProxy") = false) as ->.
      { rewrite !orb_false_iff. repeat split;
          apply bool_decide_eq_false_2; intros E; apply Hno; auto. }
      destruct (proxy_host (dav_session g)); [|split; reflexivity].
      rewrite bool_decide_eq_false_2 by exact Hno. split; reflexivity.
Qed.

Lemma dav_connect_frame base_url io g :
  let '(g', rc) := dav_connect base_url io g in
  caches g' = caches g /\ errno g' = errno g
  /\ _progresscb g' = _progresscb g /\ next_addr g' = next_addr g
  /\ time_delta (dav_session g') = time_delta (dav_session g)
  /\ ((rc = 0 /\ _connected g' = true)
      \/ (rc = -1 /\ _connected g' = false /\ _connected g = false)).
Proof.
  unfold dav_connect.
  destruct (_connected g) eqn:Hc; [repeat split; left; auto|].
  destruct (c_parse_uri base_url) as [u|]; [|repeat split; right; auto].
  destruct (C.strcmp_eq (pu_scheme u) "owncloud");
    [|destruct (C.strcmp_eq (pu_scheme u) "ownclouds");
      [|repeat split; right; auto]].
  all: destruct (co_sock_init io <? 0); [repeat split; right; auto|].
  all: destruct (co_session_created io); cbn [negb];
    [|repeat split; right; auto].
  all: cbn [andb].
  all: try (destruct (co_has_ssl io); cbn [negb];
            [|repeat split; right; auto]).
  all: match goal with
       | |- context [configureProxy ?x] =>
           pose proof (configureProxy_frame x) as Hp;
           destruct (configureProxy x) as [g2 ps];
           destruct Hp as (Hp1 & Hp2 & Hp3 & Hp4 & Hp5 & Hp6)
       end.
  all: unfold caches in *; cbn in Hp1, Hp2, Hp3, Hp5, Hp6.
  all: destruct (0 <? ps); cbn;
    rewrite ?Hp2, ?Hp3, ?Hp5, ?Hp6;
    (split; [injection Hp1 as -> -> -> ->; reflexivity|]);
    repeat split; left; auto.
Qed.

(** X2: once a connect has succeeded, every later dav_connect returns 0
    and changes nothing, whatever URL it is given: the session stays
    bound to the first host. *)
Theorem dav_connect_only_once url io g g1 url' io' :
  dav_connect url io g = (g1, 0) ->
  dav_connect url' io' g1 = (g1, 0).
Proof.
  intros Hc. pose proof (dav_connect_frame url io g) as Hf. rewrite Hc in Hf.
  destruct Hf as (_ & _ & _ & _ & _ & [[_ Hcon] | [Hrc _]]); [|discriminate].
  unfold dav_connect. rewrite Hcon. reflexivity.
Qed.

(** X3: a first connect succeeds only for a URI that parses with scheme
    owncloud or ownclouds (the latter needs SSL support), with the
    socket layer initialised and a session created; it opens the session
    as http or https on the port of the URI, 80 or 443 when the URI has
    none, and a read timeout of 0 becomes 30 seconds. *)
Theorem dav_connect_success url io g g1 :
  _connected g = false ->
  dav_connect url io g = (g1, 0) ->
  exists u protocol tail,
    c_parse_uri url = Some u
    /\ ((pu_scheme u = "owncloud" /\ protocol = "http")
        \/ (pu_scheme u = "ownclouds" /\ protocol = "https"
            /\ co_has_ssl io = true))
    /\ 0 <= co_sock_init io
    /\ co_session_created io = true
    /\ read_timeout (dav_session g1)
       = (if read_timeout (dav_session g) =? 0 then 30
          else read_timeout (dav_session g))
    /\ wire g1
       = (wire g ++
          Ne_session_create protocol (pu_host u)
            (if pu_port u =? 0 then ne_uri_defaultport protocol else pu_port u)
          :: Ne_set_read_timeout (read_timeout (dav_session g1)) :: tail)%list.
Proof.
  intros Hn. unfold dav_connect. rewrite Hn.
  destruct (c_parse_uri url) as [u|]; [|discriminate].
  unfold C.strcmp_eq.
  destruct (decide (pu_scheme u = "owncloud")) as [Hs|Hs].
  - rewrite (bool_decide_eq_true_2 _ Hs).
    destruct (Z.ltb_spec (co_sock_init io) 0); [discriminate|].
    destruct (co_session_created io); cbn [negb andb]; [|discriminate].
    match goal with
    | |- context [configureProxy ?x] =>
        pose proof (configureProxy_cases x) as Hp;
        pose proof (configureProxy_frame x) as Hf;
        destruct (configureProxy x) as [g2 ps]
    end.
    intros Hr. exists u, "http".
    assert (exists tail, wire g2 = (wire g ++
              Ne_session_create "http" (pu_host u)
                (if pu_port u =? 0 then ne_uri_defaultport "http" else pu_port u)
              :: Ne_set_read_timeout
                   (if read_timeout (dav_session g) =? 0 then 30
                    else read_timeout (dav_session g)) :: tail)%list
            /\ read_timeout (dav_session g2)
               = (if read_timeout (dav_session g) =? 0 then 30
                  else read_timeout (dav_session g))) as (tail & Hw & Ht).
    { destruct Hf as (_ & _ & Hd & _). rewrite Hd. cbn.
      cbv zeta in Hp. cbn in Hp.
      destruct (proxy_type (dav_session g)) as [t|].
      - destruct (proxy_host (dav_session g)) as [h|].
        + destruct (bool_decide _) in Hp.
          * destruct Hp as [_ ->]. cbn. rewrite <- !app_assoc. cbn.
            eexists. split; reflexivity.
          * destruct Hp as [-> _]. cbn. rewrite <- !app_assoc. cbn.
            exists []. split; reflexivity.
        + destruct Hp as [-> _]. cbn. rewrite <- !app_assoc. cbn.
          exists []. split; reflexivity.
      - destruct Hp as [-> _]. cbn. rewrite <- !app_assoc. cbn.
        exists []. split; reflexivity. }
    destruct (0 <? ps); injection Hr as <-; cbn [dav_session wire emit set_connected].
    + exists (tail ++ [Ne_set_proxy_auth])%list.
      split; [reflexivity|]. split; [left; auto|]. split; [lia|].
      split; [reflexivity|]. split; [exact Ht|].
      rewrite Hw, Ht. rewrite <- !app_assoc. reflexivity.
    + exists tail.
      split; [reflexivity|]. split; [left; auto|]. split; [lia|].
      split; [reflexivity|]. split; [exact Ht|].
      rewrite Hw, Ht. reflexivity.
  - rewrite (bool_decide_eq_false_2 _ Hs).
    destruct (decide (pu_scheme u = "ownclouds")) as [Hs'|Hs'];
      [rewrite (bool_decide_eq_true_2 _ Hs')
      |rewrite (bool_decide_eq_false_2 _ Hs'); discriminate].
    destruct (Z.ltb_spec (co_sock_init io) 0); [discriminate|].
    destruct (co_session_created io); cbn [negb andb]; [|discriminate].
    destruct (co_has_ssl io); cbn [negb]; [|discriminate].
    match goal with
    | |- context [configureProxy ?x] =>
        pose proof (configureProxy_cases x) as Hp;
        pose proof (configureProxy_frame x) as Hf;
        destruct (configureProxy x) as [g2 ps]
    end.
    intros Hr. exists u, "https".
    assert (exists tail, wire g2 = (wire g ++
              Ne_session_create "https" (pu_host u)
                (if pu_port u =? 0 then ne_uri_defaultport "https" else pu_port u)
              :: Ne_set_read_timeout
                   (if read_timeout (dav_session g) =? 0 then 30
                    else read_timeout (dav_session g)) :: tail)%list
            /\ read_timeout (dav_session g2)
               = (if read_timeout (dav_session g) =? 0 then 30
                  else read_timeout (dav_session g))) as (tail & Hw & Ht).
    { destruct Hf as (_ & _ & Hd & _). rewrite Hd. cbn.
      cbv zeta in Hp. cbn in Hp.
      destruct (proxy_type (dav_session g)) as [t|].
      - destruct (proxy_host (dav_session g)) as [h|].
        + destruct (bool_decide _) in Hp.
          * destruct Hp as [_ ->]. cbn. rewrite <- !app_assoc. cbn.
            eexists. split; reflexivity.
          * destruct Hp as [-> _]. cbn. rewrite <- !app_assoc. cbn.
            eexists. split; reflexivity.
        + destruct Hp as [-> _]. cbn. rewrite <- !app_assoc. cbn.
          eexists. split; reflexivity.
      - destruct Hp as [-> _]. cbn. rewrite <- !app_assoc. cbn.
        eexists. split; reflexivity. }
    destruct (0 <? ps); injection Hr as <-; cbn [dav_session wire emit set_connected].
    + exists (tail ++ [Ne_set_proxy_auth])%list.
      split; [reflexivity|]. split; [right; auto|]. split; [lia|].
      split; [reflexivity|]. split; [exact Ht|].
      rewrite Hw, Ht. rewrite <- !app_assoc. reflexivity.
    + exists tail.
      split; [reflexivity|]. split; [right; auto|]. split; [lia|].
      split; [reflexivity|]. split; [exact Ht|].
      rewrite Hw, Ht. reflexivity.
Qed.

(** ** The listing engine *)

Lemma results_keeps fetchCtx r :
  lc_target (results fetchCtx r) = lc_target fetchCtx
  /\ lc_ref (results fetchCtx r) = lc_ref fetchCtx
  /\ lc_currResource (results fetchCtx r) = lc_currResource fetchCtx.
Proof. unfold results. destruct (lc_target fetchCtx) eqn:E; cbn; auto. Qed.

Lemma listed_keeps uri r :
  lc_target (listed uri r) = _cleanPath uri /\ lc_ref (listed uri r) = 1.
Proof.
  unfold listed.
  assert (forall l c, lc_target (fold_left results l c) = lc_target c
                      /\ lc_ref (fold_left results l c) = lc_ref c) as Hall.
  { induction l as [|x l IH]; intros c; cbn; [auto|].
    destruct (IH (results c x)) as [-> ->].
    destruct (results_keeps c x) as (-> & -> & _). auto. }
  exact (Hall (pf_results r)
           {| lc_list := []; lc_currResource := []; lc_target := _cleanPath uri;
              lc_result_count := 0; lc_ref := 1 |}).
Qed.

Lemma fetch_resource_list_hit uri depth r g a c :
  cached_listing uri g = Some (a, c) ->
  fetch_resource_list uri depth r g
  = (set_store (<[a := set_ref (C.int (lc_ref c + 1)) c]> (store g)) g, Some a).
Proof.
  unfold fetch_resource_list, cached_listing. cbv zeta.
  destruct (propfind_cache g) as [a0|]; [|discriminate].
  destruct (store g !! a0) as [c0|]; [|discriminate].
  destruct (c_streq (_cleanPath uri) (lc_target c0)); [|discriminate].
  intros [= -> ->]. reflexivity.
Qed.

(** The outcome of [fetch_resource_list] when the cache does not
    answer. *)
Lemma fetch_resource_list_miss uri depth r g :
  cached_listing uri g = None ->
  exists g1 tail,
    fetch_resource_list uri depth r g
    = (g1, if accepted r then Some (next_addr g) else None)
    /\ wire g1 = (wire g ++ Ne_propfind_named (_cleanPath uri) depth :: tail)%list
    /\ _stat_cache g1 = _stat_cache g
    /\ _id_cache g1 = _id_cache g
    /\ _connected g1 = _connected g
    /\ next_addr g1 = Pos.succ (next_addr g)
    /\ if accepted r
       then tail = []
            /\ propfind_cache g1 = Some (next_addr g)
            /\ store g1
               = <[next_addr g :=
                     set_ref 2 (set_currResource (lc_list (listed uri r))
                                                 (listed uri r))]>
                   (store (free_fetchCtx (propfind_cache g) g))
            /\ errno g1
               = fold_left (results_errno (_cleanPath uri)) (pf_results r)
                   (errno g)
            /\ time_delta (dav_session g1)
               = (if oc_httpdate_parse (pf_date r) =? 0
                  then time_delta (dav_session g)
                  else C.long (oc_httpdate_parse (pf_date r) - pf_now r))
       else propfind_cache g1 = propfind_cache g
            /\ store g1 = store g
            /\ time_delta (dav_session g1) = time_delta (dav_session g).
Proof.
  intros Hmiss. unfold fetch_resource_list. cbv zeta.
  fold (cached_listing uri g). rewrite Hmiss.
  fold (listed uri r).
  destruct (listed_keeps uri r) as [Htarget Href].
  unfold accepted.
  destruct (pf_ret r =? NE_OK) eqn:Hret; cbn [andb].
  - destruct (klass (pf_status r) =? 2); cbn [negb andb]; cbv beta iota zeta.
    + rewrite ?Hret.
      match goal with
      | |- context [c_streq ?x ?y && ?b] => destruct (c_streq x y && b)
      end; cbv beta iota zeta.
      * rewrite ?Hret. cbn [negb]. cbv beta iota zeta.
        eexists _, []. split; [reflexivity|].
        unfold update_time_delta, free_fetchCtx.
        cbn [lc_ref set_currResource]. rewrite Href.
        change (C.int (1 + 1)) with 2.
        destruct (oc_httpdate_parse (pf_date r) =? 0); cbn;
          (destruct (propfind_cache g) as [a0|]; cbn;
           [destruct (store g !! a0) as [c0|]; cbn;
            [destruct (0 <? C.int (lc_ref c0 - 1)); cbn|]|]);
          repeat split.
      * change (NE_CONNECT =? NE_OK) with false. cbn [negb].
        cbv beta iota zeta. eexists _, []. split; [reflexivity|].
        repeat split.
    + change (NE_CONNECT =? NE_OK) with false. cbn [negb].
      cbv beta iota zeta.
      destruct (_progresscb g) eqn:Hcb; eexists _, _;
        (split; [reflexivity|]); cbn; rewrite ?Hcb; cbn;
        rewrite <- ?app_assoc; repeat split.
  - destruct ((pf_ret r =? NE_ERROR) && (code (pf_status r) =? 404));
      cbv beta iota zeta; rewrite ?Hret; cbn [negb]; cbv beta iota zeta.
    + eexists _, []. split; [reflexivity|]. repeat split.
    + eexists _, []. split; [reflexivity|].
      cbn [errno emit set_next_addr].
      match goal with
      | |- context [set_errno_from_neon_errcode ?c ?m ?x] =>
          destruct (neon_errcode_only_error c m x)
            as (Hc & Hw & Hcon & _ & Hna & Htd)
      end.
      unfold caches in Hc. injection Hc as Hc1 Hc2 Hc3 Hc4.
      rewrite Hw, Hc1, Hc2, Hc3, Hc4, Hcon, Hna, Htd. repeat split.
Qed.

Lemma cached_listing_empty uri g :
  propfind_cache g = None -> cached_listing uri g = None.
Proof. intros Hc. unfold cached_listing. rewrite Hc. reflexivity. Qed.

(** X4: a PROPFIND that fails leaves everything cached as it was: the
    cached listing and its references, every other listing context, the
    stat cache, the ETag cache, and the clock delta used for mtimes. *)
Theorem failed_fetch_keeps_caches uri depth r g g1 :
  fetch_resource_list uri depth r g = (g1, None) ->
  caches g1 = caches g
  /\ time_delta (dav_session g1) = time_delta (dav_session g).
Proof.
  intros Hf. destruct (cached_listing uri g) as [[a c]|] eqn:Hc.
  - rewrite (fetch_resource_list_hit _ depth r _ _ _ Hc) in Hf. discriminate.
  - destruct (fetch_resource_list_miss uri depth r g Hc)
      as (g1' & tail & Hr & _ & Hs & Hi & _ & _ & Hrest).
    rewrite Hf in Hr. destruct (accepted r); [discriminate|].
    injection Hr as <-. destruct Hrest as (Hp & Hst & Ht).
    unfold caches. rewrite Hp, Hst, Hs, Hi. auto.
Qed.

(** X5: when the cache does not answer, a listing is returned only for a
    reply with return code NE_OK, a status of class 2 and exactly the
    content type application/xml; charset=utf-8; exactly one PROPFIND
    was sent for the escaped path, and the new listing is the cached
    one. *)
Theorem fresh_listing_conditions uri depth r g g1 a :
  cached_listing uri g = None ->
  fetch_resource_list uri depth r g = (g1, Some a) ->
  pf_ret r = NE_OK
  /\ klass (pf_status r) = 2
  /\ pf_content_type r = Some "application/xml; charset=utf-8"
  /\ wire g1 = (wire g ++ [Ne_propfind_named (_cleanPath uri) depth])%list
  /\ propfind_cache g1 = Some a.
Proof.
  intros Hc Hf.
  destruct (fetch_resource_list_miss uri depth r g Hc)
    as (g1' & tail & Hr & Hw & _ & _ & _ & _ & Hrest).
  rewrite Hf in Hr. destruct (accepted r) eqn:Ha; [|discriminate].
  injection Hr as <- ->. destruct Hrest as (-> & Hp & _ & He & _).
  unfold accepted in Ha. rewrite !andb_true_iff in Ha.
  destruct Ha as [[Hret Hk] [Hct Hsome]].
  apply Z.eqb_eq in Hret, Hk.
  destruct (pf_content_type r) as [ct|];
    [|apply bool_decide_eq_true_1 in Hsome; congruence].
  rewrite c_streq_strings in Hct. apply bool_decide_eq_true_1 in Hct.
  subst ct. repeat split; assumption.
Qed.

Lemma results_resource_of c r :
  lc_target c <> None ->
  lc_list (results c r) = resource_of r :: lc_list c.
Proof.
  intros Ht. unfold resource_of, results. cbn [lc_target].
  destruct (lc_target c); [reflexivity|congruence].
Qed.

Lemma fold_results_list l : forall c,
  lc_list (fold_left results l c)
  = match lc_target c with
    | Some _ => (rev (map resource_of l) ++ lc_list c)%list
    | None => lc_list c
    end.
Proof.
  induction l as [|x l IH]; intros c; cbn [fold_left map rev].
  - destruct (lc_target c); reflexivity.
  - rewrite IH. destruct (results_keeps c x) as (-> & _ & _).
    destruct (lc_target c) eqn:Ht; [|unfold results; rewrite Ht; reflexivity].
    rewrite results_resource_of by congruence.
    rewrite <- app_assoc. reflexivity.
Qed.

(** X6: the callback keeps every PROPFIND result of a request with a
    parsed target as one resource, the latest first; for a URI that
    does not parse (a NULL target) it keeps none. *)
Theorem listed_resources uri r :
  lc_list (listed uri r)
  = match _cleanPath uri with
    | Some _ => rev (map resource_of (pf_results r))
    | None => []
    end.
Proof.
  unfold listed. rewrite fold_results_list. cbn [lc_target lc_list].
  destruct (_cleanPath uri); [apply app_nil_r|reflexivity].
Qed.

(** X7: after a listing was fetched for a URI, a fetch for any URI with
    the same escaped path is answered from the cache: the same context
    is returned, nothing is sent, and the reply and the depth asked for
    play no part. *)
Theorem second_fetch_hits_cache uri uri' depth depth' r r' g g1 a path :
  cached_listing uri g = None ->
  fetch_resource_list uri depth r g = (g1, Some a) ->
  _cleanPath uri = Some path ->
  _cleanPath uri' = Some path ->
  exists g2,
    fetch_resource_list uri' depth' r' g1 = (g2, Some a)
    /\ wire g2 = wire g1
    /\ propfind_cache g2 = Some a
    /\ (lc_ref <$> store g2 !! a) = Some 3
    /\ (lc_list <$> store g2 !! a) = (lc_list <$> store g1 !! a).
Proof.
  intros Hc Hf Hp Hp'.
  destruct (fetch_resource_list_miss uri depth r g Hc)
    as (g1' & tail & Hr & _ & _ & _ & _ & _ & Hrest).
  rewrite Hf in Hr. destruct (accepted r); [|discriminate].
  injection Hr as <- ->. destruct Hrest as (_ & Hcache & Hst & _).
  assert (cached_listing uri' g1
          = Some (next_addr g,
                  set_ref 2 (set_currResource (lc_list (listed uri r))
                               (listed uri r)))) as Hhit.
  { unfold cached_listing. rewrite Hcache, Hst, lookup_insert_eq.
    cbn [lc_target set_ref set_currResource].
    destruct (listed_keeps uri r) as [-> _].
    rewrite Hp, Hp', c_streq_strings, bool_decide_eq_true_2 by reflexivity.
    reflexivity. }
  rewrite (fetch_resource_list_hit _ depth' r' _ _ _ Hhit).
  eexists. split; [reflexivity|].
  cbn [wire propfind_cache store set_store].
  rewrite Hst, !lookup_insert_eq. cbn. repeat split; assumption.
Qed.

Lemma free_fetchCtx_fresh ctx g a :
  store g !! a = None -> store (free_fetchCtx ctx g) !! a = None.
Proof.
  intros Ha. unfold free_fetchCtx. destruct ctx as [b|]; [|exact Ha].
  destruct (store g !! b) as [c|] eqn:Hb; [|exact Ha].
  assert (b <> a) as Hne by (intros ->; congruence).
  destruct (0 <? C.int (lc_ref c - 1)); cbn [store set_store].
  - rewrite lookup_insert_ne by exact Hne. exact Ha.
  - rewrite lookup_delete_ne by exact Hne. exact Ha.
Qed.

(** X8: the context of a fresh fetch lives exactly as long as someone
    holds it: after the fetch it has the caller's and the cache's
    reference; when the caller lets go it stays as the cached listing;
    when the cache lets go as well, in either order, it is gone, and
    the store of contexts is what cleaning the caches before the fetch
    would have left: the fetch itself released the listing that was
    cached before. *)
Theorem listing_context_released uri depth r g g1 a :
  cached_listing uri g = None ->
  store g !! next_addr g = None ->
  fetch_resource_list uri depth r g = (g1, Some a) ->
  (lc_ref <$> store g1 !! a) = Some 2
  /\ (lc_ref <$> store (free_fetchCtx (Some a) g1) !! a) = Some 1
  /\ propfind_cache (free_fetchCtx (Some a) g1) = Some a
  /\ store (clean_caches (free_fetchCtx (Some a) g1)) = store (clean_caches g)
  /\ store (free_fetchCtx (Some a) (clean_caches g1)) = store (clean_caches g).
Proof.
  intros Hc Hfree Hf.
  destruct (fetch_resource_list_miss uri depth r g Hc)
    as (g1' & tail & Hr & _ & _ & _ & _ & _ & Hrest).
  rewrite Hf in Hr. destruct (accepted r); [|discriminate].
  injection Hr as <- ->. destruct Hrest as (_ & Hcache & Hst & _).
  apply (free_fetchCtx_fresh (propfind_cache g)) in Hfree.
  rewrite (clean_caches_store g).
  set (before := store (free_fetchCtx (propfind_cache g) g)) in *.
  unfold clean_caches, free_fetchCtx.
  cbn [store propfind_cache set_store set_propfind_cache set_stat_cache
       set_id_cache].
  rewrite ?Hcache, ?Hst, ?lookup_insert_eq.
  cbn [lc_ref set_ref set_currResource].
  change (0 <? C.int (2 - 1)) with true. cbv iota.
  cbn [store propfind_cache set_store set_propfind_cache].
  rewrite ?Hcache, ?Hst, ?lookup_insert_eq.
  cbn [lc_ref set_ref set_currResource].
  change (C.int (2 - 1)) with 1.
  change (0 <? C.int (1 - 1)) with false. cbv iota.
  cbn [store set_store].
  rewrite ?Hst, ?insert_insert_eq, ?lookup_insert_eq.
  cbn [lc_ref set_ref]. change (0 <? C.int (1 - 1)) with false. cbv iota.
  cbn [store set_store].
  rewrite ?delete_insert_eq, ?insert_insert_eq, ?delete_insert_eq.
  rewrite (delete_id _ _ Hfree). repeat split.
Qed.

(** ** readdir *)

Lemma readdir_next_filter target curr :
  match readdir_next target curr with
  | (Some res, rest) =>
      List.filter (is_entry target) curr = res :: List.filter (is_entry target) rest
      /\ (length rest < length curr)%nat
  | (None, rest) => List.filter (is_entry target) curr = [] /\ rest = []
  end.
Proof.
  induction curr as [|x curr IH]; cbn [readdir_next List.filter]; [auto|].
  fold (is_entry target x).
  destruct (is_entry target x).
  - split; [reflexivity|]. cbn. lia.
  - destruct (readdir_next target curr) as [[res|] rest].
    + destruct IH as [-> Hl]. split; [reflexivity|]. cbn. lia.
    + exact IH.
Qed.

Lemma resourceToFileStat_session res g g' :
  dav_session g' = dav_session g ->
  resourceToFileStat res g' = resourceToFileStat res g.
Proof. intros Hd. unfold resourceToFileStat. rewrite Hd. reflexivity. Qed.

(** X9: reading a directory handle to its end yields the translation
    of every resource from the cursor on that is not the listed
    directory itself, each exactly once and in the order of the list;
    the next readdir then reports the end. *)
Theorem readdir_visits_each_entry_once (dhandle : addr) (fuel : nat) :
  forall (g : globals) (c : listdir_context),
    store g !! dhandle = Some c ->
    (length (lc_currResource c) <= fuel)%nat ->
    let '(g', entries) := readdir_all fuel dhandle g in
    entries
    = omap (fun res => resourceToFileStat (Some res) g)
        (List.filter (is_entry (lc_target c)) (lc_currResource c))
    /\ ((length (lc_currResource c) < fuel)%nat ->
        (lc_currResource <$> store g' !! dhandle) = Some []).
Proof.
  induction fuel as [|fuel IH]; intros g c Hs Hlen.
  - cbn [readdir_all]. destruct (lc_currResource c); [|cbn in Hlen; lia].
    split; [reflexivity|cbn; lia].
  - cbn [readdir_all]. unfold owncloud_readdir. rewrite Hs.
    pose proof (readdir_next_filter (lc_target c) (lc_currResource c)) as Hn.
    destruct (readdir_next (lc_target c) (lc_currResource c)) as [[res|] rest].
    + destruct Hn as [Hfil Hlt].
      set (g1 := set_store (<[dhandle := set_currResource rest c]> (store g)) g).
      assert (exists lfs, resourceToFileStat (Some res) g1 = Some lfs) as [lfs Hlfs].
      { unfold resourceToFileStat. destruct (res_type res); eexists; reflexivity. }
      rewrite Hlfs.
      specialize (IH (fill_stat_cache (Some lfs) g1) (set_currResource rest c)).
      destruct (readdir_all fuel dhandle (fill_stat_cache (Some lfs) g1))
        as [g' entries].
      destruct IH as [IHe IHc].
      { cbn. apply lookup_insert_eq. }
      { cbn. lia. }
      split.
      * rewrite Hfil. cbn [omap list_omap].
        change (resourceToFileStat (Some res) g)
          with (resourceToFileStat (Some res) g1).
        rewrite Hlfs. f_equal. rewrite IHe. reflexivity.
      * intros Hfuel. apply IHc. cbn. lia.
    + destruct Hn as [-> ->]. split; [reflexivity|].
      intros _. cbn. rewrite lookup_insert_eq. reflexivity.
Qed.

(** ** The target test of stat *)

Lemma without_trailing_slashes_le uri len :
  (without_trailing_slashes uri len <= len)%nat.
Proof.
  induction len as [|l IH]; cbn [without_trailing_slashes]; [lia|].
  destruct (bool_decide _); lia.
Qed.

Lemma without_trailing_slashes_last uri len :
  match without_trailing_slashes uri len with
  | O => True
  | S k => C.char_at uri k <> Some "/"%char
  end.
Proof.
  induction len as [|l IH]; cbn [without_trailing_slashes]; [exact I|].
  destruct (bool_decide (C.char_at uri l = Some "/"%char)) eqn:E; [exact IH|].
  apply bool_decide_eq_false_1 in E. exact E.
Qed.

Lemma get_substring_prefix (s : string) : forall n k,
  (k < n)%nat -> (n <= String.length s)%nat ->
  String.get k (String.substring 0 n s) = String.get k s.
Proof.
  induction s as [|x s IH]; intros n k Hk Hn; [cbn in Hn; lia|].
  destruct n as [|n]; [lia|]. cbn [String.substring].
  destruct k as [|k]; [reflexivity|]. cbn [String.get].
  apply IH; cbn in Hn; lia.
Qed.

Lemma length_substring_prefix (s : string) : forall n,
  (n <= String.length s)%nat -> String.length (String.substring 0 n s) = n.
Proof.
  induction s as [|x s IH]; intros n Hn.
  - cbn in Hn. destruct n; [reflexivity|lia].
  - destruct n as [|n]; [reflexivity|]. cbn [String.substring String.length].
    f_equal. apply IH. cbn in Hn. lia.
Qed.

(** strncmp over [n] bytes followed by the test for the terminator is
    equality with the first [n] bytes. *)
Lemma strncmp_then_nul (n : nat) : forall a b,
  (n <= String.length a)%nat ->
  C.strncmp_eq a b n && bool_decide (C.char_at b n = None) = true
  <-> b = String.substring 0 n a.
Proof.
  unfold C.char_at.
  induction n as [|n IH]; intros a b Hn.
  - replace (String.substring 0 0 a) with EmptyString by (destruct a; reflexivity).
    replace (C.strncmp_eq a b 0) with true by (destruct a; reflexivity).
    cbn [andb].
    destruct b as [|y b]; cbn [String.get].
    + rewrite bool_decide_eq_true_2 by reflexivity. split; reflexivity.
    + rewrite bool_decide_eq_false_2 by discriminate. cbn.
      split; discriminate.
  - destruct a as [|x a]; [cbn in Hn; lia|].
    cbn [C.strncmp_eq String.substring].
    destruct b as [|y b]; [split; discriminate|].
    cbn [String.get].
    destruct (decide (x = y)) as [->|Hxy].
    + rewrite (bool_decide_eq_true_2 (y = y)) by reflexivity.
      rewrite IH by (cbn in Hn; lia).
      split; [intros ->; reflexivity|intros [= ?]; assumption].
    + rewrite (bool_decide_eq_false_2 (x = y)) by exact Hxy.
      cbn [andb]. split; [discriminate|intros [= ? ?]; congruence].
Qed.

Lemma is_target_match decodedUri res :
  is_target decodedUri res = true ->
  decodedUri = strip_trailing_slashes (res_uri res).
Proof.
  unfold is_target, strip_trailing_slashes.
  apply strncmp_then_nul, without_trailing_slashes_le.
Qed.

Lemma get_append_l (s t : string) : forall k,
  (k < String.length s)%nat -> String.get k (s ++ t) = String.get k s.
Proof.
  induction s as [|x s IH]; intros k Hk; [cbn in Hk; lia|].
  change (String x s ++ t) with (String x (s ++ t)).
  destruct k as [|k]; [reflexivity|]. cbn [String.get].
  apply IH. cbn in Hk. lia.
Qed.

Lemma get_append_r (s t : string) (k : nat) :
  String.get (String.length s + k) (s ++ t) = String.get k t.
Proof.
  induction s as [|x s IH]; [reflexivity|].
  change (String x s ++ t) with (String x (s ++ t)).
  cbn [String.length Nat.add String.get]. exact IH.
Qed.

Lemma get_slashes (n : nat) : forall k,
  (k < n)%nat -> String.get k (slashes n) = Some "/"%char.
Proof.
  induction n as [|n IH]; intros k Hk; [lia|].
  destruct k as [|k]; [reflexivity|]. cbn [slashes String.get].
  apply IH. lia.
Qed.

Lemma length_slashes (n : nat) : String.length (slashes n) = n.
Proof. induction n as [|n IH]; [reflexivity|]. cbn. f_equal. exact IH. Qed.

(** The loop, run on a path that does not end in a slash and has [n]
    slashes behind it, stops where the path ends. *)
Lemma without_trailing_slashes_slashes (path : string) (n : nat) :
  last_char path <> Some "/"%char ->
  forall m, (m <= n)%nat ->
    without_trailing_slashes (path ++ slashes n) (String.length path + m)
    = String.length path.
Proof.
  intros Hlast. induction m as [|m IH]; intros Hm.
  - rewrite Nat.add_0_r. unfold last_char in Hlast.
    destruct (String.length path) as [|l] eqn:Hl; [reflexivity|].
    cbn [without_trailing_slashes]. unfold C.char_at in *.
    rewrite get_append_l by lia.
    rewrite bool_decide_eq_false_2 by exact Hlast. reflexivity.
  - replace (String.length path + S m)%nat
      with (S (String.length path + m)) by lia.
    cbn [without_trailing_slashes]. unfold C.char_at.
    rewrite get_append_r, get_slashes by lia.
    rewrite bool_decide_eq_true_2 by reflexivity. apply IH. lia.
Qed.

Lemma strip_trailing_slashes_slashes (path : string) (n : nat) :
  last_char path <> Some "/"%char ->
  strip_trailing_slashes (path ++ slashes n) = path.
Proof.
  intros Hlast. unfold strip_trailing_slashes.
  rewrite length_append, length_slashes.
  rewrite (without_trailing_slashes_slashes path n Hlast n) by lia.
  apply substring_whole_prefix.
Qed.

Lemma substring_step (s : string) : forall l c,
  String.get l s = Some c ->
  String.substring 0 (S l) s = String.substring 0 l s ++ String c "".
Proof.
  induction s as [|x s IH]; intros l c Hg; [discriminate|].
  destruct l as [|l].
  - cbn in Hg. injection Hg as ->. cbn [String.substring].
    destruct s; reflexivity.
  - cbn [String.get] in Hg.
    change (String.substring 0 (S (S l)) (String x s))
      with (String x (String.substring 0 (S l) s)).
    rewrite (IH l c Hg). reflexivity.
Qed.

Lemma slashes_last (n : nat) :
  String "/" (slashes n) = slashes n ++ String "/" "".
Proof.
  induction n as [|n IH]; [reflexivity|].
  cbn [slashes]. change (String "/" (slashes n) ++ String "/" "")
    with (String "/" (slashes n ++ String "/" "")).
  rewrite <- IH. reflexivity.
Qed.

Lemma append_assoc (a b c : string) : (a ++ b) ++ c = a ++ (b ++ c).
Proof.
  induction a as [|x a IH]; [reflexivity|].
  change (String x a ++ b) with (String x (a ++ b)).
  change (String x (a ++ b) ++ c) with (String x ((a ++ b) ++ c)).
  change (String x a ++ (b ++ c)) with (String x (a ++ (b ++ c))).
  rewrite IH. reflexivity.
Qed.

Lemma append_nil_r (s : string) : s ++ "" = s.
Proof.
  induction s as [|x s IH]; [reflexivity|].
  change (String x s ++ "") with (String x (s ++ "")).
  rewrite IH. reflexivity.
Qed.

(** What the loop cuts off is slashes. *)
Lemma without_trailing_slashes_cut (uri : string) : forall len,
  (len <= String.length uri)%nat ->
  exists n,
    String.substring 0 len uri
    = String.substring 0 (without_trailing_slashes uri len) uri ++ slashes n.
Proof.
  induction len as [|l IH]; intros Hlen.
  - exists O. cbn [without_trailing_slashes slashes].
    replace (String.substring 0 0 uri) with EmptyString
      by (destruct uri; reflexivity).
    reflexivity.
  - cbn [without_trailing_slashes].
    destruct (bool_decide (C.char_at uri l = Some "/"%char)) eqn:E.
    + apply bool_decide_eq_true_1 in E. unfold C.char_at in E.
      destruct (IH ltac:(lia)) as [n Hn]. exists (S n).
      rewrite (substring_step uri l "/" E), Hn, append_assoc.
      rewrite <- slashes_last. reflexivity.
    + exists O. cbn [slashes]. symmetry. apply append_nil_r.
Qed.

Lemma substring_all (s : string) :
  String.substring 0 (String.length s) s = s.
Proof.
  induction s as [|x s IH]; [reflexivity|].
  cbn [String.length String.substring]. f_equal. exact IH.
Qed.

Lemma strip_trailing_slashes_cut (uri : string) :
  exists n, uri = strip_trailing_slashes uri ++ slashes n.
Proof.
  destruct (without_trailing_slashes_cut uri (String.length uri) ltac:(lia))
    as [n Hn].
  exists n. rewrite substring_all in Hn. exact Hn.
Qed.

Lemma strip_trailing_slashes_last uri :
  last_char (strip_trailing_slashes uri) <> Some "/"%char.
Proof.
  unfold strip_trailing_slashes, last_char.
  pose proof (without_trailing_slashes_le uri (String.length uri)) as Hle.
  pose proof (without_trailing_slashes_last uri (String.length uri)) as Hlast.
  rewrite length_substring_prefix by exact Hle.
  destruct (without_trailing_slashes uri (String.length uri)) as [|k];
    [discriminate|].
  unfold C.char_at in *. rewrite get_substring_prefix by lia. exact Hlast.
Qed.


(** X10: the resource that stat takes for its target is one whose path is
    the decoded target path followed by any number of slashes, the
    target path itself not ending in a slash. *)
Theorem is_target_iff (decodedUri : string) (res : resource) :
  is_target decodedUri res = true
  <-> (exists n, res_uri res = decodedUri ++ slashes n)
      /\ last_char decodedUri <> Some "/"%char.
Proof.
  split.
  - intros Ht. apply is_target_match in Ht. subst decodedUri.
    split; [apply strip_trailing_slashes_cut|apply strip_trailing_slashes_last].
  - intros [[n Hn] Hlast]. unfold is_target.
    apply strncmp_then_nul; [apply without_trailing_slashes_le|].
    fold (strip_trailing_slashes (res_uri res)). rewrite Hn.
    symmetry. apply strip_trailing_slashes_slashes, Hlast.
Qed.

Lemma find_target_slash t l :
  last_char (ne_path_unescape t) = Some "/"%char ->
  find_target (Some t) l = None.
Proof.
  intros Hs. induction l as [|res l IH]; cbn [find_target]; [reflexivity|].
  destruct (is_target (ne_path_unescape t) res) eqn:E; [|exact IH].
  apply is_target_match in E. exfalso.
  eapply strip_trailing_slashes_last. rewrite <- E. exact Hs.
Qed.

(** ** stat against the listing *)

(** X11: stat of a URI whose decoded path ends in a slash (a directory
    written with its trailing slash) never finds its resource: with an
    accepted PROPFIND reply, whatever it lists, stat returns 0 and
    writes nothing but the name into the caller's buffer. *)
Theorem stat_of_slash_terminated_uri uri buf r g name t :
  c_basename uri = Some name ->
  stat_cache_hit name g = false ->
  cached_listing uri g = None ->
  _cleanPath uri = Some t ->
  last_char (ne_path_unescape t) = Some "/"%char ->
  accepted r = true ->
  exists g',
    owncloud_stat uri buf r g
    = (g',
       {| fs_name := Some name; fs_fields := fs_fields buf;
          fs_type := fs_type buf; fs_mtime := fs_mtime buf;
          fs_size := fs_size buf; fs_mode := fs_mode buf;
          fs_md5 := fs_md5 buf |},
       0).
Proof.
  intros Hn Hmiss Hc Hp Hslash Hacc.
  destruct (fetch_resource_list_miss uri NE_DEPTH_ONE r (set_errno 0 g) Hc)
    as (g1 & tail & Hr & _ & _ & _ & _ & _ & Hrest).
  rewrite Hacc in Hr, Hrest. destruct Hrest as (_ & _ & Hst & _).
  rewrite (owncloud_stat_fresh uri buf r g name g1 _ Hn Hmiss Hr).
  rewrite Hst, lookup_insert_eq. cbn [lc_target lc_list set_ref set_currResource].
  destruct (listed_keeps uri r) as [-> _]. rewrite Hp.
  rewrite find_target_slash by exact Hslash. cbn [resourceToFileStat].
  eexists. reflexivity.
Qed.

(** *** The mtime of a fresh stat *)









Lemma stat_result_cases uri buf r g name :
  c_basename uri = Some name ->
  stat_cache_hit name g = false ->
  cached_listing uri g = None ->
  let '(g', buf', rc) := owncloud_stat uri buf r g in
  rc = (if accepted r then 0 else -1)
  /\ (accepted r = false ->
      caches g' = caches g
      /\ buf' = {| fs_name := Some name; fs_fields := fs_fields buf;
                   fs_type := fs_type buf; fs_mtime := fs_mtime buf;
                   fs_size := fs_size buf; fs_mode := fs_mode buf;
                   fs_md5 := fs_md5 buf |}).
Proof.
  intros Hn Hmiss Hc.
  destruct (fetch_resource_list_miss uri NE_DEPTH_ONE r (set_errno 0 g) Hc)
    as (g1 & tail & Hr & _ & Hs & Hi & _ & _ & Hrest).
  destruct (accepted r) eqn:Hacc.
  - rewrite (owncloud_stat_fresh uri buf r g name g1 _ Hn Hmiss Hr).
    split; [reflexivity|discriminate].
  - unfold owncloud_stat. cbn [fs_name]. rewrite Hn.
    change (stat_cache_hit name (set_errno 0 g)) with (stat_cache_hit name g).
    rewrite Hmiss, Hr. split; [reflexivity|]. intros _.
    destruct Hrest as (Hp & Hst & _). unfold caches.
    rewrite Hp, Hst, Hs, Hi. split; reflexivity.
Qed.

(** X12: the close of a PUT handle invalidates for good: the next stat,
    of any URI, sends a PROPFIND for that URI right after the request
    was destroyed. *)
Theorem stat_after_put_close_asks_server writeCtx uri buf r g name :
  tc_method writeCtx = "PUT" ->
  c_basename uri = Some name ->
  let g1 := fst (owncloud_close (Some writeCtx) g) in
  exists tail,
    wire (fst (fst (owncloud_stat uri buf r g1)))
    = (wire g ++ Ne_request_destroy (tc_req writeCtx)
         :: Ne_propfind_named (_cleanPath uri) NE_DEPTH_ONE :: tail)%list.
Proof.
  intros Hm Hn g1.
  assert (g1 = clean_caches (emit (Ne_request_destroy (tc_req writeCtx)) g))
    as Hg1.
  { unfold g1, owncloud_close, C.strcmp_eq. rewrite Hm. reflexivity. }
  assert (stat_cache_hit name g1 = false) as Hmiss by (rewrite Hg1; reflexivity).
  assert (cached_listing uri (set_errno 0 g1) = None) as Hc
      by (rewrite Hg1; reflexivity).
  assert (wire g1 = (wire g ++ [Ne_request_destroy (tc_req writeCtx)])%list)
    as Hw.
  { rewrite Hg1. destruct (clean_caches_frame
      (emit (Ne_request_destroy (tc_req writeCtx)) g)) as (-> & _). reflexivity. }
  destruct (fetch_resource_list_miss uri NE_DEPTH_ONE r (set_errno 0 g1) Hc)
    as (g2 & tail & Hr & Hw2 & _).
  exists tail.
  destruct (accepted r).
  - rewrite (owncloud_stat_fresh uri buf r g1 name g2 _ Hn Hmiss Hr).
    cbn [fst]. destruct (free_fetchCtx_frame (Some (next_addr (set_errno 0 g1))) g2)
      as (_&_&_&Hfw&_).
    cbv zeta in Hfw. rewrite Hfw, Hw2. cbn [wire set_errno]. rewrite Hw.
    rewrite <- app_assoc. reflexivity.
  - unfold owncloud_stat. cbn [fs_name]. rewrite Hn.
    change (stat_cache_hit name (set_errno 0 g1)) with (stat_cache_hit name g1).
    rewrite Hmiss, Hr. cbn [fst]. rewrite Hw2. cbn [wire set_errno]. rewrite Hw.
    rewrite <- app_assoc. reflexivity.
Qed.

(** ** rmdir, unlink and mkdir *)

Lemma emit_caches e g : caches (emit e g) = caches g.
Proof. reflexivity. Qed.

Lemma only_error_changed_caches g g' :
  only_error_changed g g' -> caches g' = caches g.
Proof. intros (Hc & _). exact Hc. Qed.

(** X13: rmdir returns 0 exactly when the session is connected and the
    DELETE returns NE_OK, and -1 otherwise; the DELETE is sent whenever
    the session is connected, and nothing is sent when it is not. *)
Theorem rmdir_result uri cio io g g0 rc0 :
  dav_connect uri cio g = (g0, rc0) ->
  let '(g', rc) := owncloud_rmdir uri cio io g in
  rc = (if (0 <=? rc0) && (si_rc io =? NE_OK) then 0 else -1)
  /\ wire g' = (if 0 <=? rc0
                then (wire g0 ++ [Ne_delete (_cleanPath uri)])%list
                else wire g0).
Proof.
  intros Hc. unfold owncloud_rmdir. rewrite Hc.
  pose proof (dav_connect_frame uri cio g) as Hf. rewrite Hc in Hf.
  destruct Hf as (_ & _ & _ & _ & _ & [[-> _] | [-> _]]).
  - cbn [Z.leb Z.ltb Z.compare andb].
    destruct (neon_errcode_only_error (si_rc io) (si_error io)
                (emit (Ne_delete (_cleanPath uri)) g0)) as (_ & Hw & _).
    rewrite Hw. split; [|reflexivity].
    destruct (Z.ltb_spec (si_rc io) 0), (Z.eqb_spec (si_rc io) NE_OK);
      cbn; try reflexivity. unfold NE_OK in *. lia.
  - split; reflexivity.
Qed.

Lemma dav_connect_caches uri cio g :
  caches (fst (dav_connect uri cio g)) = caches g.
Proof.
  pose proof (dav_connect_frame uri cio g) as Hf.
  destruct (dav_connect uri cio g). apply Hf.
Qed.

Lemma rmdir_caches uri cio io g :
  caches (fst (owncloud_rmdir uri cio io g)) = caches g.
Proof.
  unfold owncloud_rmdir. pose proof (dav_connect_caches uri cio g) as Hcon.
  destruct (dav_connect uri cio g) as [g0 rc0]. cbn [fst] in Hcon.
  destruct (rc0 <? 0), (0 <=? rc0); cbn [fst];
    rewrite ?(only_error_changed_caches _ _ (neon_errcode_only_error _ _ _));
    rewrite ?emit_caches; exact Hcon.
Qed.

Lemma unlink_caches uri cio io g :
  caches (fst (owncloud_unlink uri cio io g)) = caches g.
Proof.
  unfold owncloud_unlink.
  destruct (_cleanPath uri) as [path|]; [|reflexivity].
  change (NE_OK =? NE_OK) with true. cbv iota.
  pose proof (dav_connect_caches uri cio g) as Hcon.
  destruct (dav_connect uri cio g) as [g0 rc0]. cbn [fst] in Hcon.
  destruct (rc0 <? 0), (rc0 =? NE_OK); cbn [fst];
    rewrite ?(only_error_changed_caches _ _ (neon_errcode_only_error _ _ _));
    rewrite ?emit_caches; exact Hcon.
Qed.

Lemma mkdir_caches uri cio io g g' rc :
  owncloud_mkdir uri cio io g = Some (g', rc) -> caches g' = caches g.
Proof.
  unfold owncloud_mkdir.
  assert (caches (fst (dav_connect uri cio
                         match _cleanPath uri with
                         | Some _ => g
                         | None => set_errno EINVAL g
                         end)) = caches g) as Hcon.
  { rewrite dav_connect_caches. destruct (_cleanPath uri); reflexivity. }
  destruct (dav_connect uri cio _) as [g0 rc0]. cbn [fst] in Hcon.
  destruct (0 <=? rc0).
  - destruct (_cleanPath uri) as [path|]; [|discriminate].
    destruct (last_char path); [|discriminate].
    intros [= <- _].
    destruct (code (si_status io) =? 405), (rc0 <? 0);
      rewrite ?(only_error_changed_caches _ _ (neon_errcode_only_error _ _ _));
      rewrite ?emit_caches; exact Hcon.
  - intros [= <- _]. destruct (rc0 <? 0); exact Hcon.
Qed.

(** X14: rmdir, unlink and mkdir never touch the caches: the cached
    listing, the stat cache and the ETag cache are after the call what
    they were before it, whether the request succeeded or not. *)
Theorem namespace_operations_keep_caches uri cio io g :
  caches (fst (owncloud_rmdir uri cio io g)) = caches g
  /\ caches (fst (owncloud_unlink uri cio io g)) = caches g
  /\ (forall g' rc, owncloud_mkdir uri cio io g = Some (g', rc) ->
                    caches g' = caches g).
Proof.
  split; [apply rmdir_caches|]. split; [apply unlink_caches|].
  intros g' rc. apply mkdir_caches.
Qed.

(** X15: a stat that follows rmdir or unlink of the same URI is still
    answered from the stat cache when the cache holds its basename: it
    returns 0 with the cached type, size and mtime and sends nothing,
    although the resource has just been deleted. *)
Theorem stat_after_delete_is_stale uri cio io buf r g name :
  c_basename uri = Some name ->
  fs_name (_stat_cache g) = Some name ->
  forall g1,
    g1 = fst (owncloud_rmdir uri cio io g)
    \/ g1 = fst (owncloud_unlink uri cio io g) ->
    let '(g2, buf', rc) := owncloud_stat uri buf r g1 in
    rc = 0
    /\ wire g2 = wire g1
    /\ fs_type buf' = fs_type (_stat_cache g)
    /\ fs_size buf' = fs_size (_stat_cache g)
    /\ fs_mtime buf' = fs_mtime (_stat_cache g).
Proof.
  intros Hn Hname g1 Hg1.
  assert (_stat_cache g1 = _stat_cache g) as Hsc.
  { assert (caches g1 = caches g) as Hc
        by (destruct Hg1 as [-> | ->];
            [apply rmdir_caches|apply unlink_caches]).
    unfold caches in Hc. congruence. }
  unfold owncloud_stat. cbn [fs_name]. rewrite Hn.
  unfold stat_cache_hit, C.strcmp_eq. cbn [_stat_cache set_errno].
  rewrite Hsc, Hname. rewrite bool_decide_eq_true_2 by reflexivity.
  repeat split.
Qed.

(** ** sendfile *)

Ltac case_progresscb :=
  repeat match goal with
         | |- context [if _progresscb ?x then _ else _] =>
             destruct (_progresscb x)
         end.

(** The result of sendfile in closed form. *)
Lemma sendfile_rc (fd : Z) (write_ctx : transfer_context) (io : sendfile_io)
    (g : globals) :
  snd (owncloud_sendfile (Some fd) (Some write_ctx) io g)
  = if bool_decide (tc_method write_ctx = "PUT") then
      match tc_req write_ctx, sf_fstat io with
      | Some _, Some _ => if klass (sf_status io) =? 2 then 0 else 1
      | _, _ => 1
      end
    else if bool_decide (tc_method write_ctx = "GET") then
      if sf_neon_stat io =? NE_OK
      then (if klass (sf_status io) =? 2 then 0 else 1)
      else -1
    else -1.
Proof.
  unfold owncloud_sendfile. rewrite !c_streq_strings.
  destruct (bool_decide (tc_method write_ctx = "PUT")).
  - destruct (tc_req write_ctx) as [request|]; [|reflexivity].
    destruct (sf_fstat io) as [st_size|]; [|reflexivity].
    destruct (klass (sf_status io) =? 2); cbn [negb];
      rewrite ?soft_error_1; case_progresscb; reflexivity.
  - destruct (bool_decide (tc_method write_ctx = "GET")); [|reflexivity].
    destruct (sf_headers io) as [hdrs|];
      [match goal with
       | |- context [install_content_reader ?t ?h ?x] =>
           destruct (install_content_reader t h x) as [g1 [t1|]]
       end|];
      (destruct (sf_neon_stat io =? NE_OK); cbn [negb];
       [destruct (klass (sf_status io) =? 2); cbn [negb];
        rewrite ?soft_error_1|]);
      case_progresscb; reflexivity.
Qed.

(** X16: sendfile returns 0, 1 or -1, and 0 exactly for a response of
    status class 2 that, on a PUT handle, belongs to a request whose
    source could be measured with fstat, and, on a GET handle, came
    with the return code NE_OK. A handle of any other method gives -1. *)
Theorem sendfile_success_iff (fd : Z) (write_ctx : transfer_context)
    (io : sendfile_io) (g : globals) :
  let rc := snd (owncloud_sendfile (Some fd) (Some write_ctx) io g) in
  (rc = 0 \/ rc = 1 \/ rc = -1)
  /\ (rc = 0 <->
      klass (sf_status io) = 2
      /\ ((tc_method write_ctx = "PUT" /\ tc_req write_ctx <> None
           /\ sf_fstat io <> None)
          \/ (tc_method write_ctx = "GET" /\ sf_neon_stat io = NE_OK)))
  /\ (tc_method write_ctx <> "PUT" -> tc_method write_ctx <> "GET" -> rc = -1).
Proof.
  cbv zeta. rewrite sendfile_rc.
  destruct (decide (tc_method write_ctx = "PUT")) as [Hput|Hput].
  - rewrite (bool_decide_eq_true_2 _ Hput).
    assert (tc_method write_ctx <> "GET") as Hget by (rewrite Hput; discriminate).
    destruct (tc_req write_ctx) as [request|], (sf_fstat io) as [st_size|];
      try destruct (Z.eqb_spec (klass (sf_status io)) 2) as [Hk|Hk];
      (split; [auto|]; split; [|tauto]; split);
      try discriminate;
      try (intros (? & [(? & ? & ?)|(? & ?)]); congruence).
    intros _. split; [exact Hk|]. left. repeat split; congruence.
  - rewrite (bool_decide_eq_false_2 _ Hput).
    destruct (decide (tc_method write_ctx = "GET")) as [Hget|Hget].
    + rewrite (bool_decide_eq_true_2 _ Hget).
      destruct (Z.eqb_spec (sf_neon_stat io) NE_OK) as [Hn|Hn];
        try destruct (Z.eqb_spec (klass (sf_status io)) 2) as [Hk|Hk];
        (split; [auto|]; split; [|tauto]; split);
        try discriminate;
        try (intros (? & [(? & ? & ?)|(? & ?)]); congruence).
      intros _. split; [exact Hk|]. right. split; assumption.
    + rewrite (bool_decide_eq_false_2 _ Hget).
      split; [auto|]. split; [|reflexivity]. split; [discriminate|].
      intros (_ & [(? & _)|(? & _)]); congruence.
Qed.

(** The notifier only talks to the host callback. *)
Lemma notify_frame tc reports : forall g,
  let g' := notify tc reports g in
  caches g' = caches g
  /\ _connected g' = _connected g
  /\ _progresscb g' = _progresscb g
  /\ errno g' = errno g
  /\ dav_session g' = dav_session g
  /\ next_addr g' = next_addr g
  /\ wire g'
     = (wire g ++ if _progresscb g
                  then progress_reports (tc_clean_uri tc) reports
                  else [])%list.
Proof.
  unfold notify.
  induction reports as [|[status info] reports IH]; intros g;
    cbn [fold_left progress_reports flat_map fst snd].
  - repeat split. destruct (_progresscb g); symmetry; apply app_nil_r.
  - specialize (IH (ne_notify_status_cb tc status info g)).
    cbv zeta in IH. destruct IH as (-> & -> & -> & -> & -> & -> & ->).
    unfold ne_notify_status_cb. cbn [fst snd].
    destruct (_progresscb g) eqn:Hcb; cbn [andb];
      [|rewrite Hcb; rewrite !app_nil_r; repeat split].
    destruct status; cbn [app];
      try (rewrite Hcb; repeat split).
    all: destruct (0 <? sr_total info); cbn [_progresscb emit wire app];
      rewrite ?Hcb; unfold caches; cbn; rewrite <- ?app_assoc; repeat split.
Qed.

(** X17: an upload with a progress callback registered tells the host,
    in this order: START_UPLOAD before the dispatch; during the
    dispatch one PROGRESS call for each of libneon's status reports of
    sending or receiving with a positive total; and last
    FINISHED_UPLOAD for a status of class 2, or ERROR with the status
    code and reason otherwise. The notifier is registered for the time
    of the dispatch only. A failed upload sets errno from the table of
    HTTP statuses, and the upload leaves the caches and the connection
    as they were. *)
Theorem sendfile_put_events (fd : Z) (write_ctx : transfer_context)
    (request : ne_request) (st_size : Z) (io : sendfile_io) (g : globals) :
  _progresscb g = true ->
  tc_method write_ctx = "PUT" ->
  tc_req write_ctx = Some request ->
  sf_fstat io = Some st_size ->
  let g' := fst (fst (owncloud_sendfile (Some fd) (Some write_ctx) io g)) in
  wire g'
  = (wire g ++
     [Ne_set_request_body_fd request fd st_size;
      Ne_set_notifier true;
      Progress (tc_clean_uri write_ctx) CSYNC_NOTIFY_START_UPLOAD 0 None;
      Ne_request_dispatch (Some request)]
     ++ progress_reports (tc_clean_uri write_ctx) (sf_notify io)
     ++ [Ne_set_notifier false;
         if klass (sf_status io) =? 2
         then Progress (tc_clean_uri write_ctx) CSYNC_NOTIFY_FINISHED_UPLOAD
                0 None
         else Progress (tc_clean_uri write_ctx) CSYNC_NOTIFY_ERROR
                (code (sf_status io)) (reason_phrase (sf_status io))])%list
  /\ caches g' = caches g
  /\ _connected g' = _connected g
  /\ (klass (sf_status io) <> 2 -> errno g' = errno_table (code (sf_status io))).
Proof.
  intros Hcb Hm Hreq Hfs. cbv zeta. unfold owncloud_sendfile.
  rewrite c_streq_strings, Hm, bool_decide_eq_true_2 by reflexivity.
  rewrite Hreq, Hfs. cbn [_progresscb emit]. rewrite Hcb.
  cbn [_progresscb emit]. rewrite Hcb.
  set (g0 := emit (Ne_request_dispatch (Some request))
               (emit (Progress (tc_clean_uri write_ctx)
                        CSYNC_NOTIFY_START_UPLOAD 0 None)
                  (emit (Ne_set_notifier true)
                     (emit (Ne_set_request_body_fd request fd st_size) g)))).
  destruct (notify_frame write_ctx (sf_notify io) g0)
    as (Hnc & Hncon & Hnp & _ & _ & _ & Hnw).
  set (g1 := notify write_ctx (sf_notify io) g0) in *.
  assert (_progresscb g0 = true) as Hcb0 by exact Hcb.
  rewrite Hcb0 in Hnp, Hnw.
  destruct (neon_errcode_only_error (sf_neon_stat io) (sf_error io) g1)
    as (Hc & Hw & Hcon & Hp & _).
  destruct (Z.eqb_spec (klass (sf_status io)) 2) as [Hk|Hk]; cbn [negb].
  - rewrite Hp, Hnp. cbn [fst wire emit]. rewrite Hw, Hnw.
    split; [subst g0; cbn [wire emit]; rewrite <- !app_assoc; reflexivity|].
    split; [|split; [|contradiction]].
    + unfold caches in *. cbn. cbn in Hc. rewrite Hc. exact Hnc.
    + cbn. cbn in Hcon. rewrite Hcon. exact Hncon.
  - rewrite soft_error_1.
    change (_progresscb (set_errno_from_http_errcode (code (sf_status io))
                           (set_errno_from_neon_errcode (sf_neon_stat io)
                              (sf_error io) g1)))
      with (_progresscb (set_errno_from_neon_errcode (sf_neon_stat io)
                           (sf_error io) g1)).
    rewrite Hp, Hnp. change (negb (1 =? NE_OK)) with true.
    cbn [fst wire emit].
    change (wire (set_errno_from_http_errcode (code (sf_status io))
                    (set_errno_from_neon_errcode (sf_neon_stat io)
                       (sf_error io) g1)))
      with (wire (set_errno_from_neon_errcode (sf_neon_stat io)
                    (sf_error io) g1)).
    rewrite Hw, Hnw.
    split; [subst g0; cbn [wire emit]; rewrite <- !app_assoc; reflexivity|].
    split; [|split; [|intros _; cbn [errno emit]; apply http_errcode_errno]].
    + unfold caches in *. cbn. cbn in Hc. rewrite Hc. exact Hnc.
    + cbn. cbn in Hcon. rewrite Hcon. exact Hncon.
Qed.

Lemma sendfile_get_id_cache (fd : Z) (write_ctx : transfer_context)
    (io : sendfile_io) (g : globals) :
  tc_method write_ctx = "GET" ->
  _id_cache (fst (fst (owncloud_sendfile (Some fd) (Some write_ctx) io g)))
  = match sf_headers io with
    | Some hdrs =>
        match h_etag hdrs with
        | Some e =>
            if bool_decide (e <> "")
            then {| idc_uri := tc_clean_uri write_ctx; idc_id := Some e |}
            else _id_cache g
        | None => _id_cache g
        end
    | None => _id_cache g
    end.
Proof.
  intros Hm. unfold owncloud_sendfile.
  rewrite !c_streq_strings, Hm.
  rewrite bool_decide_eq_false_2 by discriminate.
  rewrite bool_decide_eq_true_2 by reflexivity.
  assert (forall rc msg x, _id_cache (set_errno_from_neon_errcode rc msg x)
                           = _id_cache x) as Hne.
  { intros rc msg x. destruct (neon_errcode_only_error rc msg x) as (Hc & _).
    unfold caches in Hc. congruence. }
  assert (forall tc reports x, _id_cache (notify tc reports x) = _id_cache x)
    as Hno.
  { intros tc reports x. destruct (notify_frame tc reports x) as (Hc & _).
    unfold caches in Hc. congruence. }
  assert (forall s x, _id_cache (set_errno_from_http_errcode s x)
                      = _id_cache x) as Hhe.
  { intros s x. destruct (http_errcode_only_error s x) as (Hc & _).
    unfold caches in Hc. congruence. }
  destruct (sf_headers io) as [hdrs|].
  - unfold install_content_reader.
    destruct (h_etag hdrs) as [e|]; [destruct (bool_decide (e <> ""))|];
      (destruct (sf_neon_stat io =? NE_OK); cbn [negb];
       [destruct (klass (sf_status io) =? 2); cbn [negb]|]);
      case_progresscb;
      repeat first [rewrite Hne | rewrite Hhe | rewrite Hno
                   | progress cbn [fst _id_cache emit set_id_cache]];
      reflexivity.
  - destruct (sf_neon_stat io =? NE_OK); cbn [negb];
      [destruct (klass (sf_status io) =? 2); cbn [negb]|];
      case_progresscb;
      repeat first [rewrite Hne | rewrite Hhe | rewrite Hno
                   | progress cbn [fst _id_cache emit set_id_cache]];
      reflexivity.
Qed.

(** X18: a download replaces the ETag cache entry as soon as response
    headers with a non-empty ETag arrive, whatever the status and the
    return code of the request: also the ETag of an error response
    becomes the cached id of the URL. Without such a header the entry
    stays. *)
Theorem download_records_etag_of_any_response (fd : Z)
    (write_ctx : transfer_context) (io : sendfile_io) (g : globals) :
  tc_method write_ctx = "GET" ->
  let g' := fst (fst (owncloud_sendfile (Some fd) (Some write_ctx) io g)) in
  (forall hdrs e,
      sf_headers io = Some hdrs -> h_etag hdrs = Some e -> e <> "" ->
      _id_cache g' = {| idc_uri := tc_clean_uri write_ctx; idc_id := Some e |})
  /\ ((sf_headers io = None
       \/ exists hdrs, sf_headers io = Some hdrs
                       /\ (h_etag hdrs = None \/ h_etag hdrs = Some "")) ->
      _id_cache g' = _id_cache g).
Proof.
  intros Hm. cbv zeta. rewrite (sendfile_get_id_cache fd write_ctx io g Hm).
  split.
  - intros hdrs e -> -> He. rewrite bool_decide_eq_true_2 by exact He.
    reflexivity.
  - intros [-> | (hdrs & -> & [-> | ->])]; reflexivity.
Qed.

(** ** The file id *)

Lemma get_append_end (s t : string) (c : ascii) :
  String.get (String.length s) (s ++ String c t) = Some c.
Proof.
  induction s as [|x s IH]; [reflexivity|].
  change (String x s ++ String c t) with (String x (s ++ String c t)).
  exact IH.
Qed.

Lemma quoted_shape s :
  Z.of_nat (String.length s) < 2 ^ 31 ->
  C.char_at (quoted s) 0 = Some C.dquote
  /\ last_char (quoted s) = Some C.dquote
  /\ C.int (C.strlen (quoted s) - 2) = Z.of_nat (String.length s)
  /\ C.copy_range 1 (String.length s) (quoted s) = s.
Proof.
  intros Hlen. unfold quoted, last_char, C.char_at, C.strlen, C.copy_range.
  change (String.length (String C.dquote (s ++ String C.dquote "")))
    with (S (String.length (s ++ String C.dquote ""))).
  rewrite length_append.
  change (String.length (String C.dquote "")) with 1%nat.
  split; [reflexivity|]. split; [|split].
  - replace (String.length s + 1)%nat with (S (String.length s)) by lia.
    cbn [String.get]. apply get_append_end.
  - replace (Z.of_nat (S (String.length s + 1)) - 2)
      with (Z.of_nat (String.length s)) by lia.
    apply int_small. lia.
  - cbn [String.substring]. apply substring_whole_prefix.
Qed.

(** X19: after a download whose response carried the ETag "s" in double
    quotes, the file id of the downloaded URL is s without the quotes,
    taken from the ETag cache: nothing is sent and the state does not
    change. *)
Theorem file_id_after_download (fd : Z) (write_ctx : transfer_context)
    (io : sendfile_io) (hdrs : response_headers) (g : globals)
    (path s : string) (r : propfind_reply) :
  tc_method write_ctx = "GET" ->
  tc_clean_uri write_ctx = Some path ->
  sf_headers io = Some hdrs ->
  h_etag hdrs = Some (quoted s) ->
  Z.of_nat (String.length s) < 2 ^ 31 ->
  let g' := fst (fst (owncloud_sendfile (Some fd) (Some write_ctx) io g)) in
  owncloud_file_id path r g' = Some (g', Some s).
Proof.
  intros Hm Hu Hh He Hlen. cbv zeta.
  pose proof (sendfile_get_id_cache fd write_ctx io g Hm) as Hid.
  rewrite Hh, He, Hu in Hid.
  rewrite bool_decide_eq_true_2 in Hid by (unfold quoted; discriminate).
  unfold owncloud_file_id. rewrite Hid. cbn [idc_uri idc_id].
  rewrite c_streq_strings, bool_decide_eq_true_2 by reflexivity.
  destruct (quoted_shape s Hlen) as (H0 & Hl & Hint & Hcopy).
  rewrite H0, Hl, !bool_decide_eq_true_2 by reflexivity. cbn [andb].
  rewrite Hint. destruct (Z.ltb_spec (Z.of_nat (String.length s)) 0); [lia|].
  rewrite Nat2Z.id, Hcopy. reflexivity.
Qed.

(** With no ETag cached for the URL, the file id is taken from
    stat, and so from the stat cache when that holds the basename of
    the URL: the cached content id is returned as it is when it does
    not begin with a double quote, and nothing is sent. *)
Lemma file_id_from_stat_cache (path name m : string) (r : propfind_reply)
    (g : globals) :
  idc_uri (_id_cache g) = None ->
  c_basename path = Some name ->
  fs_name (_stat_cache g) = Some name ->
  fs_md5 (_stat_cache g) = Some m ->
  C.char_at m 0 <> Some C.dquote ->
  owncloud_file_id path r g = Some (set_errno 0 g, Some m).
Proof.
  intros Hid Hn Hname Hmd5 Hq. unfold owncloud_file_id. rewrite Hid.
  unfold owncloud_stat. cbn [fs_name]. rewrite Hn.
  unfold stat_cache_hit, C.strcmp_eq. cbn [_stat_cache set_errno].
  rewrite Hname, bool_decide_eq_true_2 by reflexivity.
  rewrite Hmd5. cbn [Z.eqb fs_md5].
  rewrite (bool_decide_eq_false_2 _ Hq). reflexivity.
Qed.

(** ** open and creat *)

Section OpenProperties.

Variable c_dirname : string -> option string.

Lemma open_handle durl flags cio r lastDir g g' lastDir' t :
  owncloud_open c_dirname durl flags cio r lastDir g = (g', lastDir', Some t) ->
  exists path,
    _cleanPath durl = Some path
    /\ t = (if writes flags
            then {| tc_req := Some {| req_method := "PUT"; req_path := Some path |};
                    tc_fd := 0; tc_method := "PUT"; tc_decompress := false;
                    tc_clean_uri := Some durl |}
            else {| tc_req := Some {| req_method := "GET"; req_path := Some path |};
                    tc_fd := -1; tc_method := "GET"; tc_decompress := false;
                    tc_clean_uri := Some durl |}).
Proof.
  unfold owncloud_open. fold (writes flags).
  destruct (_cleanPath durl) as [path|].
  - change (NE_OK =? NE_OK) with true. cbv iota. cbn [andb].
    intros Ho. exists path. split; [reflexivity|].
    destruct (writes flags).
    + destruct (c_dirname durl) as [dir|]; [|discriminate].
      destruct (c_streq (Some dir) lastDir); [injection Ho as _ _ <-; reflexivity|].
      destruct (owncloud_stat dir zero_file_stat r _) as [[g1 b1] rc1].
      destruct (rc1 =? 0); [injection Ho as _ _ <-; reflexivity|discriminate].
    + injection Ho as _ _ <-. reflexivity.
  - change (NE_ERROR =? NE_OK) with false. cbv iota. cbn [andb]. discriminate.
Qed.

(** X20: a handle that open returns is for the escaped path of a URI
    that parses, remembers the URI as given, and is a PUT handle exactly
    when one of O_WRONLY, O_RDWR, O_CREAT is set in the flags, and a GET
    handle (with fd -1) otherwise. *)
Theorem open_returns_put_or_get durl flags cio r lastDir g g' lastDir' t :
  owncloud_open c_dirname durl flags cio r lastDir g = (g', lastDir', Some t) ->
  exists path,
    _cleanPath durl = Some path
    /\ tc_clean_uri t = Some durl
    /\ tc_decompress t = false
    /\ (if negb (Z.land flags O_WRONLY =? 0)
           || negb (Z.land flags O_RDWR =? 0)
           || negb (Z.land flags O_CREAT =? 0)
        then tc_method t = "PUT" /\ tc_fd t = 0
             /\ tc_req t = Some {| req_method := "PUT"; req_path := Some path |}
        else tc_method t = "GET" /\ tc_fd t = -1
             /\ tc_req t = Some {| req_method := "GET"; req_path := Some path |}).
Proof.
  intros Ho. destruct (open_handle _ _ _ _ _ _ _ _ _ Ho) as (path & Hp & ->).
  exists path. fold (writes flags). destruct (writes flags); repeat split; exact Hp.
Qed.

(** X21: once the parent directory of a URL is the remembered one, an
    open for writing on a connected session sends nothing and changes
    nothing: the parent is not looked up again, whatever the caches
    hold and whatever the server would answer. *)
Theorem open_remembers_parent durl flags cio r dir path g :
  _connected g = true ->
  _cleanPath durl = Some path ->
  writes flags = true ->
  c_dirname durl = Some dir ->
  owncloud_open c_dirname durl flags cio r (Some dir) g
  = (g, Some dir,
     Some {| tc_req := Some {| req_method := "PUT"; req_path := Some path |};
             tc_fd := 0; tc_method := "PUT"; tc_decompress := false;
             tc_clean_uri := Some durl |}).
Proof.
  intros Hc Hp Hw Hd. unfold owncloud_open. fold (writes flags).
  rewrite Hp, Hw, Hd. change (NE_OK =? NE_OK) with true. cbv iota. cbn [andb].
  unfold dav_connect. rewrite Hc. cbn [fst].
  rewrite c_streq_strings, bool_decide_eq_true_2 by reflexivity. reflexivity.
Qed.

(** X22: an open for writing whose parent directory is not the
    remembered one and cannot be stat'ed returns NULL with errno ENOENT
    and leaves the memo alone, whatever made the PROPFIND fail: a
    rejected login or an unavailable server is reported as a missing
    directory. *)
Theorem open_for_write_reports_ENOENT durl flags cio r lastDir dir name path g :
  _cleanPath durl = Some path ->
  writes flags = true ->
  c_dirname durl = Some dir ->
  c_streq (Some dir) lastDir = false ->
  c_basename dir = Some name ->
  stat_cache_hit name g = false ->
  cached_listing dir g = None ->
  accepted r = false ->
  let '(g', lastDir', handle) :=
    owncloud_open c_dirname durl flags cio r lastDir g in
  handle = None /\ errno g' = ENOENT /\ lastDir' = lastDir
  /\ caches g' = caches g.
Proof.
  intros Hp Hw Hd Hl Hn Hmiss Hc Hacc.
  unfold owncloud_open. fold (writes flags).
  rewrite Hp, Hw, Hd, Hl. change (NE_OK =? NE_OK) with true. cbv iota.
  cbn [andb].
  pose proof (dav_connect_caches durl cio g) as Hcc.
  set (g0 := fst (dav_connect durl cio g)) in *.
  assert (stat_cache_hit name g0 = false) as Hmiss0.
  { unfold stat_cache_hit in *. unfold caches in Hcc.
    injection Hcc as _ _ -> _. exact Hmiss. }
  assert (cached_listing dir g0 = None) as Hc0.
  { unfold cached_listing in *. unfold caches in Hcc.
    injection Hcc as -> -> _ _. exact Hc. }
  pose proof (stat_result_cases dir zero_file_stat r g0 name Hn Hmiss0 Hc0) as Hs.
  destruct (owncloud_stat dir zero_file_stat r g0) as [[g1 b1] rc1].
  rewrite Hacc in Hs. destruct Hs as [-> Hs].
  destruct (Hs eq_refl) as [Hcs _].
  cbn [Z.eqb]. repeat split. rewrite <- Hcc. exact Hcs.
Qed.

(** X23: a handle from creat is always a PUT handle, so closing it, in
    any state, clears the listing, stat and ETag caches. *)
Theorem creat_then_close_clears_caches durl cio r lastDir g g' lastDir' t :
  owncloud_creat c_dirname durl cio r lastDir g = (g', lastDir', Some t) ->
  tc_method t = "PUT"
  /\ forall g2, caches_cleared (fst (owncloud_close (Some t) g2)).
Proof.
  unfold owncloud_creat. intros Ho.
  destruct (open_handle _ _ _ _ _ _ _ _ _ Ho) as (path & Hp & ->).
  change (writes (Z.lor O_CREAT (Z.lor O_WRONLY O_TRUNC))) with true.
  cbv iota. split; [reflexivity|].
  intros g2. unfold owncloud_close. cbn [tc_method tc_req fst].
  apply clean_caches_cleared.
Qed.

End OpenProperties.

End MoreProperties.

(** ** The timegm of the Windows build *)

Section Win32Properties.

Import Win32.

Lemma long_add_long_r a b : C.long (a + C.long b) = C.long (a + b).
Proof. rewrite Z.add_comm, long_add_long_l, Z.add_comm. reflexivity. Qed.

Lemma years_last (count : nat) : forall i res,
  years (S count) i res
  = C.long (years count i res
            + (if is_leap (i + Z.of_nat count) then 366 else 365)).
Proof.
  induction count as [|count IH]; intros i res.
  - cbn [years]. rewrite Z.add_0_r. reflexivity.
  - change (years (S (S count)) i res)
      with (years (S count) (i + 1)
              (C.long (res + (if is_leap i then 366 else 365)))).
    rewrite IH. cbn [years].
    replace (i + 1 + Z.of_nat count) with (i + Z.of_nat (S count)) by lia.
    reflexivity.
Qed.

Lemma months_of_a_year (leap : bool) (res : Z) :
  months 12 (if leap then nth 1 ndays [] else nth 0 ndays []) O res
  = Some (C.long (res + (if leap then 366 else 365))).
Proof.
  destruct leap; cbn;
    repeat (rewrite <- ?Z.add_assoc; rewrite long_add_long_l);
    f_equal; f_equal; lia.
Qed.

(** X24: with the timegm of the Windows build a month name that is not
    in the table does not make the date fail: the month index 12 that
    the parser passes on is read as January of the following year,
    with the same day and time. *)
Theorem corrupt_month_is_next_january (t : tm) :
  70 <= tm_year t ->
  tm_mon t = 12 ->
  timegm t
  = timegm {| tm_sec := tm_sec t; tm_min := tm_min t; tm_hour := tm_hour t;
              tm_mday := tm_mday t; tm_mon := 0; tm_year := tm_year t + 1;
              tm_isdst := tm_isdst t |}.
Proof.
  intros Hy Hm. unfold timegm. cbn [tm_year tm_mon tm_mday tm_hour tm_min tm_sec].
  rewrite Hm. change (Z.to_nat 12) with 12%nat. change (Z.to_nat 0) with O.
  rewrite months_of_a_year. cbn [months].
  replace (Z.to_nat (tm_year t + 1 - 70)) with (S (Z.to_nat (tm_year t - 70)))
    by lia.
  rewrite years_last.
  replace (70 + Z.of_nat (Z.to_nat (tm_year t - 70))) with (tm_year t) by lia.
  reflexivity.
Qed.

Lemma years_agree_sound (count : nat) : forall k j m,
  years_agree count (70 + Z.of_nat k) (years k 70 0) = true ->
  (j < count)%nat -> (m < 12)%nat ->
  month_agrees (70 + Z.of_nat (k + j)) (Z.of_nat m) (years (k + j) 70 0) = true.
Proof.
  induction count as [|count IH]; intros k j m Hc Hj Hm; [lia|].
  cbn [years_agree] in Hc. apply andb_true_iff in Hc. destruct Hc as [Hy Hc].
  destruct j as [|j].
  - rewrite Nat.add_0_r. rewrite forallb_forall in Hy.
    apply Hy, in_seq. lia.
  - replace (k + S j)%nat with (S k + j)%nat by lia.
    apply IH; [|lia|exact Hm].
    rewrite years_last.
    replace (70 + Z.of_nat (S k)) with (70 + Z.of_nat k + 1) by lia.
    exact Hc.
Qed.

Lemma years_agree_checked : years_agree 430 70 0 = true.
Proof. vm_compute. reflexivity. Qed.

Lemma first_of_month (y m : Z) :
  70 <= y < 500 -> 0 <= m < 12 ->
  month_agrees y m (years (Z.to_nat (y - 70)) 70 0) = true.
Proof.
  intros Hy Hm.
  pose proof (years_agree_sound 430 O (Z.to_nat (y - 70)) (Z.to_nat m)
                years_agree_checked ltac:(lia) ltac:(lia)) as Hc.
  rewrite Nat.add_0_l in Hc.
  replace (70 + Z.of_nat (Z.to_nat (y - 70))) with y in Hc by lia.
  replace (Z.of_nat (Z.to_nat m)) with m in Hc by lia.
  exact Hc.
Qed.

Lemma days_from_civil_day (y m d : Z) :
  Sample.days_from_civil y m d = Sample.days_from_civil y m 1 + (d - 1).
Proof. unfold Sample.days_from_civil. lia. Qed.

(** X25: for every date and time of day from 1970 through 2399, the
    timegm of the Windows build is the number of seconds between the
    epoch and that instant in the Gregorian calendar. *)
Theorem timegm_is_utc_seconds (t : tm) :
  70 <= tm_year t < 500 ->
  0 <= tm_mon t < 12 ->
  1 <= tm_mday t <= 31 ->
  0 <= tm_hour t < 24 ->
  0 <= tm_min t < 60 ->
  0 <= tm_sec t <= 60 ->
  timegm t
  = Some (((Sample.days_from_civil (tm_year t + 1900) (tm_mon t + 1) (tm_mday t)
            * 24 + tm_hour t) * 60 + tm_min t) * 60 + tm_sec t).
Proof.
  intros Hy Hm Hd Hh Hmi Hs.
  pose proof (first_of_month (tm_year t) (tm_mon t) Hy Hm) as Hc.
  unfold month_agrees in Hc. unfold timegm.
  destruct (months _ _ _ _) as [d|]; [|discriminate].
  rewrite !andb_true_iff in Hc. destruct Hc as [[He Hlo] Hhi].
  apply Z.eqb_eq in He. apply Z.leb_le in Hlo, Hhi.
  rewrite (days_from_civil_day _ _ (tm_mday t)). rewrite <- He.
  assert (forall z, - 2 ^ 62 <= z < 2 ^ 62 -> C.long z = z) as Hid.
  { intros z Hz. apply long_id. unfold C.in_long.
    change (2 ^ 62) with 4611686018427387904 in Hz.
    change (2 ^ 63) with 9223372036854775808. lia. }
  change (2 ^ 62) with 4611686018427387904 in Hid.
  rewrite (Hid (d + (tm_mday t - 1))) by lia.
  rewrite (Hid ((d + (tm_mday t - 1)) * 24)) by lia.
  rewrite (Hid ((d + (tm_mday t - 1)) * 24 + tm_hour t)) by lia.
  rewrite (Hid (((d + (tm_mday t - 1)) * 24 + tm_hour t) * 60)) by lia.
  rewrite (Hid (((d + (tm_mday t - 1)) * 24 + tm_hour t) * 60 + tm_min t))
    by lia.
  rewrite (Hid ((((d + (tm_mday t - 1)) * 24 + tm_hour t) * 60 + tm_min t)
                * 60)) by lia.
  rewrite (Hid ((((d + (tm_mday t - 1)) * 24 + tm_hour t) * 60 + tm_min t)
                * 60 + tm_sec t)) by lia.
  reflexivity.
Qed.

End Win32Properties.

(** ** The cookie capture hook *)

Section CookieProperties.

Lemma scan_stop (P : ascii -> bool) (a : string) (c : ascii) (b : string) :
  all_chars (fun x => negb (P x)) a = true -> P c = true ->
  scan P (a ++ String c b) = (a, String c b).
Proof.
  intros Ha Hc. induction a as [|x a IH].
  - change ("" ++ String c b) with (String c b). cbn [scan]. rewrite Hc.
    reflexivity.
  - change (String x a ++ String c b) with (String x (a ++ String c b)).
    cbn [all_chars] in Ha. apply andb_true_iff in Ha. destruct Ha as [Hx Ha].
    cbn [scan]. apply negb_true_iff in Hx. rewrite Hx, (IH Ha). reflexivity.
Qed.

Lemma scan_end (P : ascii -> bool) (a : string) :
  all_chars (fun x => negb (P x)) a = true -> scan P a = (a, "").
Proof.
  intros Ha. induction a as [|x a IH]; [reflexivity|].
  cbn [all_chars] in Ha. apply andb_true_iff in Ha. destruct Ha as [Hx Ha].
  cbn [scan]. apply negb_true_iff in Hx. rewrite Hx, (IH Ha). reflexivity.
Qed.

Lemma scan_rest_chars (P Q : ascii -> bool) (s : string) :
  all_chars Q s = true -> all_chars Q (snd (scan P s)) = true.
Proof.
  induction s as [|x s IH]; intros Hs; [reflexivity|].
  cbn [scan]. destruct (P x); [exact Hs|].
  cbn [all_chars] in Hs. apply andb_true_iff in Hs. destruct Hs as [_ Hs].
  specialize (IH Hs). destruct (scan P s) as [passed rest]. exact IH.
Qed.

Lemma cookie_loop_without_semicolon (fuel : nat) : forall sc key,
  all_chars (fun c => negb (is_semicolon c)) sc = true ->
  cookie_loop fuel sc key = Some key.
Proof.
  induction fuel as [|fuel IH]; intros sc key Hsc; [reflexivity|].
  cbn [cookie_loop].
  pose proof (scan_rest_chars (fun c => is_semicolon c || is_comma c) _ sc Hsc)
    as Hrest.
  destruct (scan _ sc) as [sc_val at_end]. cbn [snd] in Hrest.
  destruct at_end as [|c after]; [reflexivity|].
  cbn [all_chars] in Hrest. apply andb_true_iff in Hrest.
  destruct Hrest as [Hc Hafter]. apply negb_true_iff in Hc. rewrite Hc.
  destruct after as [|x next]; [reflexivity|].
  cbn [all_chars] in Hafter. apply andb_true_iff in Hafter.
  destruct Hafter as [_ Hnext].
  destruct x as [[] [] [] [] [] [] [] []]; try reflexivity.
  apply IH, Hnext.
Qed.

Lemma cookie_loop_single (fuel : nat) (k attrs : string) (key : option string) :
  all_chars (fun c => negb (is_semicolon c || is_comma c)) k = true ->
  all_chars (fun c => negb (is_comma c)) attrs = true ->
  cookie_loop (S fuel) (k ++ String ";" attrs) key = Some (Some k).
Proof.
  intros Hk Ha. cbn [cookie_loop].
  rewrite (scan_stop (fun c => is_semicolon c || is_comma c) k ";" attrs Hk
             eq_refl).
  change (is_semicolon ";") with true. cbv iota.
  rewrite (scan_end is_comma (String ";" attrs)); [reflexivity|].
  cbn [all_chars]. rewrite Ha. reflexivity.
Qed.

Lemma cookie_loop_next (fuel : nat) (k attrs : string) (x : ascii)
    (next : string) (key : option string) :
  all_chars (fun c => negb (is_semicolon c || is_comma c)) k = true ->
  all_chars (fun c => negb (is_comma c)) attrs = true ->
  cookie_loop (S fuel) (k ++ String ";" (attrs ++ String "," (String x next)))
    key
  = cookie_loop fuel next (Some k).
Proof.
  intros Hk Ha. cbn [cookie_loop].
  rewrite (scan_stop (fun c => is_semicolon c || is_comma c) k ";" _ Hk eq_refl).
  change (is_semicolon ";") with true. cbv iota.
  change (String ";" (attrs ++ String "," (String x next)))
    with (String ";" attrs ++ String "," (String x next)).
  rewrite (scan_stop is_comma (String ";" attrs) "," (String x next));
    [reflexivity| |reflexivity].
  cbn [all_chars]. rewrite Ha. reflexivity.
Qed.

(** X26: after a response of class 2 or with code 401 whose Set-Cookie
    header is one cookie, [key;attributes] with no comma in it, the
    session key is the text before the first semicolon, whatever the key
    was before. (The hook counts in int: headers are shorter than 2^31
    bytes.) *)
Theorem session_cookie_captured (status : ne_status) (k attrs : string)
    (session_key : option string) :
  klass status = 2 \/ code status = 401 ->
  Z.of_nat (String.length (k ++ String ";" attrs)) < 2 ^ 31 ->
  all_chars (fun c => negb (is_semicolon c || is_comma c)) k = true ->
  all_chars (fun c => negb (is_comma c)) attrs = true ->
  post_request_hook (Some status) (Some (k ++ String ";" attrs)) session_key
  = Some (Some k).
Proof.
  intros Hs _ Hk Ha. unfold post_request_hook.
  replace ((klass status =? 2) || (code status =? 401)) with true
    by (symmetry; apply orb_true_iff; destruct Hs as [Hs|Hs]; rewrite Hs;
        [left|right]; reflexivity).
  rewrite (cookie_loop_single _ k attrs None Hk Ha). reflexivity.
Qed.

(** X27: of two cookies joined in one Set-Cookie header the second one
    gives the session key; the byte behind the separating comma is
    skipped without a look at it. *)
Theorem last_cookie_wins (status : ne_status) (k1 a1 k2 a2 : string)
    (x : ascii) (session_key : option string) :
  klass status = 2 \/ code status = 401 ->
  Z.of_nat (String.length
              (k1 ++ String ";"
                 (a1 ++ String "," (String x (k2 ++ String ";" a2)))))
  < 2 ^ 31 ->
  all_chars (fun c => negb (is_semicolon c || is_comma c)) k1 = true ->
  all_chars (fun c => negb (is_comma c)) a1 = true ->
  all_chars (fun c => negb (is_semicolon c || is_comma c)) k2 = true ->
  all_chars (fun c => negb (is_comma c)) a2 = true ->
  post_request_hook (Some status)
    (Some (k1 ++ String ";" (a1 ++ String "," (String x (k2 ++ String ";" a2)))))
    session_key
  = Some (Some k2).
Proof.
  intros Hs _ Hk1 Ha1 Hk2 Ha2. unfold post_request_hook.
  replace ((klass status =? 2) || (code status =? 401)) with true
    by (symmetry; apply orb_true_iff; destruct Hs as [Hs|Hs]; rewrite Hs;
        [left|right]; reflexivity).
  rewrite (cookie_loop_next _ k1 a1 x _ None Hk1 Ha1).
  assert (exists n, String.length
            (k1 ++ String ";" (a1 ++ String "," (String x (k2 ++ String ";" a2))))
          = S n) as [n ->].
  { destruct k1; cbn [String.length]; eauto. }
  rewrite (cookie_loop_single _ k2 a2 (Some k1) Hk2 Ha2). reflexivity.
Qed.

(** X28: the session key is left as it was when the response is neither
    of class 2 nor a 401, when it has no Set-Cookie header, and when the
    header holds no semicolon. *)
Theorem session_key_kept (status : ne_status) (header : option string)
    (session_key : option string) :
  (klass status <> 2 /\ code status <> 401)
  \/ header = None
  \/ (exists h, header = Some h
                /\ Z.of_nat (String.length h) < 2 ^ 31
                /\ all_chars (fun c => negb (is_semicolon c)) h = true) ->
  post_request_hook (Some status) header session_key = Some session_key.
Proof.
  intros Hcase. unfold post_request_hook.
  destruct ((klass status =? 2) || (code status =? 401)) eqn:Hs;
    [|reflexivity].
  destruct Hcase as [[Hk Hc] | [-> | [h [-> [_ Hh] ] ] ] ].
  - apply orb_true_iff in Hs. destruct Hs as [Hs|Hs]; apply Z.eqb_eq in Hs;
      contradiction.
  - reflexivity.
  - rewrite (cookie_loop_without_semicolon _ h None Hh). reflexivity.
Qed.

End CookieProperties.

(** ** csync.h and csync_config.c *)

Section ConfigProperties.

Context `{Platform}.

Lemma tolower_idempotent (c : ascii) :
  Config.tolower (Config.tolower c) = Config.tolower c.
Proof. destruct c as [[] [] [] [] [] [] [] []]; reflexivity. Qed.

Lemma strcasecmp_lower (a : string) : forall b,
  Config.strcasecmp_eq (Config.lower a) b = Config.strcasecmp_eq a b.
Proof.
  induction a as [|x a IH]; intros [|y b]; try reflexivity.
  cbn [Config.lower Config.strcasecmp_eq].
  rewrite tolower_idempotent, IH. reflexivity.
Qed.

(** X29: the configuration handler matches the section and the key
    without regard to case: it does to the options, and returns, what it
    does for the section and key in lower case. *)
Theorem handler_ignores_case (user : option Config.options)
    (section name value : string) :
  handler user section name value
  = handler user (Config.lower section) (Config.lower name) value.
Proof.
  unfold handler, Config.MATCH. rewrite !strcasecmp_lower. reflexivity.
Qed.

Lemma shiftl_lor_add (a k y : Z) :
  0 <= k -> 0 <= y < 2 ^ k -> Z.lor (Z.shiftl a k) y = a * 2 ^ k + y.
Proof.
  intros Hk Hy. rewrite <- Z.shiftl_mul_pow2 by exact Hk.
  symmetry. apply Z.add_nocarry_lor.
  apply Z.bits_inj'. intros n Hn.
  rewrite Z.land_spec, Z.bits_0.
  destruct (Z.lt_ge_cases n k) as [Hlt|Hge].
  - rewrite Z.shiftl_spec_low by exact Hlt. reflexivity.
  - destruct (Z.eq_dec y 0) as [->|Hy0].
    + rewrite Z.bits_0, andb_false_r. reflexivity.
    + rewrite (Z.bits_above_log2 y n), andb_false_r; [reflexivity|lia|].
      apply Z.log2_lt_pow2; [lia|].
      apply Z.lt_le_trans with (2 ^ k); [lia|].
      apply Z.pow_le_mono_r; lia.
Qed.

Lemma CSYNC_VERSION_INT_sum (a b c : Z) :
  0 <= b < 256 -> 0 <= c < 256 ->
  CSYNC_VERSION_INT a b c = a * 65536 + b * 256 + c.
Proof.
  intros Hb Hc. unfold CSYNC_VERSION_INT.
  rewrite <- Z.lor_assoc.
  rewrite (shiftl_lor_add b 8 c) by (change (2 ^ 8) with 256; lia).
  change (2 ^ 8) with 256.
  rewrite (shiftl_lor_add a 16 (b * 256 + c))
    by (change (2 ^ 16) with 65536; lia).
  change (2 ^ 16) with 65536. lia.
Qed.

(** X30: version numbers whose minor and micro parts are below 256 (and
    whose major part can be shifted within an int) are ordered by
    CSYNC_VERSION_INT as the triples are ordered: by the major part,
    then the minor, then the micro part. *)
Theorem CSYNC_VERSION_INT_order (a b c a' b' c' : Z) :
  0 <= a < 32768 -> 0 <= b < 256 -> 0 <= c < 256 ->
  0 <= a' < 32768 -> 0 <= b' < 256 -> 0 <= c' < 256 ->
  CSYNC_VERSION_INT a b c < CSYNC_VERSION_INT a' b' c'
  <-> a < a' \/ (a = a' /\ (b < b' \/ (b = b' /\ c < c'))).
Proof.
  intros _ Hb Hc _ Hb' Hc'. rewrite !CSYNC_VERSION_INT_sum by assumption. lia.
Qed.

End ConfigProperties.

(** * The further statements at work on the sample platform *)

Section MoreExamples.

Import Sample Scenario.

Local Existing Instance platform.

Lemma session_error_text_decides_errno_witness :
  let g' := set_errno_from_neon_errcode NE_ERROR "404 Not Found"
              vio_module_init in
  error_string (dav_session g') = Some "404 Not Found" /\ errno g' = ENOENT.
Proof.
  pose proof (session_error_text_decides_errno NE_ERROR "404 Not Found"
                vio_module_init (or_intror eq_refl)) as W.
  cbv zeta in W |- *. destruct W as [H1 H2].
  split; [exact H1|]. rewrite H2. vm_compute. reflexivity.
Defined.

Lemma dav_connect_only_once_witness :
  dav_connect a_txt connect_ok vio_module_init = (connected, 0)
  /\ dav_connect "owncloud://elsewhere/x" connect_ok connected
     = (connected, 0).
Proof.
  assert (dav_connect a_txt connect_ok vio_module_init = (connected, 0))
    as Hc by (vm_compute; reflexivity).
  split; [exact Hc|].
  exact (dav_connect_only_once a_txt connect_ok vio_module_init connected
           "owncloud://elsewhere/x" connect_ok Hc).
Defined.

Lemma dav_connect_success_witness :
  _connected vio_module_init = false
  /\ exists u, c_parse_uri a_txt = Some u
               /\ read_timeout (dav_session connected) = 30.
Proof.
  split; [reflexivity|].
  assert (dav_connect a_txt connect_ok vio_module_init = (connected, 0))
    as Hc by (vm_compute; reflexivity).
  destruct (dav_connect_success a_txt connect_ok vio_module_init connected
              eq_refl Hc) as (u & protocol & tail & Hu & _ & _ & _ & Ht & _).
  exists u. split; [exact Hu|exact Ht].
Defined.

Lemma failed_fetch_keeps_caches_witness :
  let g1 := fst (fetch_resource_list a_txt NE_DEPTH_ONE not_found
                   after_readdir) in
  caches g1 = caches after_readdir
  /\ time_delta (dav_session g1) = time_delta (dav_session after_readdir).
Proof.
  cbv zeta.
  apply (failed_fetch_keeps_caches a_txt NE_DEPTH_ONE not_found after_readdir).
  vm_compute. reflexivity.
Defined.

Lemma fresh_listing_conditions_witness :
  wire fetched
  = (wire connected ++ [Ne_propfind_named (Some "/sync/") NE_DEPTH_ONE])%list
  /\ propfind_cache fetched = Some 1%positive.
Proof.
  assert (cached_listing sync_dir connected = None) as H1
    by (vm_compute; reflexivity).
  assert (fetch_resource_list sync_dir NE_DEPTH_ONE sync_listing connected
          = (fetched, Some 1%positive)) as H2 by (vm_compute; reflexivity).
  destruct (fresh_listing_conditions sync_dir NE_DEPTH_ONE sync_listing
              connected fetched 1%positive H1 H2)
    as (_ & _ & _ & Hw & Hp).
  split; [exact Hw|exact Hp].
Defined.

Lemma second_fetch_hits_cache_witness :
  exists g2,
    fetch_resource_list "owncloud://other/sync/" NE_DEPTH_ONE not_found fetched
    = (g2, Some 1%positive)
    /\ wire g2 = wire fetched.
Proof.
  assert (cached_listing sync_dir connected = None) as H1
    by (vm_compute; reflexivity).
  assert (fetch_resource_list sync_dir NE_DEPTH_ONE sync_listing connected
          = (fetched, Some 1%positive)) as H2 by (vm_compute; reflexivity).
  assert (_cleanPath sync_dir = Some "/sync/") as H3
    by (vm_compute; reflexivity).
  assert (_cleanPath "owncloud://other/sync/" = Some "/sync/") as H4
    by (vm_compute; reflexivity).
  destruct (second_fetch_hits_cache sync_dir "owncloud://other/sync/"
              NE_DEPTH_ONE NE_DEPTH_ONE sync_listing not_found connected
              fetched 1%positive "/sync/" H1 H2 H3 H4)
    as (g2 & Hf & Hw & _).
  exists g2. split; [exact Hf|exact Hw].
Defined.

Lemma listing_context_released_witness :
  let g1 := fst (fetch_resource_list sync_dir NE_DEPTH_ONE sync_listing
                   after_readdir) in
  propfind_cache after_readdir = Some 1%positive
  /\ (lc_ref <$> store g1 !! 2%positive) = Some 2
  /\ store (clean_caches (free_fetchCtx (Some 2%positive) g1))
     = store (clean_caches after_readdir).
Proof.
  cbv zeta. split; [reflexivity|].
  assert (cached_listing sync_dir after_readdir = None) as H1
    by (vm_compute; reflexivity).
  assert (store after_readdir !! next_addr after_readdir = None) as H2
    by (vm_compute; reflexivity).
  assert (fetch_resource_list sync_dir NE_DEPTH_ONE sync_listing after_readdir
          = (fst (fetch_resource_list sync_dir NE_DEPTH_ONE sync_listing
                    after_readdir), Some 2%positive)) as H3
    by (vm_compute; reflexivity).
  destruct (listing_context_released sync_dir NE_DEPTH_ONE sync_listing
              after_readdir _ 2%positive H1 H2 H3)
    as (Hr & _ & _ & Hs & _).
  split; [exact Hr|exact Hs].
Defined.

Lemma readdir_visits_each_entry_once_witness :
  let '(g', entries) := readdir_all 4 1%positive opened in
  map fs_name entries = [Some "b.txt"; Some "a.txt"]
  /\ (lc_currResource <$> store g' !! 1%positive) = Some [].
Proof.
  pose (l := lc_list (listed sync_dir sync_listing)).
  assert (store opened !! 1%positive
          = Some {| lc_list := l; lc_currResource := l;
                    lc_target := Some "/sync/"; lc_result_count := 3;
                    lc_ref := 2 |}) as Hc by (vm_compute; reflexivity).
  assert (length l <= 4)%nat as Hl by (vm_compute; lia).
  pose proof (readdir_visits_each_entry_once 1%positive 4 opened _ Hc Hl) as W.
  destruct (readdir_all 4 1%positive opened) as [g' entries].
  destruct W as [He Hend]. split.
  - rewrite He. vm_compute. reflexivity.
  - apply Hend. vm_compute. lia.
Defined.

Lemma stat_of_slash_terminated_uri_witness :
  accepted sync_listing = true
  /\ exists g',
       owncloud_stat sync_dir zero_file_stat sync_listing vio_module_init
       = (g',
          {| fs_name := Some "sync"; fs_fields := fs_fields zero_file_stat;
             fs_type := fs_type zero_file_stat;
             fs_mtime := fs_mtime zero_file_stat;
             fs_size := fs_size zero_file_stat;
             fs_mode := fs_mode zero_file_stat;
             fs_md5 := fs_md5 zero_file_stat |},
          0).
Proof.
  split; [vm_compute; reflexivity|].
  apply (stat_of_slash_terminated_uri sync_dir zero_file_stat sync_listing
           vio_module_init "sync" "/sync/");
    vm_compute; reflexivity.
Defined.

Lemma stat_after_put_close_asks_server_witness :
  exists tail,
    wire (fst (fst (owncloud_stat a_txt zero_file_stat not_found
                      (fst (owncloud_close (Some put_handle) after_readdir)))))
    = (wire after_readdir ++ Ne_request_destroy (tc_req put_handle)
         :: Ne_propfind_named (_cleanPath a_txt) NE_DEPTH_ONE :: tail)%list.
Proof.
  exact (stat_after_put_close_asks_server put_handle a_txt zero_file_stat
           not_found after_readdir "a.txt" eq_refl eq_refl).
Defined.

Lemma rmdir_result_witness :
  snd (owncloud_rmdir a_txt connect_ok created vio_module_init) = 0
  /\ wire (fst (owncloud_rmdir a_txt connect_ok created vio_module_init))
     = (wire connected ++ [Ne_delete (Some "/sync/a.txt")])%list.
Proof.
  assert (dav_connect a_txt connect_ok vio_module_init = (connected, 0))
    as Hc by (vm_compute; reflexivity).
  pose proof (rmdir_result a_txt connect_ok created vio_module_init connected
                0 Hc) as W.
  destruct (owncloud_rmdir a_txt connect_ok created vio_module_init)
    as [g' rc].
  destruct W as [Hrc Hw]. split; [exact Hrc|exact Hw].
Defined.

Lemma stat_after_delete_is_stale_witness :
  let '(g2, buf', rc) :=
    owncloud_stat "owncloud://host/a/x.txt" zero_file_stat not_found
      (fst (owncloud_unlink "owncloud://host/a/x.txt" connect_ok created
              after_readdir)) in
  rc = 0 /\ fs_size buf' = 1024.
Proof.
  pose proof (stat_after_delete_is_stale "owncloud://host/a/x.txt" connect_ok
                created zero_file_stat not_found after_readdir "x.txt"
                eq_refl eq_refl _ (or_intror eq_refl)) as W.
  destruct (owncloud_stat "owncloud://host/a/x.txt" zero_file_stat not_found _)
    as [[g2 buf'] rc].
  destruct W as (Hrc & _ & _ & Hs & _).
  split; [exact Hrc|]. rewrite Hs. vm_compute. reflexivity.
Defined.

Lemma sendfile_put_events_witness :
  let g' := fst (fst (owncloud_sendfile (Some 3) (Some put_handle)
                        insufficient_storage with_progress)) in
  errno g' = ENOSPC
  /\ wire g'
     = [Ne_set_request_body_fd
          {| req_method := "PUT"; req_path := Some "/sync/a.txt" |} 3 1024;
        Ne_set_notifier true;
        Progress (Some a_txt) CSYNC_NOTIFY_START_UPLOAD 0 None;
        Ne_request_dispatch
          (Some {| req_method := "PUT"; req_path := Some "/sync/a.txt" |});
        Progress_bytes (Some a_txt) 512 1024;
        Progress_bytes (Some a_txt) 1024 1024;
        Ne_set_notifier false;
        Progress (Some a_txt) CSYNC_NOTIFY_ERROR 507
          (Some "Insufficient Storage")].
Proof.
  pose proof (sendfile_put_events 3 put_handle
                {| req_method := "PUT"; req_path := Some "/sync/a.txt" |}
                1024 insufficient_storage with_progress
                eq_refl eq_refl eq_refl eq_refl) as W.
  cbv zeta in W |- *. destruct W as (Hw & _ & _ & He). split.
  - rewrite He by (vm_compute; discriminate). vm_compute. reflexivity.
  - rewrite Hw. vm_compute. reflexivity.
Defined.

Lemma download_records_etag_of_any_response_witness :
  _id_cache (fst (fst (owncloud_sendfile (Some 3) (Some get_handle) error_page
                         vio_module_init)))
  = {| idc_uri := Some a_txt; idc_id := Some (quoted "e404") |}.
Proof.
  pose proof (download_records_etag_of_any_response 3 get_handle error_page
                vio_module_init eq_refl) as W.
  cbv zeta in W. destruct W as [H1 _].
  apply (H1 _ _ eq_refl eq_refl). vm_compute. discriminate.
Defined.

Lemma file_id_after_download_witness :
  let g' := fst (fst (owncloud_sendfile (Some 3) (Some get_handle) download_ok
                        vio_module_init)) in
  owncloud_file_id a_txt not_found g' = Some (g', Some "abc").
Proof.
  apply (file_id_after_download 3 get_handle download_ok
           {| h_content_encoding := Some "gzip";
              h_etag := Some (quoted "abc") |}
           vio_module_init a_txt "abc" not_found);
    vm_compute; reflexivity.
Defined.

Lemma open_returns_put_or_get_witness :
  owncloud_open c_dirname a_txt 0 connect_ok not_found None vio_module_init
  = (connected, None, Some get_handle)
  /\ exists path,
       _cleanPath a_txt = Some path
       /\ tc_method get_handle = "GET"
       /\ tc_req get_handle
          = Some {| req_method := "GET"; req_path := Some path |}.
Proof.
  assert (owncloud_open c_dirname a_txt 0 connect_ok not_found None
            vio_module_init
          = (connected, None, Some get_handle)) as Ho
    by (vm_compute; reflexivity).
  split; [exact Ho|].
  destruct (open_returns_put_or_get c_dirname a_txt 0 connect_ok not_found
              None vio_module_init connected None get_handle Ho)
    as (path & Hp & _ & _ & Hm & _ & Hr).
  exists path. split; [exact Hp|]. split; [exact Hm|exact Hr].
Defined.

Lemma open_remembers_parent_witness :
  owncloud_open c_dirname a_txt O_WRONLY connect_ok not_found
    (Some "owncloud://host/sync") connected
  = (connected, Some "owncloud://host/sync", Some put_handle).
Proof.
  apply (open_remembers_parent c_dirname a_txt O_WRONLY connect_ok not_found
           "owncloud://host/sync" "/sync/a.txt" connected);
    vm_compute; reflexivity.
Defined.

Lemma open_for_write_reports_ENOENT_witness :
  let '(g', lastDir', handle) :=
    owncloud_open c_dirname a_txt O_CREAT connect_ok login_rejected None
      vio_module_init in
  handle = None /\ errno g' = ENOENT.
Proof.
  pose proof (open_for_write_reports_ENOENT c_dirname a_txt O_CREAT connect_ok
                login_rejected None "owncloud://host/sync" "sync" "/sync/a.txt"
                vio_module_init eq_refl eq_refl eq_refl eq_refl eq_refl
                eq_refl eq_refl eq_refl) as W.
  destruct (owncloud_open c_dirname a_txt O_CREAT connect_ok login_rejected
              None vio_module_init) as [[g' lastDir'] handle].
  destruct W as (Hh & He & _). split; [exact Hh|exact He].
Defined.

Lemma creat_then_close_clears_caches_witness :
  owncloud_creat c_dirname a_txt connect_ok not_found
    (Some "owncloud://host/sync") vio_module_init
  = (connected, Some "owncloud://host/sync", Some put_handle)
  /\ caches_cleared (fst (owncloud_close (Some put_handle) after_readdir)).
Proof.
  assert (owncloud_creat c_dirname a_txt connect_ok not_found
            (Some "owncloud://host/sync") vio_module_init
          = (connected, Some "owncloud://host/sync", Some put_handle)) as Ho
    by (vm_compute; reflexivity).
  split; [exact Ho|].
  destruct (creat_then_close_clears_caches c_dirname a_txt connect_ok
              not_found (Some "owncloud://host/sync") vio_module_init
              connected (Some "owncloud://host/sync") put_handle Ho)
    as [_ Hc].
  exact (Hc after_readdir).
Defined.

Lemma corrupt_month_is_next_january_witness :
  Win32.timegm month_12_1994
  = Win32.timegm {| tm_sec := 37; tm_min := 49; tm_hour := 8; tm_mday := 6;
                    tm_mon := 0; tm_year := 95; tm_isdst := 0 |}.
Proof.
  apply (corrupt_month_is_next_january month_12_1994);
    [cbn; lia|reflexivity].
Defined.

Lemma timegm_is_utc_seconds_witness :
  Win32.timegm nov_6_1994 = Some 784111777.
Proof.
  rewrite (timegm_is_utc_seconds nov_6_1994) by (cbn; lia).
  vm_compute. reflexivity.
Defined.

Lemma session_cookie_captured_witness :
  post_request_hook (Some (status 200 "OK"))
    (Some "50ace6bd8a669=p537brtt; path=/; HttpOnly") (Some "old")
  = Some (Some "50ace6bd8a669=p537brtt").
Proof.
  apply (session_cookie_captured (status 200 "OK") "50ace6bd8a669=p537brtt"
           " path=/; HttpOnly" (Some "old"));
    [left|..]; vm_compute; reflexivity.
Defined.

Lemma last_cookie_wins_witness :
  post_request_hook (Some (status 200 "OK"))
    (Some "a=1; expires=Mon, 01-Jan-2030 00:00:00 GMT; path=/") None
  = Some (Some "01-Jan-2030 00:00:00 GMT").
Proof.
  apply (last_cookie_wins (status 200 "OK") "a=1" " expires=Mon"
           "01-Jan-2030 00:00:00 GMT" " path=/" " " None);
    [left|..]; vm_compute; reflexivity.
Defined.

Lemma session_key_kept_witness :
  post_request_hook (Some (status 404 "Not Found"))
    (Some "a=1; path=/") (Some "old")
  = Some (Some "old").
Proof.
  apply session_key_kept. left. split; vm_compute; discriminate.
Defined.

Lemma CSYNC_VERSION_INT_order_witness :
  LIBCSYNC_VERSION_INT < CSYNC_VERSION_INT 0 50 0.
Proof.
  apply (CSYNC_VERSION_INT_order 0 49 9 0 50 0); lia.
Defined.



(** A stat that succeeds can leave ERANGE in errno: the content length
    of a listed resource does not fit, and nothing clears errno after
    the callback. *)
Example stat_leaves_ERANGE :
  let '(g', buf', rc) :=
    owncloud_stat a_txt zero_file_stat huge_listing vio_module_init in
  rc = 0 /\ errno g' = ERANGE /\ fs_size buf' = 2 ^ 63 - 1.
Proof. vm_compute. repeat split. Qed.

End MoreExamples.
